(** * open-utrecht-datasets: the Woo connector, the MCP server and the proxy

    A shallow embedding of [woo_connector.py] (keyword extraction, topic
    mapping, category suggestion, search terms, analysis, ranking and the
    report), of [mcp_server.py] (the request dispatch, the handlers of the
    search and of the two Woo tools, and the loop of [main]) and of the
    request handling of [proxy_server.py], followed by the properties the
    specification states about them and by further properties of the
    code.

    Python values live in a heap of mutable objects ([dict] and [list]);
    code that may raise runs in a state-and-exception monad over that heap.
    Python strings are sequences of Unicode code points. *)

From stdpp Require Import base list option numbers strings pretty sorting.

#[local] Set Warnings "-clear-no-such-hyp".

(* ================================================================== *)
(** * Part I: the embedding *)
(* ================================================================== *)

(** ** Python strings *)

Module PyStr.

(** A [str] is a sequence of code points. *)
Abbreviation pystr := (list N).

(** A literal of ASCII characters. *)
Definition ustr (s : string) : pystr :=
  Ascii.N_of_ascii <$> String.list_ascii_of_string s.

(** [s.startswith(p)] *)
Fixpoint starts_with (p s : pystr) : bool :=
  match p, s with
  | [], _ => true
  | _ :: _, [] => false
  | a :: p', b :: s' => (a =? b)%N && starts_with p' s'
  end.

(** [sub in s] for two strings: [sub] occurs in [s] as a contiguous run. *)
Fixpoint str_contains (sub s : pystr) : bool :=
  starts_with sub s ||
  match s with
  | [] => false
  | _ :: s' => str_contains sub s'
  end.

(** [sep.join(parts)] *)
Fixpoint str_join (sep : pystr) (parts : list pystr) : pystr :=
  match parts with
  | [] => []
  | [p] => p
  | p :: rest => p ++ sep ++ str_join sep rest
  end.

(** The Latin-1 part of the Unicode lower-case table: A-Z and the capital
    letters U+00C0..U+00DE (the multiplication sign U+00D7 apart) move 32
    places up, every other code point below U+0100 stays. *)
Definition latin1_lower (c : N) : N :=
  (if (65 <=? c) && (c <=? 90) then c + 32
   else if (192 <=? c) && (c <=? 222) && negb (c =? 215) then c + 32
   else c)%N.

(** The ASCII part of the regular expression class [\w]. *)
Definition ascii_word (c : N) : bool :=
  (((48 <=? c) && (c <=? 57)) || ((65 <=? c) && (c <=? 90))
   || ((97 <=? c) && (c <=? 122)) || (c =? 95))%N.

(** What the code takes from Python's Unicode database: [str.lower] and the
    class [\w] of [re].  The tables themselves are a parameter; the laws
    are the facts about them that the properties below rest on. *)
Class Unicode := {
  py_lower : pystr → pystr;
  is_word_char : N → bool;
  py_lower_latin1 : ∀ s, Forall (λ c, c < 256)%N s → py_lower s = latin1_lower <$> s;
  py_lower_stable : ∀ s a w b, py_lower s = a ++ w ++ b → py_lower w = w;
  is_word_char_ascii : ∀ c, (c < 128)%N → is_word_char c = ascii_word c
}.

(** The order in which a [set] is iterated.  [py_set l] is the iteration
    order of the set that received the elements of [l] one after the other.
    Python leaves the order open; it has no repetition and holds exactly
    the inserted elements. *)
Class SetOrder := {
  py_set : list pystr → list pystr;
  py_set_NoDup : ∀ l, NoDup (py_set l);
  py_set_elem_of : ∀ l x, x ∈ py_set l ↔ x ∈ l
}.

(** [sorted(l, key=key, reverse=True)]: Python's sort is stable, also with
    [reverse=True]; it is embedded as a stable insertion sort on the key in
    descending order. *)
Section sorting.
Context {A : Type} (key : A → Z).

Fixpoint insert_desc (x : A) (l : list A) : list A :=
  match l with
  | [] => [x]
  | y :: l' => if (key x <? key y)%Z then y :: insert_desc x l' else x :: y :: l'
  end.

Definition sorted_desc (l : list A) : list A := foldr insert_desc [] l.

End sorting.

(** [list(dict.fromkeys(l))]: the keys of a dict in insertion order; a key
    inserted again keeps its place. *)
Definition dict_fromkeys (l : list pystr) : list pystr :=
  foldl (λ acc x, if bool_decide (x ∈ acc) then acc else acc ++ [x]) [] l.

End PyStr.
Export PyStr.

(** ** The regular expression [\b\w+\b] *)

Module Re.
Section re.
Context `{!Unicode}.

(** [\w] at a position that may lie outside the text. *)
Definition is_word (c : option N) : bool := from_option is_word_char false c.

(** [\b]: exactly one of the two neighbours is a word character. *)
Definition at_word_boundary (prev next : option N) : bool :=
  xorb (is_word prev) (is_word next).

(** [\w+\b] at the start of [s], greedy with backtracking: one word
    character, then as many more as still lead to a match; where no longer
    match exists the run ends here, provided a boundary follows.  The result
    is the matched text and the rest. *)
Fixpoint match_word_run (s : pystr) : option (pystr * pystr) :=
  match s with
  | [] => None
  | c :: s' =>
      if is_word_char c then
        match match_word_run s' with
        | Some (m, rest) => Some (c :: m, rest)
        | None => if at_word_boundary (Some c) (head s') then Some ([c], s') else None
        end
      else None
  end.

(** [\b\w+\b] at a position whose left neighbour is [prev]. *)
Definition match_word_at (prev : option N) (s : pystr) : option (pystr * pystr) :=
  if at_word_boundary prev (head s) then match_word_run s else None.

(** The scan of [re.findall]: a match is reported and the scan resumes
    after it; where the pattern does not match, the scan moves on by one
    character.  [fuel] bounds the number of steps. *)
Fixpoint findall_from (fuel : nat) (prev : option N) (s : pystr) : list pystr :=
  match fuel, s with
  | O, _ | _, [] => []
  | S fuel', c :: s' =>
      match match_word_at prev s with
      | Some (m, rest) => m :: findall_from fuel' (last m) rest
      | None => findall_from fuel' (Some c) s'
      end
  end.

(** [re.findall(r'\b\w+\b', s)] *)
Definition findall_words (s : pystr) : list pystr :=
  findall_from (length s) None s.

End re.
End Re.

(** ** Python objects, exceptions and the monad of running code *)

Module Py.

(** A value is an immutable scalar or a reference to a mutable object of
    the heap.  A [{}] or [[]] that a function makes for itself and only
    reads is a value of its own ([VEmptyDict], [VEmptyList]): no other code
    can reach it. *)
Inductive val :=
  | VNone
  | VBool (b : bool)
  | VInt (n : Z)
  | VStr (s : pystr)
  | VRef (l : nat)
  | VEmptyDict
  | VEmptyList.

(** The mutable objects: a dict (keys in insertion order, each once) and a
    list. *)
Inductive obj :=
  | ODict (items : list (pystr * val))
  | OList (items : list val).

Abbreviation heap := (list obj).

(** The exceptions of class [Exception]. *)
Inductive exn :=
  | AttributeError (msg : pystr)
  | TypeError (msg : pystr)
  | KeyError (key : pystr)
  | NameError (name : pystr)
  | Exception (msg : pystr).

(** [str(e)]: the message; for a [KeyError] the [repr] of the key (the keys
    the code subscripts with hold nothing that [repr] escapes); for a
    [NameError] the sentence on the name that is not defined. *)
Definition exn_str (e : exn) : pystr :=
  match e with
  | AttributeError msg | TypeError msg | Exception msg => msg
  | KeyError key => ustr "'" ++ key ++ ustr "'"
  | NameError name => ustr "name '" ++ name ++ ustr "' is not defined"
  end.

(** Code runs on a heap and ends in a value or an exception. *)
Definition M (A : Type) : Type := heap → (exn + A) * heap.

#[global] Instance M_ret : MRet M := λ A a h, (inr a, h).

#[global] Instance M_bind : MBind M := λ A B f m h,
  match m h with
  | (inr a, h') => f a h'
  | (inl e, h') => (inl e, h')
  end.

Definition raise {A} (e : exn) : M A := λ h, (inl e, h).

(** [try: m  except Exception as e: handler e] *)
Definition try_except {A} (m : M A) (handler : exn → M A) : M A := λ h,
  match m h with
  | (inl e, h') => handler e h'
  | (inr a, h') => (inr a, h')
  end.

Definition get_heap : M heap := λ h, (inr h, h).

(** The dict or the list a value stands for. *)
Definition as_dict (h : heap) (v : val) : option (list (pystr * val)) :=
  match v with
  | VEmptyDict => Some []
  | VRef l => match h !! l with Some (ODict d) => Some d | _ => None end
  | _ => None
  end.

Definition as_list (h : heap) (v : val) : option (list val) :=
  match v with
  | VEmptyList => Some []
  | VRef l => match h !! l with Some (OList xs) => Some xs | _ => None end
  | _ => None
  end.

(** [type(v).__name__]; a reference that leaves the heap does not occur in
    a Python state and is given the name [object]. *)
Definition type_name (h : heap) (v : val) : pystr :=
  match v with
  | VNone => ustr "NoneType"
  | VBool _ => ustr "bool"
  | VInt _ => ustr "int"
  | VStr _ => ustr "str"
  | VEmptyDict => ustr "dict"
  | VEmptyList => ustr "list"
  | VRef l =>
      match h !! l with
      | Some (ODict _) => ustr "dict"
      | Some (OList _) => ustr "list"
      | None => ustr "object"
      end
  end.

(** [bool(v)] *)
Definition truthy (h : heap) (v : val) : bool :=
  match v with
  | VNone => false
  | VBool b => b
  | VInt n => negb (n =? 0)%Z
  | VStr s => negb (bool_decide (s = []))
  | VEmptyDict | VEmptyList => false
  | VRef l =>
      match h !! l with
      | Some (ODict d) => negb (bool_decide (d = []))
      | Some (OList xs) => negb (bool_decide (xs = []))
      | None => true
      end
  end.

(** [d.get(k)] on the items of a dict. *)
Fixpoint items_get (k : pystr) (d : list (pystr * val)) : option val :=
  match d with
  | [] => None
  | (k', v) :: d' => if bool_decide (k' = k) then Some v else items_get k d'
  end.

(** [o.get(k, dflt)]: only a dict has the method. *)
Definition dict_get (o : val) (k : pystr) (dflt : val) : M val :=
  h ← get_heap;
  match as_dict h o with
  | Some d => mret (default dflt (items_get k d))
  | None =>
      raise (AttributeError
               (ustr "'" ++ type_name h o ++ ustr "' object has no attribute 'get'"))
  end.

(** [k in o] for a dict. *)
Definition dict_has (d : list (pystr * val)) (k : pystr) : bool :=
  bool_decide (is_Some (items_get k d)).

(** [o[k]] with a string [k]. *)
Definition subscript (o : val) (k : pystr) : M val :=
  h ← get_heap;
  match as_dict h o with
  | Some d =>
      match items_get k d with
      | Some v => mret v
      | None => raise (KeyError k)
      end
  | None =>
      match o with
      | VStr _ => raise (TypeError (ustr "string indices must be integers, not 'str'"))
      | VRef _ | VEmptyList =>
          raise (TypeError (ustr "list indices must be integers or slices, not str"))
      | _ => raise (TypeError (ustr "'" ++ type_name h o ++ ustr "' object is not subscriptable"))
      end
  end.

(** [a or b], with [b] evaluated only when [a] is false. *)
Definition py_or (a : val) (b : M val) : M val :=
  h ← get_heap;
  if truthy h a then mret a else b.

(** [v == s] for a string literal [s]. *)
Definition eq_str (v : val) (s : pystr) : bool :=
  match v with
  | VStr s' => bool_decide (s' = s)
  | _ => false
  end.

(** The strings [sep.join(v)] iterates over: the items of a list, which
    must be strings; the keys of a dict; the characters of a string. *)
Fixpoint str_items (i : nat) (h : heap) (xs : list val) : exn + list pystr :=
  match xs with
  | [] => inr []
  | VStr s :: xs' =>
      match str_items (S i) h xs' with
      | inr ss => inr (s :: ss)
      | inl e => inl e
      end
  | x :: _ =>
      inl (TypeError (ustr "sequence item " ++ ustr (pretty i) ++
                      ustr ": expected str instance, " ++ type_name h x ++ ustr " found"))
  end.

Definition py_join (sep : pystr) (v : val) : M pystr :=
  h ← get_heap;
  match v with
  | VStr s => mret (str_join sep ((λ c, [c]) <$> s))
  | _ =>
      match as_list h v, as_dict h v with
      | Some xs, _ =>
          match str_items 0 h xs with
          | inr ss => mret (str_join sep ss)
          | inl e => raise e
          end
      | None, Some d => mret (str_join sep (fst <$> d))
      | None, None => raise (TypeError (ustr "can only join an iterable"))
      end
  end.

(** [format(v, '')], what an f-string puts in the place of [{v}].  For a
    string it is the string; the text Python prints for the other values
    (numbers, [repr] of containers) is a parameter. *)
Class Format := {
  py_format : heap → val → pystr;
  py_format_str : ∀ h s, py_format h (VStr s) = s
}.

End Py.
Export Py.

(** ** [woo_connector.py]: the tables and the functions on keywords *)

Module WooConnector.

(** ["financiën"], with its one letter outside ASCII (U+00EB). *)
Definition financien : pystr := ustr "financi" ++ [235%N] ++ ustr "n".

Definition WOO_CATEGORIES : list (pystr * pystr) :=
  [ (ustr "1a", ustr "Convenanten");
    (ustr "1b", ustr "Jaarplannen en jaarverslagen");
    (ustr "1c", ustr "Onderzoeksrapporten");
    (ustr "1d", ustr "Adviezen van adviescolleges");
    (ustr "1e", ustr "Beschikkingen over aanvragen om een subsidie");
    (ustr "1f", ustr "Beschikkingen Wob-verzoeken");
    (ustr "1g", ustr "Beschikkingen Woo-verzoeken");
    (ustr "2", ustr "Vergaderstukken bestuursorganen");
    (ustr "3", ustr "Bestuurlijke besluiten");
    (ustr "4", ustr "Regelingen en beleidsnota's") ].

Definition TOPIC_MAPPING : list (pystr * list pystr) :=
  [ (ustr "afval", [ustr "milieu"; ustr "openbare ruimte"; ustr "beheer"; ustr "huisvesting"]);
    (ustr "parkeren", [ustr "verkeer"; ustr "mobiliteit"; ustr "openbare ruimte"; ustr "handhaving"]);
    (ustr "verkeer", [ustr "mobiliteit"; ustr "infrastructuur"; ustr "veiligheid"; ustr "openbare ruimte"]);
    (ustr "bus", [ustr "openbaar vervoer"; ustr "mobiliteit"; ustr "infrastructuur"]);
    (ustr "fiets", [ustr "mobiliteit"; ustr "infrastructuur"; ustr "openbare ruimte"]);
    (ustr "straat", [ustr "openbare ruimte"; ustr "beheer"; ustr "infrastructuur"]);
    (ustr "woning", [ustr "huisvesting"; ustr "ruimtelijke ordening"; ustr "bouw"]);
    (ustr "bouw", [ustr "ruimtelijke ordening"; ustr "vergunningen"; ustr "handhaving"]);
    (ustr "jeugd", [ustr "jeugdzorg"; ustr "welzijn"; ustr "onderwijs"; ustr "zorg"]);
    (ustr "zorg", [ustr "gezondheidszorg"; ustr "welzijn"; ustr "sociaal domein"]);
    (ustr "onderwijs", [ustr "educatie"; ustr "jeugd"; ustr "cultuur"]);
    (ustr "werk", [ustr "arbeidsmarkt"; ustr "economie"; ustr "sociale zaken"]);
    (ustr "milieu", [ustr "duurzaamheid"; ustr "klimaat"; ustr "natuur"]);
    (ustr "energie", [ustr "duurzaamheid"; ustr "klimaat"; ustr "milieu"]);
    (ustr "water", [ustr "waterbeheer"; ustr "milieu"; ustr "infrastructuur"]);
    (ustr "groen", [ustr "natuur"; ustr "openbare ruimte"; ustr "milieu"]);
    (ustr "veiligheid", [ustr "openbare orde"; ustr "handhaving"; ustr "politie"]);
    (ustr "criminaliteit", [ustr "veiligheid"; ustr "politie"; ustr "handhaving"]);
    (ustr "overlast", [ustr "openbare orde"; ustr "handhaving"; ustr "veiligheid"]);
    (ustr "subsidie", [financien; ustr "beleid"; ustr "ondersteuning"]);
    (ustr "beleid", [ustr "bestuur"; ustr "regelgeving"; ustr "strategie"]);
    (financien, [ustr "begroting"; ustr "subsidie"; ustr "economie"]);
    (ustr "vergunning", [ustr "handhaving"; ustr "regelgeving"; ustr "bouw"]) ].

Definition WOO_INDEX_BASE : pystr := ustr "https://organisaties.overheid.nl".
Definition UTRECHT_WOO_URL : pystr :=
  WOO_INDEX_BASE ++ ustr "/woo/nl.oorg.gemutrecht_gemeente".

(** The stop words of [extract_keywords]. *)
Definition stopwords : list pystr :=
  ustr <$>
  [ "de"; "het"; "een"; "van"; "in"; "op"; "voor"; "met"; "aan";
    "uit"; "en"; "of"; "maar"; "is"; "zijn"; "was"; "waren";
    "deze"; "dit"; "die"; "dat"; "door"; "naar"; "bij"; "om";
    "te"; "tot"; "over"; "onder"; "tussen"; "na"; "als"; "dan" ]%string.

(** The trigger substrings of [_suggest_woo_categories]. *)
Definition category_keywords : list (pystr * list pystr) :=
  [ (ustr "1a", ustr <$> ["convenant"; "overeenkomst"; "samenwerkings"]%string);
    (ustr "1b", ustr <$> ["jaarplan"; "jaarverslag"; "begroting"]%string);
    (ustr "1c", ustr <$> ["onderzoek"; "rapport"; "evaluatie"; "studie"]%string);
    (ustr "1d", ustr <$> ["advies"; "aanbeveling"; "commissie"]%string);
    (ustr "1e", ustr <$> ["subsidie"; "financiering"; "ondersteuning"]%string);
    (ustr "1f", ustr <$> ["wob"; "openbaarmaking"]%string);
    (ustr "1g", ustr <$> ["woo"; "openbaarmaking"]%string);
    (ustr "2", ustr <$> ["vergader"; "raad"; "commissie"; "besluit"]%string);
    (ustr "3", ustr <$> ["besluit"; "beschikking"; "verordening"]%string);
    (ustr "4", ustr <$> ["beleid"; "regeling"; "verordening"; "nota"]%string) ].

(** A suggested Woo category: a dict with the keys [category], [name]
    and [reason]. *)
Record suggestion := Suggestion {
  category : pystr;
  name : pystr;
  reason : pystr
}.

(** [d[k]] on one of the static tables; every key the code looks up is in
    the table, so the lookup does not fail. *)
Fixpoint table_get {V} (k : pystr) (d : list (pystr * V)) : option V :=
  match d with
  | [] => None
  | (k', v) :: d' => if bool_decide (k' = k) then Some v else table_get k d'
  end.

(** [self.WOO_CATEGORIES[cat_id]] *)
Definition category_name (cat_id : pystr) : pystr :=
  default [] (table_get cat_id WOO_CATEGORIES).

Section connector.
Context `{!Unicode, !SetOrder, !Format}.

(** [extract_keywords]; [None] is an absent text. *)
Definition extract_keywords (text : option pystr) : list pystr :=
  match text with
  | None | Some [] => py_set []
  | Some text =>
      let words := Re.findall_words (py_lower text) in
      py_set (filter (λ w, 3 < length w ∧ w ∉ stopwords) words)
  end.

(** [map_to_topics]: every keyword against every entry of the table, in
    both directions. *)
Definition map_to_topics (keywords : list pystr) : list pystr :=
  py_set
    (keyword ← keywords;
     '(key, topic_list) ← TOPIC_MAPPING;
     if str_contains key keyword || str_contains keyword key
     then topic_list else []).

(** The first loop of [_suggest_woo_categories]: for every category the
    first keyword, in the iteration order of the set, that contains one of
    the category's triggers. *)
Definition keyword_suggestions (keywords : list pystr) : list suggestion :=
  '(cat_id, cat_keywords) ← category_keywords;
  match list_find (λ kw, existsb (λ ck, str_contains ck kw) cat_keywords = true) keywords with
  | Some (_, kw) =>
      [ Suggestion cat_id (category_name cat_id) (ustr "Bevat keyword: " ++ kw) ]
  | None => []
  end.

(** The two rules on topics. *)
Definition topic_suggestions (topics : list pystr) : list suggestion :=
  (if existsb (λ t, bool_decide (t ∈ topics))
        [ustr "beleid"; ustr "regelgeving"; ustr "bestuur"]
   then [ Suggestion (ustr "4") (category_name (ustr "4"))
            (ustr "Gerelateerd aan beleid en regelgeving") ]
   else [])
  ++
  (if existsb (λ t, bool_decide (t ∈ topics)) [ustr "subsidie"; financien]
   then [ Suggestion (ustr "1e") (category_name (ustr "1e"))
            (ustr "Gerelateerd aan subsidies") ]
   else []).

(** The last loop: a suggestion is kept when its category was not seen. *)
Fixpoint unique_suggestions (seen : list pystr) (suggestions : list suggestion)
  : list suggestion :=
  match suggestions with
  | [] => []
  | s :: rest =>
      if bool_decide (category s ∈ seen) then unique_suggestions seen rest
      else s :: unique_suggestions (category s :: seen) rest
  end.

Definition _suggest_woo_categories (keywords topics : list pystr) : list suggestion :=
  unique_suggestions [] (keyword_suggestions keywords ++ topic_suggestions topics).

(** [_generate_search_terms] *)
Definition _generate_search_terms (keywords topics : list pystr) : list pystr :=
  let sorted_keywords := take 5 (sorted_desc (λ k, Z.of_nat (length k)) keywords) in
  let terms := sorted_keywords ++ take 3 topics in
  dict_fromkeys terms.

(** [_get_attr]: the first of [dct:key], [dcat:key] and [key] whose value
    is true; the value under [key] itself, or [None], when neither is. *)
Definition _get_attr (obj : val) (key : pystr) : M val :=
  a ← dict_get obj (ustr "dct:" ++ key) VNone;
  py_or a (
    b ← dict_get obj (ustr "dcat:" ++ key) VNone;
    py_or b (dict_get obj key VNone)).

(** The dict [analyze_dataset] returns. *)
Record analysis := Analysis {
  dataset_id : val;
  title : val;
  keywords : list pystr;
  topics : list pystr;
  woo_categories : list suggestion;
  woo_search_terms : list pystr;
  woo_index_url : pystr;
  relevance_score : Z
}.

Definition analyze_dataset (dataset : val) : M analysis :=
  attrs ← dict_get dataset (ustr "attributes") VEmptyDict;
  t ← _get_attr attrs (ustr "title");
  title ← py_or t (mret (VStr []));
  d ← _get_attr attrs (ustr "description");
  description ← py_or d (mret (VStr []));
  k ← _get_attr attrs (ustr "keyword");
  keywords_raw ← py_or k (mret VEmptyList);
  dataset_id ← dict_get dataset (ustr "id") (VStr []);
  joined ← py_join (ustr " ") keywords_raw;
  h ← get_heap;
  let text := py_format h title ++ ustr " " ++ py_format h description
              ++ ustr " " ++ joined in
  let keywords := extract_keywords (Some text) in
  let topics := map_to_topics keywords in
  let woo_categories := _suggest_woo_categories keywords topics in
  let search_terms := _generate_search_terms keywords topics in
  mret {| dataset_id := dataset_id;
          title := title;
          keywords := take 10 keywords;
          topics := topics;
          woo_categories := woo_categories;
          woo_search_terms := search_terms;
          woo_index_url := UTRECHT_WOO_URL;
          relevance_score := Z.of_nat (length topics) + Z.of_nat (length woo_categories) |}.

(** An entry of the list [find_related_datasets] returns; [dataset] is the
    caller's object itself, not a copy. *)
Record related := Related {
  rel_dataset : val;
  rel_analysis : analysis;
  relevance : Z
}.

(** The loop of [find_related_datasets] over the datasets, [acc] being the
    list [related] so far. *)
Fixpoint related_loop (topic_lower : pystr) (datasets : list val) (acc : list related)
  : M (list related) :=
  match datasets with
  | [] => mret acc
  | dataset :: rest =>
      analysis ← analyze_dataset dataset;
      if existsb (λ t, str_contains topic_lower (py_lower t)) (topics analysis) then
        related_loop topic_lower rest
          (acc ++ [Related dataset analysis (relevance_score analysis)])
      else if existsb (λ k, str_contains topic_lower (py_lower k)) (keywords analysis) then
        related_loop topic_lower rest
          (acc ++ [Related dataset analysis (relevance_score analysis - 1)])
      else related_loop topic_lower rest acc
  end.

Definition find_related_datasets (woo_topic : pystr) (datasets : list val)
  : M (list related) :=
  let topic_lower := py_lower woo_topic in
  related ← related_loop topic_lower datasets [];
  mret (sorted_desc relevance related).

End connector.
End WooConnector.

(** ** [mcp_server.py]: the dispatch of requests *)

Module MCPServer.

(** An entry of the tool catalogue that [list_tools] writes down: the
    name, the properties of the input schema and the required ones (the
    descriptions are display text and left out). *)
Record tool := Tool {
  tool_name : pystr;
  tool_properties : list pystr;
  tool_required : list pystr
}.

(** The ten entries of the list display of [list_tools], as they are
    written; what becomes of the display when it is evaluated is
    [tools_display] below. *)
Definition tools : list tool :=
  [ Tool (ustr "search_datasets") [ustr "query"; ustr "limit"] [];
    Tool (ustr "get_dataset") [ustr "dataset_id"] [ustr "dataset_id"];
    Tool (ustr "get_distributions") [ustr "dataset_id"] [ustr "dataset_id"];
    Tool (ustr "list_all_datasets") [] [];
    Tool (ustr "analyze_woo_connection") [ustr "dataset_id"] [ustr "dataset_id"];
    Tool (ustr "find_woo_related_datasets") [ustr "topic"] [ustr "topic"];
    Tool (ustr "dataoverheid_search")
      [ustr "query"; ustr "organization"; ustr "tags"; ustr "limit"] [];
    Tool (ustr "dataoverheid_get_dataset") [ustr "dataset_id"] [ustr "dataset_id"];
    Tool (ustr "dataoverheid_list_organizations") [ustr "limit"] [];
    Tool (ustr "dataoverheid_get_organization")
      [ustr "org_id"; ustr "include_datasets"] [ustr "org_id"] ].

(** The [result] member of a response. *)
Inductive result :=
  | InitializeResult (protocolVersion server_name version : pystr)
  | ToolsResult (catalogue : list tool)
  | ContentResult (text : pystr)
  | ResourcesResult (uri resource_name description mimeType : pystr)
  | ContentsResult (uri : val) (mimeType text : pystr).

(** A response: [{jsonrpc, id, result}] or [{jsonrpc, id, error: {code,
    message}}]. *)
Inductive response :=
  | Response (id : val) (r : result)
  | ErrorResponse (id : val) (code : Z) (message : pystr).

(** The tool handlers and what they rest on (the HTTP fetch, [json.dumps])
    are outside the dispatch layer: each is some computation that returns a
    text or raises. *)
Class Backend := {
  search_datasets : val → val → M pystr;
  get_dataset : val → M pystr;
  get_distributions : val → M pystr;
  list_all_datasets : M pystr;
  analyze_woo_connection : val → M pystr;
  find_woo_related_datasets : val → M pystr;
  dataoverheid_search : val → val → val → val → M pystr;
  dataoverheid_get_dataset : val → M pystr;
  dataoverheid_list_organizations : val → M pystr;
  dataoverheid_get_organization : val → val → M pystr;
  fetch_api : pystr → M val;
  json_dumps : val → M pystr
}.

Section server.
Context `{!Format, !Backend}.

Definition version : pystr := ustr "1.1.0".

Definition error_response (request_id : val) (code : Z) (message : pystr) : response :=
  ErrorResponse request_id code message.

Definition initialize (request_id params : val) : response :=
  Response request_id (InitializeResult (ustr "2024-11-05") (ustr "utrecht-opendata") version).

(** The list display of [list_tools] evaluated.  Its last entry gives
    [include_datasets] the default [false], in the spelling of JSON:
    Python defines no such name, and the evaluation raises a [NameError]
    where it reaches it, so that the list is never built. *)
Definition tools_display : M (list tool) := raise (NameError (ustr "false")).

Definition list_tools (request_id : val) : M response :=
  catalogue ← tools_display;
  mret (Response request_id (ToolsResult catalogue)).

Definition list_resources (request_id : val) : response :=
  Response request_id
    (ResourcesResult (ustr "utrecht://datasets") (ustr "Utrecht Open Datasets")
       (ustr "Complete lijst van alle datasets") (ustr "application/json")).

(** The response that carries the text a tool returned. *)
Definition content_response (request_id : val) (text : pystr) : response :=
  Response request_id (ContentResult text).

(** The [if]/[elif] chain of [call_tool]: the arguments are read and the
    handler runs; an unknown name ends the method at once. *)
Definition run_tool (request_id tool_name arguments : val) : M response :=
  if eq_str tool_name (ustr "search_datasets") then
    query ← dict_get arguments (ustr "query") VNone;
    limit ← dict_get arguments (ustr "limit") (VInt 20);
    result ← search_datasets query limit;
    mret (content_response request_id result)
  else if eq_str tool_name (ustr "get_dataset") then
    dataset_id ← subscript arguments (ustr "dataset_id");
    result ← get_dataset dataset_id;
    mret (content_response request_id result)
  else if eq_str tool_name (ustr "get_distributions") then
    dataset_id ← subscript arguments (ustr "dataset_id");
    result ← get_distributions dataset_id;
    mret (content_response request_id result)
  else if eq_str tool_name (ustr "list_all_datasets") then
    result ← list_all_datasets;
    mret (content_response request_id result)
  else if eq_str tool_name (ustr "analyze_woo_connection") then
    dataset_id ← subscript arguments (ustr "dataset_id");
    result ← analyze_woo_connection dataset_id;
    mret (content_response request_id result)
  else if eq_str tool_name (ustr "find_woo_related_datasets") then
    topic ← subscript arguments (ustr "topic");
    result ← find_woo_related_datasets topic;
    mret (content_response request_id result)
  else if eq_str tool_name (ustr "dataoverheid_search") then
    query ← dict_get arguments (ustr "query") VNone;
    organization ← dict_get arguments (ustr "organization") VNone;
    tags ← dict_get arguments (ustr "tags") VNone;
    limit ← dict_get arguments (ustr "limit") (VInt 20);
    result ← dataoverheid_search query organization tags limit;
    mret (content_response request_id result)
  else if eq_str tool_name (ustr "dataoverheid_get_dataset") then
    dataset_id ← subscript arguments (ustr "dataset_id");
    result ← dataoverheid_get_dataset dataset_id;
    mret (content_response request_id result)
  else if eq_str tool_name (ustr "dataoverheid_list_organizations") then
    limit ← dict_get arguments (ustr "limit") (VInt 50);
    result ← dataoverheid_list_organizations limit;
    mret (content_response request_id result)
  else if eq_str tool_name (ustr "dataoverheid_get_organization") then
    org_id ← subscript arguments (ustr "org_id");
    include_datasets ← dict_get arguments (ustr "include_datasets") (VBool false);
    result ← dataoverheid_get_organization org_id include_datasets;
    mret (content_response request_id result)
  else
    h ← get_heap;
    mret (error_response request_id (-32602)
            (ustr "Unknown tool: " ++ py_format h tool_name)).

Definition call_tool (request_id params : val) : M response :=
  tool_name ← dict_get params (ustr "name") VNone;
  arguments ← dict_get params (ustr "arguments") VEmptyDict;
  try_except (run_tool request_id tool_name arguments)
    (λ e, mret (error_response request_id (-32603)
                  (ustr "Tool execution failed: " ++ exn_str e))).

Definition read_resource (request_id params : val) : M response :=
  uri ← dict_get params (ustr "uri") VNone;
  if eq_str uri (ustr "utrecht://datasets") then
    data ← fetch_api (ustr "/datasets");
    text ← json_dumps data;
    mret (Response request_id (ContentsResult uri (ustr "application/json") text))
  else
    h ← get_heap;
    mret (error_response request_id (-32602)
            (ustr "Unknown resource: " ++ py_format h uri)).

Definition handle_request (request : val) : M response :=
  method ← dict_get request (ustr "method") VNone;
  params ← dict_get request (ustr "params") VEmptyDict;
  request_id ← dict_get request (ustr "id") VNone;
  try_except
    (if eq_str method (ustr "initialize") then mret (initialize request_id params)
     else if eq_str method (ustr "tools/list") then list_tools request_id
     else if eq_str method (ustr "tools/call") then call_tool request_id params
     else if eq_str method (ustr "resources/list") then mret (list_resources request_id)
     else if eq_str method (ustr "resources/read") then read_resource request_id params
     else
       h ← get_heap;
       mret (error_response request_id (-32601)
               (ustr "Method not found: " ++ py_format h method)))
    (λ e, mret (error_response request_id (-32603) (exn_str e))).

(** [k in o]: a key of a dict, an item of a list, a part of a string; any
    other value cannot be searched. *)
Definition py_in (k : pystr) (o : val) : M bool :=
  h ← get_heap;
  match o with
  | VStr s => mret (str_contains k s)
  | _ =>
      match as_dict h o, as_list h o with
      | Some d, _ => mret (dict_has d k)
      | None, Some xs => mret (existsb (λ x, eq_str x k) xs)
      | None, None =>
          raise (TypeError (ustr "argument of type '" ++ type_name h o
                            ++ ustr "' is not iterable"))
      end
  end.

(** [get_attr]: the value under the first of [dct:key], [dcat:key],
    [foaf:key] and [key] that the object has, [None] when it has none. *)
Definition get_attr (obj : val) (key : pystr) : M val :=
  b ← py_in (ustr "dct:" ++ key) obj;
  if b : bool then subscript obj (ustr "dct:" ++ key) else
  b ← py_in (ustr "dcat:" ++ key) obj;
  if b : bool then subscript obj (ustr "dcat:" ++ key) else
  b ← py_in (ustr "foaf:" ++ key) obj;
  if b : bool then subscript obj (ustr "foaf:" ++ key) else
  b ← py_in key obj;
  if b : bool then subscript obj key else
  mret VNone.

End server.
End MCPServer.

(** ** More of Python: [len], iteration, slices, [split] *)

Module Builtins.

(** The line feed. *)
Definition nl : pystr := [10%N].

(** A new object: it is put at the end of the heap. *)
Definition alloc (o : obj) : M val := λ h, (inr (VRef (length h)), h ++ [o]).

(** [len(v)] *)
Definition py_len (v : val) : M Z :=
  h ← get_heap;
  match v with
  | VStr s => mret (Z.of_nat (length s))
  | _ =>
      match as_list h v, as_dict h v with
      | Some xs, _ => mret (Z.of_nat (length xs))
      | None, Some d => mret (Z.of_nat (length d))
      | None, None =>
          raise (TypeError (ustr "object of type '" ++ type_name h v ++ ustr "' has no len()"))
      end
  end.

(** The values [for x in v] runs over: the items of a list, the keys of a
    dict, the characters of a string. *)
Definition py_iter (v : val) : M (list val) :=
  h ← get_heap;
  match v with
  | VStr s => mret ((λ c, VStr [c]) <$> s)
  | _ =>
      match as_list h v, as_dict h v with
      | Some xs, _ => mret xs
      | None, Some d => mret ((λ kv, VStr kv.1) <$> d)
      | None, None =>
          raise (TypeError (ustr "'" ++ type_name h v ++ ustr "' object is not iterable"))
      end
  end.

(** The bound of a slice: [None] is no bound, an [int] or a [bool] its
    number. *)
Definition slice_index (stop : val) : exn + option Z :=
  match stop with
  | VNone => inr None
  | VInt n => inr (Some n)
  | VBool b => inr (Some (if b then 1 else 0)%Z)
  | _ =>
      inl (TypeError
             (ustr "slice indices must be integers or None or have an __index__ method"))
  end.

(** [l[:stop]]; a negative bound counts from the end. *)
Definition slice_to {A} (stop : option Z) (l : list A) : list A :=
  match stop with
  | None => l
  | Some n =>
      if (0 <=? n)%Z then take (Z.to_nat n) l
      else take (length l - Z.to_nat (- n)) l
  end.

(** [v[:stop]]: a string, or a new list; a dict takes no slice as a key
    (the [TypeError] of Python up to 3.11; later versions raise a
    [KeyError] there) and the other values no subscript. *)
Definition py_slice_to (v stop : val) : M val :=
  h ← get_heap;
  match v with
  | VStr s =>
      match slice_index stop with
      | inr n => mret (VStr (slice_to n s))
      | inl e => raise e
      end
  | _ =>
      match as_list h v, as_dict h v with
      | Some xs, _ =>
          match slice_index stop with
          | inr n => alloc (OList (slice_to n xs))
          | inl e => raise e
          end
      | None, Some _ => raise (TypeError (ustr "unhashable type: 'slice'"))
      | None, None =>
          raise (TypeError (ustr "'" ++ type_name h v ++ ustr "' object is not subscriptable"))
      end
  end.

(** [v.lower()]: only a string has the method. *)
Definition str_lower `{!Unicode} (v : val) : M pystr :=
  h ← get_heap;
  match v with
  | VStr s => mret (py_lower s)
  | _ =>
      raise (AttributeError
               (ustr "'" ++ type_name h v ++ ustr "' object has no attribute 'lower'"))
  end.

(** [s.split(sep)] with a separator of one character: the parts between
    the separators, one more than there are separators. *)
Fixpoint split_on (sep : N) (s : pystr) : list pystr :=
  match s with
  | [] => [[]]
  | c :: s' =>
      if (c =? sep)%N then [] :: split_on sep s'
      else match split_on sep s' with
           | part :: parts => (c :: part) :: parts
           | [] => [[c]]
           end
  end.

(** [s.split(sep, 1)]: the split at the first separator only. *)
Fixpoint split_once (sep : N) (s : pystr) : list pystr :=
  match s with
  | [] => [[]]
  | c :: s' =>
      if (c =? sep)%N then [[]; s']
      else match split_once sep s' with
           | part :: parts => (c :: part) :: parts
           | [] => [[c]]
           end
  end.

(** A [for] loop that updates one variable. *)
Fixpoint for_each {A B} (body : B → A → M B) (l : list A) (b : B) : M B :=
  match l with
  | [] => mret b
  | x :: l' => b' ← body b x; for_each body l' b'
  end.

(** A list comprehension with a condition. *)
Fixpoint comprehension {A} (cond : A → M bool) (l : list A) : M (list A) :=
  match l with
  | [] => mret []
  | x :: l' =>
      b ← cond x;
      kept ← comprehension cond l';
      mret (if b : bool then x :: kept else kept)
  end.

End Builtins.
Export Builtins.

(** ** [woo_connector.py]: the report *)

Module WooReport.
Import WooConnector.

Section report.
Context `{!Unicode, !SetOrder, !Format}.

(** ["=" * 70] *)
Definition rule : pystr := replicate 70 61%N.

(** The bullet ["  • "] that starts an item (U+2022). *)
Definition bullet : pystr := ustr "  " ++ [8226%N] ++ ustr " ".

(** The lines [generate_woo_report] appends to [report] once it has the
    analysis. *)
Definition report_lines (h : heap) (analysis : analysis) : list pystr :=
  [ rule;
    ustr "WOO KOPPELING ANALYSE: " ++ py_format h (title analysis);
    rule;
    [];
    ustr "Dataset ID: " ++ py_format h (dataset_id analysis);
    ustr "Relevantie score: " ++ py_format h (VInt (relevance_score analysis)) ++ ustr "/10";
    [];
    ustr "GE" ++ [207%N] ++ ustr "DENTIFICEERDE ONDERWERPEN:" ]
  ++ match topics analysis with
     | [] => [ ustr "  (geen specifieke onderwerpen gevonden)" ]
     | _ => (λ topic, bullet ++ topic) <$> topics analysis
     end
  ++ [ [];
       ustr "GERELATEERDE WOO CATEGORIE" ++ [203%N] ++ ustr "N:" ]
  ++ match woo_categories analysis with
     | [] => [ ustr "  (geen directe categorie" ++ [235%N] ++ ustr "n gevonden)" ]
     | _ =>
         cat ← woo_categories analysis;
         [ bullet ++ category cat ++ ustr " - " ++ name cat;
           ustr "    Reden: " ++ reason cat ]
     end
  ++ [ [];
       ustr "AANBEVOLEN ZOEKTERMEN VOOR WOO-INDEX:" ]
  ++ ((λ term, bullet ++ term) <$> woo_search_terms analysis)
  ++ [ [];
       ustr "WOO-INDEX LINKS:";
       ustr "  Gemeente Utrecht: " ++ woo_index_url analysis;
       [];
       ustr "HOE TE GEBRUIKEN:";
       ustr "  1. Bezoek de Woo-index URL hierboven";
       ustr "  2. Zoek naar de aanbevolen zoektermen";
       ustr "  3. Filter op de relevante Woo categorie" ++ [235%N] ++ ustr "n";
       ustr "  4. Vergelijk gevonden documenten met deze dataset";
       [];
       rule ].

Definition generate_woo_report (dataset : val) : M pystr :=
  analysis ← analyze_dataset dataset;
  h ← get_heap;
  mret (str_join nl (report_lines h analysis)).

End report.
End WooReport.

(** ** The network *)

Module Net.

(** What [urllib.request.urlopen] ends in: the body read from the
    response, or one of the errors the handlers tell apart. *)
Inductive fetched :=
  | Body (data : pystr)
  | HTTPError (code : Z) (reason : pystr)
  | URLError (reason : pystr)
  | OtherError (e : exn).

(** The network, as what a request of a URL ends in, and [json.loads] on
    a body, which builds the decoded value in the heap or raises. *)
Class Upstream := {
  urlopen : pystr → fetched;
  json_loads : pystr → M val
}.

Section net.
Context `{!Format, !Upstream}.

(** [urlopen] where every error is just an exception: [str(e)] is
    ["HTTP Error <code>: <reason>"] for an [HTTPError] and
    ["<urlopen error <reason>>"] for a [URLError]. *)
Definition urlopen_read (url : pystr) : M pystr :=
  h ← get_heap;
  match urlopen url with
  | Body data => mret data
  | HTTPError code reason =>
      raise (Exception (ustr "HTTP Error " ++ py_format h (VInt code) ++ ustr ": " ++ reason))
  | URLError reason => raise (Exception (ustr "<urlopen error " ++ reason ++ ustr ">"))
  | OtherError e => raise e
  end.

End net.
End Net.
Export Net.

(** ** [mcp_server.py]: the handlers of the tools *)

Module Handlers.
Import WooConnector WooReport.

(** The signs at the head of the texts, as the code points of the source:
    the chart, the link, the warning and the cross. *)
Definition chart : pystr := [287; 376; 8220; 352]%N.
Definition link : pystr := [287; 376; 8221; 8212]%N.
Definition warning : pystr := [226; 353; 160; 239; 184]%N.
Definition cross : pystr := [226; 338]%N.

(** Whether the modules of the connectors were found at the import:
    [self.woo_connector] and [self.dataoverheid] are an object then, and
    [None] otherwise. *)
Class Modules := {
  woo_connector : bool;
  dataoverheid : bool
}.

Section handlers.
Context `{!Unicode, !SetOrder, !Format, !Upstream, !Modules}.

Definition api_base : pystr := ustr "https://open.utrecht.nl/api".

Definition fetch_api (endpoint : pystr) : M val :=
  let url := api_base ++ endpoint in
  data ← urlopen_read url;
  json_loads data.

(** [self.get_attr(obj, key, dflt)]: the method takes two arguments, and
    the call raises once its arguments are evaluated (the text is that of
    Python 3.10 and later, which name the class). *)
Definition get_attr_default (obj : val) (key : pystr) (dflt : val) : M val :=
  raise (TypeError
           (ustr "MCPServer.get_attr() takes 3 positional arguments but 4 were given")).

(** The condition of the comprehension of [search_datasets]. *)
Definition matches_query (query_lower : pystr) (ds : val) : M bool :=
  attrs ← dict_get ds (ustr "attributes") VEmptyDict;
  title ← get_attr_default attrs (ustr "title") (VStr []);
  title_lower ← str_lower title;
  if str_contains query_lower title_lower then mret true else
  attrs ← dict_get ds (ustr "attributes") VEmptyDict;
  description ← get_attr_default attrs (ustr "description") (VStr []);
  description_lower ← str_lower description;
  if str_contains query_lower description_lower then mret true else
  id ← dict_get ds (ustr "id") (VStr []);
  id_lower ← str_lower id;
  mret (str_contains query_lower id_lower).

(** The body of the loop of [search_datasets]. *)
Definition search_entry (result : pystr) (ds : val) : M pystr :=
  attrs ← dict_get ds (ustr "attributes") VEmptyDict;
  t ← MCPServer.get_attr attrs (ustr "title");
  title ← py_or t (dict_get ds (ustr "id") (VStr (ustr "Geen titel")));
  d ← MCPServer.get_attr attrs (ustr "description");
  desc ← py_or d (mret (VStr (ustr "Geen beschrijving")));
  h ← get_heap;
  let result := result ++ chart ++ ustr " " ++ py_format h title ++ nl in
  id ← dict_get ds (ustr "id") VNone;
  h ← get_heap;
  let result := result ++ ustr "   ID: " ++ py_format h id ++ nl in
  cut ← py_slice_to desc (VInt 100);
  h ← get_heap;
  let shown := py_format h cut in
  n ← py_len desc;
  mret (result ++ ustr "   " ++ shown ++ (if (100 <? n)%Z then ustr "..." else [])
        ++ nl ++ nl).

Definition search_datasets (query limit : val) : M pystr :=
  data ← fetch_api (ustr "/datasets");
  datasets ← dict_get data (ustr "data") VEmptyList;
  h ← get_heap;
  datasets ←
    (if truthy h query then
       query_lower ← str_lower query;
       items ← py_iter datasets;
       kept ← comprehension (matches_query query_lower) items;
       alloc (OList kept)
     else mret datasets);
  datasets ← py_slice_to datasets limit;
  n ← py_len datasets;
  h ← get_heap;
  let result := ustr "Gevonden: " ++ py_format h (VInt n) ++ ustr " datasets" ++ nl ++ nl in
  items ← py_iter datasets;
  for_each search_entry items result.

Definition analyze_woo_connection (dataset_id : val) : M pystr :=
  if negb woo_connector then mret (warning ++ ustr " Woo connector niet beschikbaar") else
  try_except
    (h ← get_heap;
     data ← fetch_api (ustr "/datasets/" ++ py_format h dataset_id);
     dataset ← dict_get data (ustr "data") data;
     generate_woo_report dataset)
    (λ e, mret (cross ++ ustr " Fout: " ++ exn_str e)).

(** The call [find_related_datasets(topic, datasets)] on the values the
    handler holds: the topic must have [lower], and the datasets are
    iterated. *)
Definition call_find_related_datasets (topic datasets : val) : M (list related) :=
  match topic with
  | VStr woo_topic =>
      items ← py_iter datasets;
      find_related_datasets woo_topic items
  | _ =>
      h ← get_heap;
      raise (AttributeError
               (ustr "'" ++ type_name h topic ++ ustr "' object has no attribute 'lower'"))
  end.

(** The body of the loop of [find_woo_related_datasets]. *)
Definition related_item (result : pystr) (item : related) : M pystr :=
  let ds := rel_dataset item in
  let analysis := rel_analysis item in
  let relevance := relevance item in
  attrs ← dict_get ds (ustr "attributes") VEmptyDict;
  t ← MCPServer.get_attr attrs (ustr "title");
  title ← py_or t (dict_get ds (ustr "id") (VStr (ustr "Geen titel")));
  h ← get_heap;
  let head := chart ++ ustr " " ++ py_format h title ++ nl in
  id ← dict_get ds (ustr "id") VNone;
  h ← get_heap;
  let result :=
    result ++ head ++ ustr "   ID: " ++ py_format h id ++ nl
    ++ ustr "   Relevantie: " ++ py_format h (VInt relevance) ++ ustr "/10" ++ nl in
  let result :=
    result ++ ustr "   Topics: " ++ str_join (ustr ", ") (take 3 (topics analysis)) ++ nl in
  let result :=
    match woo_categories analysis with
    | [] => result
    | _ =>
        let woo_cats := name <$> take 2 (woo_categories analysis) in
        result ++ ustr "   Woo categorie" ++ [195; 171]%N ++ ustr "n: "
        ++ str_join (ustr ", ") woo_cats ++ nl
    end in
  mret (result ++ nl).

Definition find_woo_related_datasets (topic : val) : M pystr :=
  if negb woo_connector then mret (warning ++ ustr " Woo connector niet beschikbaar") else
  try_except
    (data ← fetch_api (ustr "/datasets");
     datasets ← dict_get data (ustr "data") VEmptyList;
     related ← call_find_related_datasets topic datasets;
     h ← get_heap;
     match related with
     | [] =>
         mret (ustr "Geen datasets gevonden gerelateerd aan '" ++ py_format h topic ++ ustr "'")
     | _ =>
         let result :=
           link ++ ustr " Datasets gerelateerd aan '" ++ py_format h topic ++ ustr "':"
           ++ nl ++ nl ++ ustr "Gevonden: "
           ++ py_format h (VInt (Z.of_nat (length related))) ++ ustr " dataset(s)"
           ++ nl ++ nl in
         result ← for_each related_item (take 10 related) result;
         h ← get_heap;
         mret (if 10 <? length related
               then result ++ ustr "... en nog "
                    ++ py_format h (VInt (Z.of_nat (length related) - 10))
                    ++ ustr " datasets meer" ++ nl
               else result)
     end)
    (λ e, mret (cross ++ ustr " Fout: " ++ exn_str e)).

End handlers.
End Handlers.

(** ** [mcp_server.py]: the server with its handlers *)

Module Server.
Import Handlers.
Section server.
Context `{!Unicode, !SetOrder, !Format, !Upstream, !Modules}.

(** The server with the handlers above; [rest] stands for the handlers
    that are not embedded ([get_dataset], [get_distributions],
    [list_all_datasets] and the four of data.overheid.nl) and for
    [json.dumps]. *)
Definition backend (rest : MCPServer.Backend) : MCPServer.Backend := {|
  MCPServer.search_datasets := search_datasets;
  MCPServer.get_dataset := @MCPServer.get_dataset rest;
  MCPServer.get_distributions := @MCPServer.get_distributions rest;
  MCPServer.list_all_datasets := @MCPServer.list_all_datasets rest;
  MCPServer.analyze_woo_connection := analyze_woo_connection;
  MCPServer.find_woo_related_datasets := find_woo_related_datasets;
  MCPServer.dataoverheid_search := @MCPServer.dataoverheid_search rest;
  MCPServer.dataoverheid_get_dataset := @MCPServer.dataoverheid_get_dataset rest;
  MCPServer.dataoverheid_list_organizations := @MCPServer.dataoverheid_list_organizations rest;
  MCPServer.dataoverheid_get_organization := @MCPServer.dataoverheid_get_organization rest;
  MCPServer.fetch_api := fetch_api;
  MCPServer.json_dumps := @MCPServer.json_dumps rest
|}.

End server.
End Server.

(** ** [proxy_server.py]: the CORS proxy *)

Module Proxy.
Import WooConnector.

(** The handlers of [CORSProxyHandler] as functions of the path of the
    request.  What they print on the console is left out, and the module
    [woo_connector] is taken to be there for the import. *)

Definition UTRECHT_API_BASE : pystr := ustr "https://open.utrecht.nl/api".
Definition DATAOVERHEID_API_BASE : pystr :=
  ustr "https://data.overheid.nl/data/api/3/action".

(** The body of a reply: bytes passed on, or the JSON text of an analysis
    or of the error object [{error, keywords: [], topics: [], categories:
    {}}]. *)
Inductive body :=
  | Raw (data : pystr)
  | AnalysisJson (a : analysis)
  | ErrorJson (error : pystr).

(** What a handler sends: a response with a status, a content type and a
    body; the error page of [send_error]; or the file that
    [SimpleHTTPRequestHandler.do_GET] serves. *)
Inductive reply :=
  | Reply (status : Z) (content_type : pystr) (b : body)
  | SendError (code : Z) (message : pystr)
  | StaticFile (path : pystr).

Section proxy.
Context `{!Unicode, !SetOrder, !Format, !Upstream}.

Definition handle_woo_analysis (path : pystr) : M reply :=
  try_except
    (let dataset_id := default [] (last (split_on 47 path)) in
     let api_url := UTRECHT_API_BASE ++ ustr "/datasets/" ++ dataset_id in
     text ← urlopen_read api_url;
     data ← json_loads text;
     dataset ← dict_get data (ustr "data") data;
     analysis ← analyze_dataset dataset;
     mret (Reply 200 (ustr "application/json; charset=utf-8") (AnalysisJson analysis)))
    (λ e, mret (Reply 500 (ustr "application/json") (ErrorJson (exn_str e)))).

Definition proxy_api_request (path : pystr) : reply :=
  let api_path := drop 4 path in
  let full_url := UTRECHT_API_BASE ++ api_path in
  match urlopen full_url with
  | Body data => Reply 200 (ustr "application/json") (Raw data)
  | HTTPError code reason => SendError code (ustr "API Error: " ++ reason)
  | URLError reason => SendError 502 (ustr "Cannot reach API: " ++ reason)
  | OtherError e => SendError 500 (ustr "Internal server error: " ++ exn_str e)
  end.

(** The URL [proxy_dataoverheid_request] builds; the unpacking of the two
    parts fails with a [ValueError], which the handler answers with the
    status 500, when the split gives another number of parts. *)
Definition dataoverheid_url (path : pystr) : pystr + pystr :=
  let path_parts := drop 13 path in
  if bool_decide (63%N ∈ path_parts) then
    match split_once 63 path_parts with
    | [action; query] => inr (DATAOVERHEID_API_BASE ++ action ++ ustr "?" ++ query)
    | _ => inl (ustr "not enough values to unpack (expected 2, got 1)")
    end
  else inr (DATAOVERHEID_API_BASE ++ path_parts).

Definition proxy_dataoverheid_request (path : pystr) : reply :=
  match dataoverheid_url path with
  | inr full_url =>
      match urlopen full_url with
      | Body data => Reply 200 (ustr "application/json; charset=utf-8") (Raw data)
      | HTTPError code reason => SendError code (ustr "API Error: " ++ reason)
      | URLError reason => SendError 502 (ustr "Cannot reach data.overheid.nl: " ++ reason)
      | OtherError e => SendError 500 (ustr "Internal server error: " ++ exn_str e)
      end
  | inl message => SendError 500 (ustr "Internal server error: " ++ message)
  end.

Definition do_GET (path : pystr) : M reply :=
  if starts_with (ustr "/api/") path then mret (proxy_api_request path)
  else if starts_with (ustr "/dataoverheid/") path then mret (proxy_dataoverheid_request path)
  else if starts_with (ustr "/woo/analyze/") path then handle_woo_analysis path
  else mret (StaticFile path).

End proxy.
End Proxy.

(** ** [mcp_server.py]: the loop of [main] *)

Module Transport.
Import MCPServer.

(** What the loop writes: a line on the standard output or on the standard
    error. *)
Inductive written :=
  | Stdout (text : pystr)
  | Stderr (text : pystr).

(** [json.loads] on a line: the value, built in the heap; the text of a
    [JSONDecodeError]; or another exception.  [json.dumps] on a response,
    which holds texts and values that [json.loads] made and can always be
    written. *)
Class Json := {
  loads : pystr → M (pystr + val);
  dumps : heap → response → pystr
}.

Section transport.
Context `{!Format, !Backend, !Json}.

(** The body of the loop on a line that was read. *)
Definition serve_line (line : pystr) : M written :=
  try_except
    (parsed ← loads line;
     match parsed with
     | inr request =>
         response ← handle_request request;
         h ← get_heap;
         mret (Stdout (dumps h response ++ nl))
     | inl message => mret (Stderr (ustr "JSON parse error: " ++ message ++ nl))
     end)
    (λ e, mret (Stderr (ustr "Error: " ++ exn_str e ++ nl))).

(** The loop over the lines of the standard input; [readline] returns the
    empty string at the end of the input, and the loop ends there. *)
Fixpoint serve (lines : list pystr) : M (list written) :=
  match lines with
  | [] => mret []
  | line :: rest =>
      if bool_decide (line = []) then mret []
      else
        w ← serve_line line;
        ws ← serve rest;
        mret (w :: ws)
  end.

Definition main (lines : list pystr) : M (list written) :=
  ws ← serve lines;
  mret (Stderr (ustr "Utrecht Open Data MCP Server gestart" ++ nl) :: ws).

End transport.
End Transport.


(* ================================================================== *)
(** * Part II: properties *)
(* ================================================================== *)

(** ** Strings *)

(** [sub] occurs in [s]. *)
Definition substring (sub s : pystr) : Prop := ∃ a b, s = a ++ sub ++ b.

Lemma starts_with_spec (p s : pystr) :
  starts_with p s = true ↔ ∃ b, s = p ++ b.
Proof.
  revert s. induction p as [|a p IH]; intros s; simpl.
  - split; [eauto|done].
  - destruct s as [|c s].
    + split; [done|]. by intros [b ?].
    + rewrite andb_true_iff, N.eqb_eq, IH. split.
      * intros [-> [b ->]]. by exists b.
      * intros [b Hb]. injection Hb as -> ->. eauto.
Qed.

Lemma str_contains_spec (sub s : pystr) :
  str_contains sub s = true ↔ substring sub s.
Proof.
  unfold substring. induction s as [|c s IH].
  - simpl. rewrite orb_false_r, starts_with_spec. split.
    + intros [b Hb]. by exists [], b.
    + intros (a & b & Hab). symmetry in Hab.
      apply app_eq_nil in Hab as [-> Hab]. exists b. done.
  - cbn [str_contains]. rewrite orb_true_iff, starts_with_spec, IH. split.
    + intros [[b Hb]|(a & b & Hab)].
      * by exists [], b.
      * exists (c :: a), b. by rewrite Hab.
    + intros (a & b & Hab). destruct a as [|c' a].
      * left. by exists b.
      * right. injection Hab as -> ->. eauto.
Qed.

Lemma str_contains_refl (s : pystr) : str_contains s s = true.
Proof. apply str_contains_spec. exists [], []. by rewrite app_nil_r. Qed.

Lemma substring_length (sub s : pystr) :
  substring sub s → length sub ≤ length s.
Proof. intros (a & b & ->). rewrite !length_app. lia. Qed.

(** ** The pattern [\b\w+\b] finds the maximal runs of word characters *)

Section re_facts.
Context `{!Unicode}.
Import Re.

(** A word: one or more word characters. *)
Definition word (w : pystr) : Prop := w ≠ [] ∧ Forall (λ c, is_word_char c = true) w.

(** The character to the left of what follows [a], [prev] being the one to
    the left of [a]. *)
Definition left_of (prev : option N) (a : pystr) : option N :=
  match last a with Some c => Some c | None => prev end.

(** [w] stands in [s] as a word that cannot be extended: no word character
    to its left (where [prev] is the left neighbour of [s]) nor to its
    right. *)
Definition word_occurrence (prev : option N) (w s : pystr) : Prop :=
  ∃ a b, s = a ++ w ++ b ∧ word w
         ∧ is_word (left_of prev a) = false ∧ is_word (head b) = false.

Lemma match_word_run_spec (s : pystr) :
  match match_word_run s with
  | Some (m, rest) => s = m ++ rest ∧ word m ∧ is_word (head rest) = false
  | None => is_word (head s) = false
  end.
Proof.
  induction s as [|c s IH]; simpl; [done|].
  destruct (is_word_char c) eqn:Hc; [|done].
  destruct (match_word_run s) as [[m rest]|].
  - destruct IH as (-> & [? ?] & ?). split_and!; [done| |done].
    split; [done|by constructor].
  - unfold at_word_boundary. simpl. rewrite Hc, IH. simpl.
    split_and!; [done| |done]. split; [done|by repeat constructor].
Qed.

Lemma word_head (w : pystr) : word w → is_word (head w) = true.
Proof. intros [Hne Hw]. destruct w; [done|]. by inversion Hw. Qed.

Lemma word_last (w : pystr) : word w → is_word (last w) = true.
Proof.
  intros [Hne Hw]. destruct (last w) as [c|] eqn:Hl.
  - simpl. eapply Forall_forall in Hw; [done|]. by eapply last_Some_elem_of.
  - by apply last_None in Hl.
Qed.

Lemma word_occurrence_skip prev c s w :
  is_word (Some c) = false ∨ is_word prev = true →
  word_occurrence prev w (c :: s) ↔ word_occurrence (Some c) w s.
Proof.
  intros Hskip. split.
  - intros (a & b & Hs & Hw & Ha & Hb). destruct a as [|c' a].
    + exfalso. destruct Hskip as [Hc|Hp].
      * apply word_head in Hw. destruct w; simplify_eq/=. by rewrite Hw in Hc.
      * unfold left_of in Ha. simpl in Ha. congruence.
    + simplify_eq/=. exists a, b. split_and!; auto.
      unfold left_of in *. rewrite last_cons in Ha. by destruct (last a).
  - intros (a & b & -> & Hw & Ha & Hb). exists (c :: a), b. split_and!; auto.
    unfold left_of in *. rewrite last_cons. by destruct (last a).
Qed.

Lemma word_occurrence_after prev m rest w :
  word m → is_word prev = false → is_word (head rest) = false →
  word_occurrence prev w (m ++ rest) ↔ w = m ∨ word_occurrence (last m) w rest.
Proof.
  intros Hm Hprev Hrest. split.
  - intros (a & b & Hs & Hw & Ha & Hb).
    apply app_eq_inv in Hs as [(k & Hm' & Hk)|(k & Ha' & Hk)].
    + (* [a] ends inside [m] *)
      destruct a as [|c a _] using rev_ind.
      * left. simpl in Hm'. subst k.
        apply app_eq_inv in Hk as [(k' & Hw' & Hrest')|(k' & Hm' & Hb')].
        -- destruct k' as [|c k']; [by rewrite app_nil_r in Hw'|].
           exfalso. subst w rest. simpl in Hrest. destruct Hw as [_ Hw].
           rewrite Forall_app in Hw. destruct Hw as [_ Hw]. inversion Hw. congruence.
        -- destruct k' as [|c k']; [by rewrite app_nil_r in Hm'|].
           exfalso. subst m b. simpl in Hb. destruct Hm as [_ Hm].
           rewrite Forall_app in Hm. destruct Hm as [_ Hm]. inversion Hm. congruence.
      * exfalso. unfold left_of in Ha. rewrite last_snoc in Ha. simpl in Ha.
        destruct Hm as [_ Hm]. subst m. rewrite !Forall_app in Hm.
        destruct Hm as [[_ Hm] _]. inversion Hm. congruence.
    + (* [a] reaches beyond [m] *)
      right. subst a rest. exists k, b. split_and!; auto.
      unfold left_of in *. rewrite last_app in Ha.
      destruct (last k); [done|]. apply word_last in Hm.
      destruct (last m); simpl in *; congruence.
  - intros [->|(a & b & -> & Hw & Ha & Hb)].
    + exists [], rest. split_and!; auto.
    + exists (m ++ a), b. rewrite <- (assoc_L (++)). split_and!; auto.
      unfold left_of in *. rewrite last_app. destruct (last a); [done|].
      apply word_last in Hm. congruence.
Qed.

Lemma findall_from_cons (fuel : nat) (prev : option N) (c : N) (s : pystr) :
  findall_from (S fuel) prev (c :: s) =
  match match_word_at prev (c :: s) with
  | Some (m, rest) => m :: findall_from fuel (last m) rest
  | None => findall_from fuel (Some c) s
  end.
Proof. done. Qed.

Lemma findall_from_spec (fuel : nat) (prev : option N) (s w : pystr) :
  length s ≤ fuel →
  w ∈ findall_from fuel prev s ↔ word_occurrence prev w s.
Proof.
  revert prev s. induction fuel as [|fuel IH]; intros prev s Hlen.
  - destruct s; [|simpl in Hlen; lia]. simpl. split; [by intros ?%elem_of_nil|].
    intros (a & b & Hs & [Hne _] & _). destruct a, w; done.
  - destruct s as [|c s].
    { simpl. split; [by intros ?%elem_of_nil|].
      intros (a & b & Hs & [Hne _] & _). destruct a, w; done. }
    rewrite findall_from_cons. unfold match_word_at, at_word_boundary. cbn [head].
    pose proof (match_word_run_spec (c :: s)) as Hrun.
    destruct (is_word (Some c)) eqn:Hc.
    + destruct (is_word prev) eqn:Hp; cbn [xorb].
      { etrans; [apply IH; simpl in Hlen; lia|].
        symmetry. apply word_occurrence_skip; auto. }
      destruct (match_word_run (c :: s)) as [[m rest]|]; [|simpl in *; congruence].
      destruct Hrun as (Hs & Hm & Hrest). rewrite Hs.
      rewrite elem_of_cons, word_occurrence_after by done.
      apply or_iff_compat_l, IH.
      assert (length (c :: s) = length (m ++ rest)) as Hl by by rewrite Hs.
      rewrite length_app in Hl. simpl in Hl, Hlen. destruct Hm as [Hne _].
      destruct m; [done|]. simpl in Hl. lia.
    + assert (match_word_run (c :: s) = None) as ->.
      { simpl in *. by rewrite Hc. }
      destruct (xorb _ _).
      all: etrans; [apply IH; simpl in Hlen; lia|].
      all: symmetry; apply word_occurrence_skip; auto.
Qed.


(** A maximal run of word characters of [s]. *)
Definition maximal_word_run (w s : pystr) : Prop :=
  ∃ a b, s = a ++ w ++ b ∧ word w
         ∧ is_word (last a) = false ∧ is_word (head b) = false.

(** [re.findall] with the pattern [\b\w+\b] finds the maximal runs of
    word characters. *)
Lemma elem_of_findall_words (s w : pystr) :
  w ∈ findall_words s ↔ maximal_word_run w s.
Proof.
  unfold findall_words. rewrite findall_from_spec by done.
  unfold word_occurrence, maximal_word_run, left_of.
  do 2 (apply exist_proper; intros ?). by destruct (last _).
Qed.

End re_facts.

(** ** The stable sort in descending order *)

Section sorting_facts.
Context {A : Type} (key : A → Z).

(** [x] may stand before [y] in a descending order on the key. *)
Definition key_ge (x y : A) : Prop := (key y ≤ key x)%Z.

Lemma insert_desc_perm (x : A) (l : list A) : insert_desc key x l ≡ₚ x :: l.
Proof.
  induction l as [|y l IH]; simpl; [done|].
  case_match; [|done]. by rewrite IH, Permutation_swap.
Qed.

Lemma sorted_desc_perm (l : list A) : sorted_desc key l ≡ₚ l.
Proof.
  induction l as [|x l IH]; simpl; [done|].
  by rewrite insert_desc_perm, IH.
Qed.

Lemma insert_desc_sorted (x : A) (l : list A) :
  StronglySorted key_ge l → StronglySorted key_ge (insert_desc key x l).
Proof.
  induction 1 as [|y l Hl IH Hy]; simpl; [by repeat constructor|].
  destruct (Z.ltb_spec (key x) (key y)).
  - constructor; [done|]. rewrite insert_desc_perm. constructor; [|done].
    unfold key_ge. lia.
  - constructor; [by constructor|]. constructor; [done|].
    eapply Forall_impl; [done|]. unfold key_ge. intros z ?. simpl in *. lia.
Qed.

Lemma sorted_desc_sorted (l : list A) : StronglySorted key_ge (sorted_desc key l).
Proof.
  induction l as [|x l IH]; simpl; [constructor|]. by apply insert_desc_sorted.
Qed.

Lemma insert_desc_stable (k : Z) (x : A) (l : list A) :
  filter (λ y, key y = k) (insert_desc key x l) = filter (λ y, key y = k) (x :: l).
Proof.
  induction l as [|y l IH]; simpl; [done|].
  destruct (Z.ltb_spec (key x) (key y)); [|done].
  rewrite !filter_cons in *. rewrite IH.
  repeat case_decide; try done; lia.
Qed.

Lemma sorted_desc_stable (k : Z) (l : list A) :
  filter (λ y, key y = k) (sorted_desc key l) = filter (λ y, key y = k) l.
Proof.
  induction l as [|x l IH]; simpl; [done|].
  rewrite insert_desc_stable, !filter_cons, IH. done.
Qed.

End sorting_facts.

(** ** Keeping first occurrences *)

Section first_facts.
Context {A : Type} `{EqDecision A}.

Fixpoint first_occurrences (l : list A) : list A :=
  match l with
  | [] => []
  | x :: l' => x :: filter (λ y, y ≠ x) (first_occurrences l')
  end.

Lemma elem_of_first_occurrences (l : list A) (x : A) :
  x ∈ first_occurrences l ↔ x ∈ l.
Proof.
  induction l as [|y l IH]; simpl; [done|].
  rewrite !elem_of_cons, list_elem_of_filter, IH.
  destruct (decide (x = y)); naive_solver.
Qed.

Lemma NoDup_first_occurrences (l : list A) : NoDup (first_occurrences l).
Proof.
  induction l as [|y l IH]; simpl; [constructor|].
  constructor; [|by apply NoDup_filter].
  rewrite list_elem_of_filter. naive_solver.
Qed.

Lemma first_occurrences_sublist (l : list A) : first_occurrences l `sublist_of` l.
Proof.
  induction l as [|y l IH]; simpl; [done|].
  apply sublist_skip. by trans (first_occurrences l); [apply sublist_filter|].
Qed.

Lemma filter_all (P : A → Prop) `{!∀ x, Decision (P x)} (l : list A) :
  Forall P l → filter P l = l.
Proof.
  induction 1 as [|x l ? ? IH]; [done|]. by rewrite filter_cons_True, IH.
Qed.

Lemma first_occurrences_filter (P : A → Prop) `{!∀ x, Decision (P x)} (l : list A) :
  filter P (first_occurrences l) = first_occurrences (filter P l).
Proof.
  induction l as [|y l IH]; simpl; [done|].
  rewrite !filter_cons. destruct (decide (P y)) as [Hy|Hy]; simpl.
  - f_equal. rewrite <- IH, !list_filter_filter. apply list_filter_iff. naive_solver.
  - rewrite list_filter_filter_l by naive_solver. done.
Qed.

(** The fold of [dict.fromkeys] from the keys [acc] on. *)
Lemma foldl_fromkeys (acc l : list A) :
  foldl (λ acc x, if bool_decide (x ∈ acc) then acc else acc ++ [x]) acc l
  = acc ++ first_occurrences (filter (λ x, x ∉ acc) l).
Proof.
  revert acc. induction l as [|x l IH]; intros acc; simpl.
  - by rewrite app_nil_r.
  - rewrite filter_cons. case_bool_decide as Hx.
    + rewrite decide_False by naive_solver. apply IH.
    + rewrite decide_True by done. simpl. rewrite IH, <- (assoc_L (++)). simpl.
      do 2 f_equal. rewrite first_occurrences_filter, list_filter_filter.
      f_equal. apply list_filter_iff. intros y.
      rewrite elem_of_app, list_elem_of_singleton. naive_solver.
Qed.
End first_facts.

Lemma dict_fromkeys_first (l : list pystr) : dict_fromkeys l = first_occurrences l.
Proof.
  unfold dict_fromkeys. rewrite foldl_fromkeys. simpl. f_equal.
  apply filter_all, Forall_forall. intros x _. apply not_elem_of_nil.
Qed.

(** A decidable statement on closed terms, settled by evaluation. *)
Ltac by_compute := apply (bool_decide_unpack _); vm_compute; exact I.

(** ** Keyword extraction *)

Import WooConnector.

Section extract.
Context `{!Unicode, !SetOrder}.

Lemma py_set_nil : py_set [] = [].
Proof.
  destruct (py_set []) as [|x l] eqn:Hs; [done|].
  assert (x ∈ @nil pystr) as Hx by (apply py_set_elem_of; rewrite Hs; left).
  by apply elem_of_nil in Hx.
Qed.

Lemma py_lower_nil : py_lower [] = [].
Proof. by rewrite py_lower_latin1. Qed.

(** A text of ASCII letters and digits is a word, whatever the rest of the
    tables says. *)
Lemma ascii_word_word (w : pystr) :
  w ≠ [] → forallb (λ c, (c <? 128)%N && ascii_word c) w = true → word w.
Proof.
  intros Hne Hw. split; [done|]. apply Forall_forall. intros c Hc.
  rewrite forallb_forall in Hw. apply list_elem_of_In, Hw in Hc.
  apply andb_true_iff in Hc as [Hc%N.ltb_lt Hc']. by rewrite is_word_char_ascii.
Qed.

Lemma py_lower_ascii (s : pystr) :
  forallb (λ c, (c <? 256)%N) s = true → py_lower s = latin1_lower <$> s.
Proof.
  intros Hs. apply py_lower_latin1, Forall_forall. intros c Hc.
  rewrite forallb_forall in Hs. apply list_elem_of_In, Hs in Hc. by apply N.ltb_lt.
Qed.

Lemma elem_of_extract_keywords (text w : pystr) :
  w ∈ extract_keywords (Some text)
  ↔ maximal_word_run w (py_lower text) ∧ 3 < length w ∧ w ∉ stopwords.
Proof.
  unfold extract_keywords. destruct text as [|c text].
  - rewrite py_set_nil, py_lower_nil. split; [by intros ?%elem_of_nil|].
    intros [(a & b & Hs & [Hne _] & _) _]. destruct a, w; done.
  - rewrite py_set_elem_of, list_elem_of_filter, elem_of_findall_words. tauto.
Qed.

(** The text of the specification's scenario. *)
Definition sample_text : pystr :=
  ustr "Afvalbakken in de openbare ruimte voor afvalbeleid".

(** C6: for every text, [extract_keywords] returns, as a set (a list without
    repetition), the maximal runs of word characters of the lower-cased
    text that are longer than 3 and are no stop word; an absent or empty
    text gives the empty set; the function is total, so no text raises.  On
    "Afvalbakken in de openbare ruimte voor afvalbeleid" the result leaves
    out "in", "de" and "voor" and holds "afvalbakken", "openbare", "ruimte"
    and "afvalbeleid". *)
Theorem extract_keywords_spec :
  (∀ text w,
     w ∈ extract_keywords (Some text)
     ↔ maximal_word_run w (py_lower text) ∧ 3 < length w ∧ w ∉ stopwords)
  ∧ (∀ text, NoDup (extract_keywords text))
  ∧ extract_keywords None = []
  ∧ extract_keywords (Some []) = []
  ∧ Forall (λ w, w ∉ extract_keywords (Some sample_text))
      [ustr "in"; ustr "de"; ustr "voor"]
  ∧ Forall (λ w, w ∈ extract_keywords (Some sample_text))
      [ustr "afvalbakken"; ustr "openbare"; ustr "ruimte"; ustr "afvalbeleid"].
Proof.
  split_and!.
  - apply elem_of_extract_keywords.
  - intros [[|c text]|]; apply py_set_NoDup.
  - apply py_set_nil.
  - apply py_set_nil.
  - repeat constructor; rewrite elem_of_extract_keywords; intros (_ & Hlen & Hstop).
    + vm_compute in Hlen. lia.
    + vm_compute in Hlen. lia.
    + apply Hstop. by_compute.
  - assert (py_lower sample_text
            = ustr "afvalbakken in de openbare ruimte voor afvalbeleid") as Hlow.
    { unfold sample_text. rewrite py_lower_ascii by done. by vm_compute. }
    assert (∀ a w b, py_lower sample_text = ustr a ++ ustr w ++ ustr b →
              ustr w ≠ [] →
              forallb (λ c, (c <? 128)%N && ascii_word c) (ustr w) = true →
              forallb (λ c, (c <? 128)%N && negb (ascii_word c))
                (option_list (last (ustr a)) ++ option_list (head (ustr b))) = true →
              maximal_word_run (ustr w) (py_lower sample_text)) as Hrun.
    { intros a w b Hs Hne Hw Hab. exists (ustr a), (ustr b).
      split_and!; [done|by apply ascii_word_word|..].
      - destruct (last (ustr a)) as [c|]; [|done]. simpl in *.
        apply andb_true_iff in Hab as [Hc _]. apply andb_true_iff in Hc as [?%N.ltb_lt ?].
        rewrite is_word_char_ascii by done. by apply negb_true_iff.
      - destruct (head (ustr b)) as [c|]; [|done]. simpl.
        rewrite forallb_app in Hab. apply andb_true_iff in Hab as [_ Hc]. simpl in Hc.
        apply andb_true_iff in Hc as [Hc _]. apply andb_true_iff in Hc as [?%N.ltb_lt ?].
        rewrite is_word_char_ascii by done. by apply negb_true_iff. }
    repeat constructor; rewrite elem_of_extract_keywords;
      (split_and!; [|vm_compute; lia|by_compute]).
    + by apply (Hrun "" "afvalbakken" " in de openbare ruimte voor afvalbeleid")%string.
    + by apply (Hrun "afvalbakken in de " "openbare" " ruimte voor afvalbeleid")%string.
    + by apply (Hrun "afvalbakken in de openbare " "ruimte" " voor afvalbeleid")%string.
    + by apply (Hrun "afvalbakken in de openbare ruimte voor " "afvalbeleid" "")%string.
Qed.
End extract.

(** ** Topic mapping *)

Section topics.
Context `{!SetOrder}.

(** Every topic of the table. *)
Definition topic_vocabulary : list pystr := mjoin (snd <$> TOPIC_MAPPING).

Lemma elem_of_map_to_topics (keywords : list pystr) (t : pystr) :
  t ∈ map_to_topics keywords
  ↔ ∃ anchor topic_list keyword,
      (anchor, topic_list) ∈ TOPIC_MAPPING ∧ keyword ∈ keywords
      ∧ (substring anchor keyword ∨ substring keyword anchor)
      ∧ t ∈ topic_list.
Proof.
  unfold map_to_topics. rewrite py_set_elem_of, list_elem_of_bind. split.
  - intros (keyword & Ht & Hk). apply list_elem_of_bind in Ht as ([anchor tl] & Ht & Ha).
    exists anchor, tl, keyword.
    destruct (str_contains anchor keyword || str_contains keyword anchor) eqn:Hm;
      [|by apply elem_of_nil in Ht].
    apply orb_true_iff in Hm. rewrite !str_contains_spec in Hm. done.
  - intros (anchor & tl & keyword & Ha & Hk & Hm & Ht).
    exists keyword. split; [|done]. apply list_elem_of_bind. exists (anchor, tl).
    split; [|done]. rewrite <- !str_contains_spec, <- orb_true_iff in Hm.
    by rewrite Hm.
Qed.

Lemma map_to_topics_vocabulary (keywords : list pystr) :
  map_to_topics keywords ⊆ topic_vocabulary.
Proof.
  intros t (anchor & tl & _ & Ha & _ & _ & Ht)%elem_of_map_to_topics.
  unfold topic_vocabulary. apply list_elem_of_join. exists tl. split; [done|].
  apply list_elem_of_fmap. by exists (anchor, tl).
Qed.

(** C3: for every keyword set, [map_to_topics] holds exactly the topics of
    the table entries whose anchor occurs in some keyword or has some
    keyword occurring in it (the match is made in both directions); so the
    result lies within the topics of the table, and for the one keyword
    "afval" it holds "milieu", "openbare ruimte", "beheer" and
    "huisvesting". *)
Theorem map_to_topics_spec :
  (∀ keywords t,
     t ∈ map_to_topics keywords
     ↔ ∃ anchor topic_list keyword,
         (anchor, topic_list) ∈ TOPIC_MAPPING ∧ keyword ∈ keywords
         ∧ (substring anchor keyword ∨ substring keyword anchor)
         ∧ t ∈ topic_list)
  ∧ (∀ keywords, map_to_topics keywords ⊆ topic_vocabulary)
  ∧ Forall (λ t, t ∈ map_to_topics [ustr "afval"])
      [ustr "milieu"; ustr "openbare ruimte"; ustr "beheer"; ustr "huisvesting"].
Proof.
  split_and!.
  - apply elem_of_map_to_topics.
  - apply map_to_topics_vocabulary.
  - repeat constructor; apply elem_of_map_to_topics;
      exists (ustr "afval"),
        [ustr "milieu"; ustr "openbare ruimte"; ustr "beheer"; ustr "huisvesting"],
        (ustr "afval");
      (split_and!; [by_compute|by_compute|left; by exists [], []|by_compute]).
Qed.

End topics.

(** ** Category suggestions *)

Section categories.

Lemma filter_ext_elem {A} (P Q : A → Prop) `{!∀ x, Decision (P x), !∀ x, Decision (Q x)}
    (l : list A) :
  (∀ x, x ∈ l → P x ↔ Q x) → filter P l = filter Q l.
Proof.
  induction l as [|x l IH]; intros HPQ; [done|].
  rewrite !filter_cons, IH by (intros; apply HPQ; by right).
  apply decide_ext, HPQ. left.
Qed.

(** *** The loop that drops repeated categories *)

Lemma unique_suggestions_NoDup (seen : list pystr) (l : list suggestion) :
  NoDup (category <$> l) →
  unique_suggestions seen l = filter (λ s, category s ∉ seen) l.
Proof.
  revert seen. induction l as [|s l IH]; intros seen Hl; simpl; [done|].
  apply NoDup_cons in Hl as [Hs Hl]. rewrite filter_cons.
  case_bool_decide as Hseen.
  - rewrite decide_False by tauto. by apply IH.
  - rewrite decide_True by done. f_equal. rewrite IH by done.
    apply filter_ext_elem. intros s' Hs'. rewrite not_elem_of_cons.
    split; [tauto|]. intros ?. split; [|done].
    intros Heq. apply Hs. rewrite <- Heq. by apply list_elem_of_fmap_2.
Qed.

Lemma unique_suggestions_seen (seen seen' : list pystr) (l : list suggestion) :
  (∀ c, c ∈ seen ↔ c ∈ seen') →
  unique_suggestions seen l = unique_suggestions seen' l.
Proof.
  revert seen seen'. induction l as [|s l IH]; intros seen seen' Hseen; simpl; [done|].
  rewrite (bool_decide_ext _ _ (Hseen (category s))). case_bool_decide; [by apply IH|].
  f_equal. apply IH. intros c. rewrite !elem_of_cons. by rewrite Hseen.
Qed.

Lemma unique_suggestions_app (seen : list pystr) (l1 l2 : list suggestion) :
  unique_suggestions seen (l1 ++ l2)
  = unique_suggestions seen l1 ++ unique_suggestions ((category <$> l1) ++ seen) l2.
Proof.
  revert seen. induction l1 as [|s l1 IH]; intros seen; simpl; [done|].
  case_bool_decide as Hs.
  - rewrite IH. f_equal. apply unique_suggestions_seen. intros c.
    rewrite elem_of_cons, !elem_of_app. naive_solver.
  - simpl. rewrite IH. do 2 f_equal. apply unique_suggestions_seen. intros c.
    rewrite !elem_of_cons, !elem_of_app, elem_of_cons. naive_solver.
Qed.

(** *** The suggestions from keywords *)

(** Some keyword holds one of the triggers. *)
Definition triggered (triggers keywords : list pystr) : Prop :=
  ∃ trigger kw, trigger ∈ triggers ∧ kw ∈ keywords ∧ substring trigger kw.

Lemma existsb_contains (triggers : list pystr) (kw : pystr) :
  existsb (λ ck, str_contains ck kw) triggers = true
  ↔ ∃ trigger, trigger ∈ triggers ∧ substring trigger kw.
Proof.
  rewrite existsb_exists. setoid_rewrite str_contains_spec.
  by setoid_rewrite list_elem_of_In.
Qed.

Lemma triggered_find (triggers keywords : list pystr) :
  triggered triggers keywords
  ↔ is_Some (list_find (λ kw, existsb (λ ck, str_contains ck kw) triggers = true) keywords).
Proof.
  split.
  - intros (trigger & kw & Ht & Hkw & Hsub).
    eapply list_find_elem_of; [done|]. apply existsb_contains. eauto.
  - intros [[i kw] (Hi & (trigger & ? & ?)%existsb_contains & _)%list_find_Some].
    exists trigger, kw. split_and!; [done| |done]. by eapply list_elem_of_lookup_2.
Qed.

#[local] Instance triggered_dec triggers keywords : Decision (triggered triggers keywords).
Proof. refine (cast_if (decide (is_Some _))); by rewrite triggered_find. Defined.

Lemma keyword_suggestions_categories (keywords : list pystr) :
  category <$> keyword_suggestions keywords
  = fst <$> filter (λ entry, triggered entry.2 keywords) category_keywords.
Proof.
  unfold keyword_suggestions. induction category_keywords as [|[c triggers] tbl IH]; [done|].
  rewrite bind_cons, fmap_app, IH, filter_cons. simpl.
  destruct (list_find _ keywords) as [[i kw]|] eqn:Hfind.
  - rewrite decide_True; [done|]. apply triggered_find. by rewrite Hfind.
  - rewrite decide_False; [done|]. rewrite triggered_find, Hfind. by intros [??].
Qed.

Lemma keyword_suggestions_NoDup (keywords : list pystr) :
  NoDup (category <$> keyword_suggestions keywords).
Proof.
  rewrite keyword_suggestions_categories.
  eapply sublist_NoDup; [|apply fmap_sublist, sublist_filter]. by_compute.
Qed.

(** A suggestion of the first loop carries the first keyword, in the order
    of iteration, that holds a trigger of its category. *)
Lemma keyword_suggestions_first (keywords : list pystr) (s : suggestion) :
  s ∈ keyword_suggestions keywords →
  ∃ triggers i kw,
    (category s, triggers) ∈ category_keywords
    ∧ name s = category_name (category s)
    ∧ reason s = ustr "Bevat keyword: " ++ kw
    ∧ keywords !! i = Some kw
    ∧ triggered triggers [kw]
    ∧ ∀ j kw', keywords !! j = Some kw' → j < i → ¬ triggered triggers [kw'].
Proof.
  unfold keyword_suggestions. intros ([c triggers] & Hs & Hc)%list_elem_of_bind.
  destruct (list_find _ keywords) as [[i kw]|] eqn:Hfind; [|by apply elem_of_nil in Hs].
  apply list_elem_of_singleton in Hs as ->. simpl.
  apply list_find_Some in Hfind as (Hi & (trigger & ? & ?)%existsb_contains & Hfirst).
  exists triggers, i, kw. split_and!; [done..| |].
  - exists trigger, kw. split_and!; [done| |done]. left.
  - intros j kw' Hj Hlt (trigger' & kw'' & ? & ->%list_elem_of_singleton & ?).
    eapply Hfirst; [done..|]. apply existsb_contains. eauto.
Qed.

(** *** The suggestions from topics *)

Definition policy_topics : list pystr := [ustr "beleid"; ustr "regelgeving"; ustr "bestuur"].
Definition subsidy_topics : list pystr := [ustr "subsidie"; financien].

Lemma existsb_elem_of (ts topics : list pystr) :
  existsb (λ t, bool_decide (t ∈ topics)) ts = bool_decide (Exists (λ t, t ∈ topics) ts).
Proof.
  induction ts as [|t ts IH]; simpl.
  - done.
  - rewrite IH. apply eq_true_iff_eq.
    rewrite orb_true_iff, !bool_decide_eq_true, Exists_cons. done.
Qed.

Lemma topic_suggestions_categories (topics : list pystr) :
  category <$> topic_suggestions topics
  = (if decide (Exists (λ t, t ∈ topics) policy_topics) then [ustr "4"] else [])
    ++ (if decide (Exists (λ t, t ∈ topics) subsidy_topics) then [ustr "1e"] else []).
Proof.
  unfold topic_suggestions. rewrite fmap_app, !existsb_elem_of.
  fold policy_topics subsidy_topics.
  by do 2 (case_bool_decide; [rewrite decide_True by done|rewrite decide_False by done]).
Qed.

Lemma topic_suggestions_NoDup (topics : list pystr) :
  NoDup (category <$> topic_suggestions topics).
Proof.
  rewrite topic_suggestions_categories.
  repeat case_decide; by_compute.
Qed.

Lemma suggest_woo_categories_eq (keywords topics : list pystr) :
  _suggest_woo_categories keywords topics
  = keyword_suggestions keywords
    ++ filter (λ s, category s ∉ category <$> keyword_suggestions keywords)
         (topic_suggestions topics).
Proof.
  unfold _suggest_woo_categories. rewrite unique_suggestions_app, app_nil_r.
  rewrite !unique_suggestions_NoDup
    by auto using keyword_suggestions_NoDup, topic_suggestions_NoDup.
  f_equal. apply filter_all, Forall_forall. intros s _. apply not_elem_of_nil.
Qed.

Lemma suggest_woo_categories_NoDup (keywords topics : list pystr) :
  NoDup (category <$> _suggest_woo_categories keywords topics).
Proof.
  rewrite suggest_woo_categories_eq, fmap_app. apply NoDup_app. split_and!.
  - apply keyword_suggestions_NoDup.
  - intros c Hc (s & -> & [Hs _]%list_elem_of_filter)%list_elem_of_fmap. done.
  - eapply sublist_NoDup; [|apply fmap_sublist, sublist_filter].
    apply topic_suggestions_NoDup.
Qed.

(** The category codes. *)
Definition category_codes : list pystr := fst <$> category_keywords.

Lemma suggest_woo_categories_codes (keywords topics : list pystr) :
  category <$> _suggest_woo_categories keywords topics ⊆ category_codes.
Proof.
  unfold category_codes. rewrite suggest_woo_categories_eq, fmap_app.
  intros c [Hc|Hc]%elem_of_app.
  - rewrite keyword_suggestions_categories in Hc.
    apply list_elem_of_fmap in Hc as (entry & -> & [_ ?]%list_elem_of_filter).
    by apply list_elem_of_fmap_2.
  - apply list_elem_of_fmap in Hc as (s & -> & [_ Hs]%list_elem_of_filter).
    apply (list_elem_of_fmap_2 category) in Hs.
    rewrite topic_suggestions_categories in Hs.
    revert Hs. repeat case_decide; simpl; intros Hs;
      repeat (apply elem_of_cons in Hs as [->|Hs]); try by_compute;
      by apply elem_of_nil in Hs.
Qed.

(** C4: for all keywords and topics, no two suggestions of
    [_suggest_woo_categories] have the same category, and the first one
    seen wins: the result is the suggestions of the keyword loop, which
    holds one suggestion for each category code that has a trigger inside
    some keyword (made for the first such keyword) and none for the others,
    followed by those of the two topic rules (category "4" when the topics
    meet beleid, regelgeving, bestuur; category "1e" when they meet
    subsidie, financiën) whose category is not there already. *)
Theorem suggest_woo_categories_spec (keywords topics : list pystr) :
  NoDup (category <$> _suggest_woo_categories keywords topics)
  ∧ _suggest_woo_categories keywords topics
    = keyword_suggestions keywords
      ++ filter (λ s, category s ∉ category <$> keyword_suggestions keywords)
           (topic_suggestions topics)
  ∧ NoDup (category <$> keyword_suggestions keywords)
  ∧ (∀ c, c ∈ category <$> keyword_suggestions keywords
          ↔ ∃ triggers, (c, triggers) ∈ category_keywords ∧ triggered triggers keywords)
  ∧ (∀ s, s ∈ keyword_suggestions keywords →
          ∃ triggers i kw,
            (category s, triggers) ∈ category_keywords
            ∧ name s = category_name (category s)
            ∧ reason s = ustr "Bevat keyword: " ++ kw
            ∧ keywords !! i = Some kw
            ∧ triggered triggers [kw]
            ∧ ∀ j kw', keywords !! j = Some kw' → j < i → ¬ triggered triggers [kw'])
  ∧ category <$> topic_suggestions topics
    = (if decide (Exists (λ t, t ∈ topics) policy_topics) then [ustr "4"] else [])
      ++ (if decide (Exists (λ t, t ∈ topics) subsidy_topics) then [ustr "1e"] else []).
Proof.
  split_and!.
  - apply suggest_woo_categories_NoDup.
  - apply suggest_woo_categories_eq.
  - apply keyword_suggestions_NoDup.
  - intros c. rewrite keyword_suggestions_categories, list_elem_of_fmap. split.
    + intros ([c' triggers] & -> & [? ?]%list_elem_of_filter). by exists triggers.
    + intros (triggers & ? & ?). exists (c, triggers). by rewrite list_elem_of_filter.
  - apply keyword_suggestions_first.
  - apply topic_suggestions_categories.
Qed.

End categories.

(** ** Search terms *)

Section search_terms.

(** The keywords as [sorted(keywords, key=len, reverse=True)] orders them. *)
Definition by_length (keywords : list pystr) : list pystr :=
  sorted_desc (λ k, Z.of_nat (length k)) keywords.

(** [x] is at least as long as [y]. *)
Definition longer_eq (x y : pystr) : Prop := length y ≤ length x.

Lemma by_length_sorted (keywords : list pystr) :
  StronglySorted longer_eq (by_length keywords).
Proof.
  pose proof (sorted_desc_sorted (λ k : pystr, Z.of_nat (length k)) keywords) as Hs.
  unfold by_length. induction Hs as [|x l _ IH Hx]; constructor; [done|].
  eapply Forall_impl; [done|]. unfold key_ge, longer_eq. intros y Hy. simpl in Hy. lia.
Qed.

Lemma by_length_stable (n : nat) (keywords : list pystr) :
  filter (λ k, length k = n) (by_length keywords) = filter (λ k, length k = n) keywords.
Proof.
  pose proof (sorted_desc_stable (λ k : pystr, Z.of_nat (length k)) (Z.of_nat n) keywords) as Hs.
  unfold by_length.
  rewrite (list_filter_iff (λ k, length k = n) (λ k, Z.of_nat (length k) = Z.of_nat n))
    by (intros; lia).
  rewrite Hs. apply list_filter_iff. intros; lia.
Qed.

(** C7: for all keywords and topics, [_generate_search_terms] returns the
    first occurrences, in order, of the list made of the 5 longest keywords
    (the keywords in descending length, keywords of one length in their
    order of enumeration; the first 5 of them) followed by the first 3
    topics; the result has no repetition. *)
Theorem generate_search_terms_spec (keywords topics : list pystr) :
  by_length keywords ≡ₚ keywords
  ∧ StronglySorted longer_eq (by_length keywords)
  ∧ (∀ n, filter (λ k, length k = n) (by_length keywords)
          = filter (λ k, length k = n) keywords)
  ∧ (∀ x y, x ∈ take 5 (by_length keywords) → y ∈ drop 5 (by_length keywords) →
            length y ≤ length x)
  ∧ _generate_search_terms keywords topics
    = first_occurrences (take 5 (by_length keywords) ++ take 3 topics)
  ∧ NoDup (_generate_search_terms keywords topics)
  ∧ _generate_search_terms keywords topics
    `sublist_of` take 5 (by_length keywords) ++ take 3 topics
  ∧ (∀ x, x ∈ _generate_search_terms keywords topics
          ↔ x ∈ take 5 (by_length keywords) ∨ x ∈ take 3 topics).
Proof.
  assert (_generate_search_terms keywords topics
    = first_occurrences (take 5 (by_length keywords) ++ take 3 topics)) as Heq.
  { unfold _generate_search_terms. by rewrite dict_fromkeys_first. }
  split_and!.
  - apply sorted_desc_perm.
  - apply by_length_sorted.
  - intros n. apply by_length_stable.
  - intros x y Hx Hy. pose proof (by_length_sorted keywords) as Hs.
    rewrite <- (take_drop 5 (by_length keywords)) in Hs.
    by apply (StronglySorted_app_1_elem_of _ _ _ x y) in Hs.
  - done.
  - rewrite Heq. apply NoDup_first_occurrences.
  - rewrite Heq. apply first_occurrences_sublist.
  - intros x. by rewrite Heq, elem_of_first_occurrences, elem_of_app.
Qed.

End search_terms.

(** ** Running code: reads leave the heap as it is *)

Section monad_facts.

Lemma bind_run {A B} (m : M A) (f : A → M B) (h : heap) :
  (m ≫= f) h = match m h with
               | (inr a, h') => f a h'
               | (inl e, h') => (inl e, h')
               end.
Proof. done. Qed.

Lemma bind_inr {A B} (m : M A) (f : A → M B) (h h' : heap) (b : B) :
  (m ≫= f) h = (inr b, h') ↔ ∃ a h1, m h = (inr a, h1) ∧ f a h1 = (inr b, h').
Proof.
  rewrite bind_run. destruct (m h) as [[e|a] h1]; split.
  - done.
  - by intros (? & ? & ? & ?).
  - eauto.
  - by intros (? & ? & [= -> ->] & ?).
Qed.

(** A computation that does not change the heap it runs on, whatever its
    outcome. *)
Definition read_only {A} (m : M A) : Prop := ∀ h, (m h).2 = h.

Lemma read_only_ret {A} (a : A) : read_only (mret a).
Proof. done. Qed.

Lemma read_only_raise {A} (e : exn) : read_only (raise (A:=A) e).
Proof. done. Qed.

Lemma read_only_get_heap : read_only get_heap.
Proof. done. Qed.

Lemma read_only_bind {A B} (m : M A) (f : A → M B) :
  read_only m → (∀ a, read_only (f a)) → read_only (m ≫= f).
Proof.
  intros Hm Hf h. rewrite bind_run. specialize (Hm h).
  destruct (m h) as [[e|a] h1]; simpl in *; subst; [done|apply Hf].
Qed.

Lemma read_only_try {A} (m : M A) (handler : exn → M A) :
  read_only m → (∀ e, read_only (handler e)) → read_only (try_except m handler).
Proof.
  intros Hm Hh h. unfold try_except. specialize (Hm h).
  destruct (m h) as [[e|a] h1]; simpl in *; subst; [apply Hh|done].
Qed.

Lemma read_only_run {A} (m : M A) (h h' : heap) (r : exn + A) :
  read_only m → m h = (r, h') → h' = h.
Proof. intros Hm Hr. specialize (Hm h). by rewrite Hr in Hm. Qed.

End monad_facts.

(** Reads of the heap and what is built from them. *)
Ltac solve_read_only :=
  repeat first
    [ apply read_only_ret | apply read_only_raise | apply read_only_get_heap
    | apply read_only_bind; [|intros ?] | apply read_only_try; [|intros ?]
    | progress case_match | assumption ].

Section primitive_facts.

Lemma read_only_dict_get o k dflt : read_only (dict_get o k dflt).
Proof. unfold dict_get. solve_read_only. Qed.

Lemma read_only_subscript o k : read_only (subscript o k).
Proof. unfold subscript. solve_read_only. Qed.

Lemma read_only_py_or a b : read_only b → read_only (py_or a b).
Proof. intros. unfold py_or. solve_read_only. Qed.

Lemma read_only_py_join sep v : read_only (py_join sep v).
Proof. unfold py_join. solve_read_only. Qed.

Lemma dict_get_dict h o d k dflt :
  as_dict h o = Some d → dict_get o k dflt h = (inr (default dflt (items_get k d)), h).
Proof. intros Hd. unfold dict_get. rewrite bind_run. simpl. by rewrite Hd. Qed.

Lemma dict_get_inr h h' o k dflt v :
  dict_get o k dflt h = (inr v, h') →
  ∃ d, as_dict h o = Some d ∧ v = default dflt (items_get k d) ∧ h' = h.
Proof.
  unfold dict_get. rewrite bind_run. simpl.
  destruct (as_dict h o) as [d|]; [|done]. intros [= <- <-]. eauto.
Qed.

Lemma subscript_dict h o d k :
  as_dict h o = Some d →
  subscript o k h = (match items_get k d with Some v => inr v | None => inl (KeyError k) end, h).
Proof.
  intros Hd. unfold subscript. rewrite bind_run. simpl. rewrite Hd.
  by destruct (items_get k d).
Qed.

Lemma py_or_run h a b :
  py_or a b h = if truthy h a then (inr a, h) else b h.
Proof. unfold py_or. rewrite bind_run. simpl. by destruct (truthy h a). Qed.

End primitive_facts.

(** ** The analysis of a dataset *)

Section analysis_facts.
Context `{!Unicode, !SetOrder, !Format}.

Lemma read_only__get_attr obj key : read_only (_get_attr obj key).
Proof.
  unfold _get_attr.
  repeat first [apply read_only_dict_get | apply read_only_py_or
               | apply read_only_bind; [|intros ?]].
Qed.

Lemma read_only_analyze_dataset dataset : read_only (analyze_dataset dataset).
Proof.
  unfold analyze_dataset.
  repeat first [apply read_only_dict_get | apply read_only__get_attr
               | apply read_only_py_join | apply read_only_py_or
               | apply read_only_get_heap | apply read_only_ret
               | apply read_only_bind; [|intros ?]].
Qed.

Lemma read_only_related_loop topic_lower datasets acc :
  read_only (related_loop topic_lower datasets acc).
Proof.
  revert acc. induction datasets as [|dataset rest IH]; intros acc; simpl.
  - apply read_only_ret.
  - apply read_only_bind; [apply read_only_analyze_dataset|]. intros a.
    repeat case_match; apply IH.
Qed.

Lemma read_only_find_related_datasets woo_topic datasets :
  read_only (find_related_datasets woo_topic datasets).
Proof.
  unfold find_related_datasets.
  apply read_only_bind; [apply read_only_related_loop|]. intros ?. apply read_only_ret.
Qed.

(** The analysis of a text: what [analyze_dataset] builds once it has read
    the dataset. *)
Definition analysis_from (dataset_id title : val) (text : pystr) : analysis :=
  let keywords := extract_keywords (Some text) in
  let topics := map_to_topics keywords in
  let woo_categories := _suggest_woo_categories keywords topics in
  {| dataset_id := dataset_id;
     title := title;
     keywords := take 10 keywords;
     topics := topics;
     woo_categories := woo_categories;
     woo_search_terms := _generate_search_terms keywords topics;
     woo_index_url := UTRECHT_WOO_URL;
     relevance_score := Z.of_nat (length topics) + Z.of_nat (length woo_categories) |}.

Lemma analyze_dataset_inr h h' dataset a :
  analyze_dataset dataset h = (inr a, h') →
  h' = h ∧ ∃ dataset_id title text, a = analysis_from dataset_id title text.
Proof.
  intros Hrun. split; [by eapply read_only_run, Hrun; apply read_only_analyze_dataset|].
  unfold analyze_dataset in Hrun.
  repeat (apply bind_inr in Hrun as (? & ? & _ & Hrun)).
  injection Hrun as <- _. eauto.
Qed.

(** What [_get_attr] finds in the items of a dict. *)
Definition connector_attr (h : heap) (a : list (pystr * val)) (key : pystr) : val :=
  let x := default VNone (items_get (ustr "dct:" ++ key) a) in
  if truthy h x then x else
  let y := default VNone (items_get (ustr "dcat:" ++ key) a) in
  if truthy h y then y else default VNone (items_get key a).

Lemma _get_attr_dict h obj a key :
  as_dict h obj = Some a → _get_attr obj key h = (inr (connector_attr h a key), h).
Proof.
  intros Ha. unfold _get_attr, connector_attr.
  rewrite bind_run, (dict_get_dict _ _ a) by done. rewrite py_or_run.
  destruct (truthy h _); [done|].
  rewrite bind_run, (dict_get_dict _ _ a) by done. rewrite py_or_run.
  destruct (truthy h _); [done|]. by apply dict_get_dict.
Qed.

(** *** Records *)

(** A value for the keywords of a dataset: a list of strings, or [None]. *)
Definition keyword_value (h : heap) (v : val) : Prop :=
  v = VNone ∨ ∃ ss, as_list h v = Some (VStr <$> ss).

(** A record as the specification's data model has it: a dict; its
    [attributes], when it has them, a dict whose keywords, under any of the
    three keys, are a list of strings.  Titles, descriptions and every
    other member are arbitrary. *)
Definition record (h : heap) (dataset : val) : Prop :=
  ∃ d, as_dict h dataset = Some d
       ∧ ∀ attrs, items_get (ustr "attributes") d = Some attrs →
           ∃ a, as_dict h attrs = Some a
                ∧ ∀ k v, k ∈ [ustr "dct:keyword"; ustr "dcat:keyword"; ustr "keyword"] →
                         items_get k a = Some v → keyword_value h v.

Lemma str_items_strings i h ss : str_items i h (VStr <$> ss) = inr ss.
Proof. revert i. induction ss as [|s ss IH]; intros i; simpl; [done|]. by rewrite IH. Qed.

Lemma py_join_strings h sep v ss :
  as_list h v = Some (VStr <$> ss) → py_join sep v h = (inr (str_join sep ss), h).
Proof.
  intros Hv. unfold py_join. rewrite bind_run. simpl.
  destruct v; try done; rewrite Hv, str_items_strings; done.
Qed.

Lemma connector_attr_keyword h a :
  (∀ k v, k ∈ [ustr "dct:keyword"; ustr "dcat:keyword"; ustr "keyword"] →
          items_get k a = Some v → keyword_value h v) →
  keyword_value h (connector_attr h a (ustr "keyword")).
Proof.
  intros Ha. unfold connector_attr.
  assert (∀ k, k ∈ [ustr "dct:keyword"; ustr "dcat:keyword"; ustr "keyword"] →
               keyword_value h (default VNone (items_get k a))) as Hk.
  { intros k Hk. destruct (items_get k a) eqn:Hv; [by eapply Ha|by left]. }
  repeat case_match; apply Hk; by_compute.
Qed.

Lemma py_or_ret h a b : py_or a (mret b) h = (inr (if truthy h a then a else b), h).
Proof. rewrite py_or_run. by destruct (truthy h a). Qed.

(** [_get_attr(attrs, key) or dflt] *)
Definition attr_or (h : heap) (a : list (pystr * val)) (key : pystr) (dflt : val) : val :=
  if truthy h (connector_attr h a key) then connector_attr h a key else dflt.

(** The run of [analyze_dataset] on a dict whose attributes are a dict: it
    fails only where the keywords cannot be joined. *)
Lemma analyze_dataset_dict h dataset d a :
  as_dict h dataset = Some d →
  as_dict h (default VEmptyDict (items_get (ustr "attributes") d)) = Some a →
  analyze_dataset dataset h =
  match py_join (ustr " ") (attr_or h a (ustr "keyword") VEmptyList) h with
  | (inr joined, _) =>
      (inr (analysis_from (default (VStr []) (items_get (ustr "id") d))
              (attr_or h a (ustr "title") (VStr []))
              (py_format h (attr_or h a (ustr "title") (VStr [])) ++ ustr " "
               ++ py_format h (attr_or h a (ustr "description") (VStr [])) ++ ustr " "
               ++ joined)), h)
  | (inl e, _) => (inl e, h)
  end.
Proof.
  intros Hd Ha. unfold analyze_dataset.
  rewrite bind_run, (dict_get_dict _ _ d) by done.
  rewrite bind_run, (_get_attr_dict _ _ a) by done. rewrite bind_run, py_or_ret.
  rewrite bind_run, (_get_attr_dict _ _ a) by done. rewrite bind_run, py_or_ret.
  rewrite bind_run, (_get_attr_dict _ _ a) by done. rewrite bind_run, py_or_ret.
  rewrite bind_run, (dict_get_dict _ _ d) by done.
  rewrite bind_run. fold (attr_or h a (ustr "keyword") VEmptyList).
  pose proof (read_only_py_join (ustr " ") (attr_or h a (ustr "keyword") VEmptyList) h) as Hro.
  destruct (py_join _ _ h) as [[e|joined] h1]; simpl in Hro; subst h1; done.
Qed.

Lemma analyze_dataset_record h dataset :
  record h dataset →
  ∃ dataset_id title text,
    analyze_dataset dataset h = (inr (analysis_from dataset_id title text), h).
Proof.
  intros (d & Hd & Hattrs).
  assert (∃ a, as_dict h (default VEmptyDict (items_get (ustr "attributes") d)) = Some a
               ∧ keyword_value h (connector_attr h a (ustr "keyword"))) as (a & Ha & Hkw).
  { destruct (items_get (ustr "attributes") d) as [attrs|] eqn:Hget; simpl.
    - destruct (Hattrs attrs) as (a & ? & ?); [done|].
      exists a. split; [done|]. by apply connector_attr_keyword.
    - exists []. split; [done|]. by left. }
  rewrite (analyze_dataset_dict _ _ d a) by done.
  assert (∃ ss, as_list h (attr_or h a (ustr "keyword") VEmptyList) = Some (VStr <$> ss))
    as [ss Hss].
  { unfold attr_or. destruct Hkw as [->|[ss Hss]]; [by exists []|].
    destruct (truthy h _); [by exists ss|by exists []]. }
  rewrite (py_join_strings _ _ _ ss) by done. eauto.
Qed.

End analysis_facts.

(** ** The relevance score *)

Section score.
Context `{!Unicode, !SetOrder, !Format}.

Lemma analysis_from_score (dataset_id title : val) (text : pystr) :
  let a := analysis_from dataset_id title text in
  relevance_score a = (Z.of_nat (length (topics a)) + Z.of_nat (length (woo_categories a)))%Z
  ∧ (0 ≤ relevance_score a ≤ 49)%Z
  ∧ length (keywords a) ≤ 10.
Proof.
  unfold analysis_from. cbn [relevance_score topics woo_categories keywords].
  set (ks := extract_keywords (Some text)).
  assert (length (map_to_topics ks) ≤ 39).
  { change 39 with (length (remove_dups topic_vocabulary)).
    apply submseteq_length, NoDup_submseteq; [apply py_set_NoDup|].
    intros t Ht. apply elem_of_remove_dups. exact (map_to_topics_vocabulary _ t Ht). }
  assert (length (_suggest_woo_categories ks (map_to_topics ks)) ≤ 10).
  { rewrite <- (length_fmap category). change 10 with (length category_codes).
    apply submseteq_length, NoDup_submseteq; [apply suggest_woo_categories_NoDup|].
    exact (suggest_woo_categories_codes _ _). }
  rewrite length_take. lia.
Qed.

(** C2, as amended: for every record, [analyze_dataset] returns a result
    whose [relevance_score] is the number of its topics plus the number of
    its suggested categories, hence at least 0, and at most 49: the topics
    come from the 39 different topics of the table and the categories from
    the 10 codes.  Its [keywords] hold at most 10 entries. *)
Theorem analyze_dataset_score (h : heap) (dataset : val) :
  record h dataset →
  ∃ a, analyze_dataset dataset h = (inr a, h)
       ∧ relevance_score a
         = (Z.of_nat (length (topics a)) + Z.of_nat (length (woo_categories a)))%Z
       ∧ (0 ≤ relevance_score a ≤ 49)%Z
       ∧ length (keywords a) ≤ 10.
Proof.
  intros (dataset_id & title & text & Hrun)%analyze_dataset_record.
  eexists. split; [done|]. apply analysis_from_score.
Qed.

End score.


(** ** Related datasets *)

#[local] Instance substring_dec (sub s : pystr) : Decision (substring sub s).
Proof. refine (cast_if (decide (str_contains sub s = true))); by rewrite <- str_contains_spec. Defined.

Section related.
Context `{!Unicode, !SetOrder, !Format}.

(** The entry of a dataset in the result, as the claim words it: with the
    score when the query occurs in a topic; else with the score less one
    when it occurs in one of the keywords the analysis kept; else none. *)
Definition related_entry (query : pystr) (dataset : val) (a : analysis) : option related :=
  if decide (Exists (substring query) (topics a))
  then Some (Related dataset a (relevance_score a))
  else if decide (Exists (substring query) (keywords a))
  then Some (Related dataset a (relevance_score a - 1))
  else None.

(** The entries in the order of the datasets. *)
Definition related_entries (query : pystr) (datasets : list val) (analyses : list analysis)
  : list related :=
  omap (λ da, related_entry query da.1 da.2) (zip datasets analyses).

(** The topics of the table are in lower case, and so is every keyword. *)
Lemma py_lower_topic (t : pystr) : t ∈ topic_vocabulary → py_lower t = t.
Proof.
  intros Ht.
  assert (Forall (λ t, forallb (λ c, (c <? 256)%N) t = true ∧ latin1_lower <$> t = t)
            topic_vocabulary) as Hvoc by by_compute.
  rewrite Forall_forall in Hvoc. destruct (Hvoc t Ht) as [Hlatin Hlow].
  by rewrite py_lower_ascii.
Qed.

Lemma py_lower_keyword (text k : pystr) :
  k ∈ extract_keywords (Some text) → py_lower k = k.
Proof.
  intros [(a & b & Hs & _) _]%elem_of_extract_keywords. by eapply py_lower_stable.
Qed.

Lemma existsb_substring (query : pystr) (l : list pystr) :
  Forall (λ x, py_lower x = x) l →
  existsb (λ x, str_contains query (py_lower x)) l
  = bool_decide (Exists (substring query) l).
Proof.
  induction 1 as [|x l Hx _ IH]; [done|]. simpl. rewrite IH, Hx.
  apply eq_true_iff_eq.
  by rewrite orb_true_iff, !bool_decide_eq_true, Exists_cons, str_contains_spec.
Qed.

Lemma analysis_from_lower (dataset_id title : val) (text : pystr) :
  let a := analysis_from dataset_id title text in
  Forall (λ x, py_lower x = x) (topics a) ∧ Forall (λ x, py_lower x = x) (keywords a).
Proof.
  split; apply Forall_forall; simpl.
  - intros t Ht. apply py_lower_topic. exact (map_to_topics_vocabulary _ t Ht).
  - intros k Hk%elem_of_take. destruct Hk as (i & Hk & _).
    eapply py_lower_keyword, list_elem_of_lookup_2, Hk.
Qed.

Lemma related_entries_cons (query : pystr) (d : val) (a : analysis)
    (datasets : list val) (analyses : list analysis) :
  related_entries query (d :: datasets) (a :: analyses)
  = match related_entry query d a with
    | Some r => r :: related_entries query datasets analyses
    | None => related_entries query datasets analyses
    end.
Proof. done. Qed.

(** The loop over datasets that can all be analysed. *)
Lemma related_loop_run (h : heap) (query : pystr) (datasets : list val)
    (analyses : list analysis) (acc : list related) :
  Forall2 (λ d a, analyze_dataset d h = (inr a, h)) datasets analyses →
  related_loop query datasets acc h
  = (inr (acc ++ related_entries query datasets analyses), h).
Proof.
  intros Hruns. revert acc.
  induction Hruns as [|d a datasets analyses Hrun _ IH]; intros acc.
  - simpl. by rewrite app_nil_r.
  - cbn [related_loop]. rewrite bind_run, Hrun.
    destruct (analyze_dataset_inr _ _ _ _ Hrun) as [_ (dataset_id & title & text & ->)].
    destruct (analysis_from_lower dataset_id title text) as [Ht Hk].
    rewrite !existsb_substring by done.
    rewrite related_entries_cons. unfold related_entry.
    repeat case_bool_decide.
    all: try rewrite decide_True by done; try rewrite decide_False by done.
    all: try rewrite decide_True by done; try rewrite decide_False by done.
    all: rewrite IH; by rewrite <- ?(assoc_L (++)).
Qed.

Lemma find_related_datasets_run (h : heap) (woo_topic : pystr) (datasets : list val)
    (analyses : list analysis) :
  Forall2 (λ d a, analyze_dataset d h = (inr a, h)) datasets analyses →
  find_related_datasets woo_topic datasets h
  = (inr (sorted_desc relevance (related_entries (py_lower woo_topic) datasets analyses)), h).
Proof.
  intros Hruns. unfold find_related_datasets.
  by rewrite bind_run, (related_loop_run _ _ _ analyses).
Qed.

(** Where the loop returns, every dataset has been analysed. *)
Lemma related_loop_inr (h h' : heap) (query : pystr) (datasets : list val)
    (acc out : list related) :
  related_loop query datasets acc h = (inr out, h') →
  ∃ analyses, Forall2 (λ d a, analyze_dataset d h = (inr a, h)) datasets analyses.
Proof.
  revert acc. induction datasets as [|d datasets IH]; intros acc Hrun; [by exists []|].
  cbn [related_loop] in Hrun. rewrite bind_run in Hrun.
  destruct (analyze_dataset d h) as [[e|a] h1] eqn:Ha; [done|].
  assert (h1 = h) as -> by (eapply read_only_run, Ha; apply read_only_analyze_dataset).
  assert (∃ acc', related_loop query datasets acc' h = (inr out, h')) as [acc' Hrest].
  { repeat case_match; eauto. }
  destruct (IH _ Hrest) as [analyses Hall]. exists (a :: analyses). by constructor.
Qed.

(** Whatever the datasets are: where [find_related_datasets] returns, it
    returns the entries of the datasets in descending order of relevance. *)
Lemma find_related_datasets_inr (h h' : heap) (woo_topic : pystr) (datasets : list val)
    (out : list related) :
  find_related_datasets woo_topic datasets h = (inr out, h') →
  h' = h
  ∧ ∃ analyses,
      Forall2 (λ d a, analyze_dataset d h = (inr a, h)) datasets analyses
      ∧ out = sorted_desc relevance (related_entries (py_lower woo_topic) datasets analyses).
Proof.
  intros Hrun.
  assert (∃ analyses, Forall2 (λ d a, analyze_dataset d h = (inr a, h)) datasets analyses)
    as [analyses Hall].
  { unfold find_related_datasets in Hrun.
    apply bind_inr in Hrun as (related & h1 & Hloop & _). by eapply related_loop_inr. }
  rewrite (find_related_datasets_run _ _ _ analyses) in Hrun by done.
  injection Hrun as <- <-. eauto.
Qed.
Lemma records_analyses (h : heap) (datasets : list val) :
  Forall (record h) datasets →
  ∃ analyses, Forall2 (λ d a, analyze_dataset d h = (inr a, h)) datasets analyses.
Proof.
  induction 1 as [|d datasets Hd _ [analyses IH]]; [by exists []|].
  apply analyze_dataset_record in Hd as (dataset_id & title & text & Hrun).
  eexists (_ :: analyses). by constructor.
Qed.

(** [x] may stand before [y]: its relevance is not the smaller one. *)
Definition relevance_ge (x y : related) : Prop := (relevance y ≤ relevance x)%Z.

(** C5, as amended: for every query and every list of records,
    [find_related_datasets] returns; a record is in the result with the
    relevance [relevance_score] of its analysis when the lower-cased query
    occurs in one of the analysis's topics; else with that score less one
    when the lower-cased query occurs in one of the keywords the analysis
    kept (its [keywords]: the first 10 of the extracted ones); else it is
    not in the result; and the result is in non-increasing order of
    relevance. *)
Theorem find_related_datasets_spec (h : heap) (woo_topic : pystr) (datasets : list val) :
  Forall (record h) datasets →
  ∃ analyses out,
    Forall2 (λ d a, analyze_dataset d h = (inr a, h)) datasets analyses
    ∧ find_related_datasets woo_topic datasets h = (inr out, h)
    ∧ out ≡ₚ related_entries (py_lower woo_topic) datasets analyses
    ∧ StronglySorted relevance_ge out.
Proof.
  intros [analyses Hruns]%records_analyses. exists analyses. eexists.
  split_and!; [done|by apply find_related_datasets_run|..].
  - apply sorted_desc_perm.
  - apply sorted_desc_sorted.
Qed.

(** The entries name the datasets in the order of the input. *)
Lemma related_entries_sublist (query : pystr) (datasets : list val)
    (analyses : list analysis) :
  rel_dataset <$> related_entries query datasets analyses `sublist_of` datasets.
Proof.
  revert analyses. induction datasets as [|d datasets IH]; intros [|a analyses];
    [done|done|apply sublist_nil_l|].
  rewrite related_entries_cons. unfold related_entry.
  repeat case_decide; simpl; first [by apply sublist_skip|by apply sublist_cons].
Qed.

(** C10: for every query and every list of records, the entries of the
    result that have one and the same relevance stand in the order in which
    their records stand in the input: they are the entries of that
    relevance among [related_entries], which runs through the datasets in
    their order. *)
Theorem find_related_datasets_stable (h : heap) (woo_topic : pystr) (datasets : list val) :
  Forall (record h) datasets →
  ∃ analyses out,
    Forall2 (λ d a, analyze_dataset d h = (inr a, h)) datasets analyses
    ∧ find_related_datasets woo_topic datasets h = (inr out, h)
    ∧ rel_dataset <$> related_entries (py_lower woo_topic) datasets analyses
      `sublist_of` datasets
    ∧ ∀ r, filter (λ x, relevance x = r) out
           = filter (λ x, relevance x = r)
               (related_entries (py_lower woo_topic) datasets analyses).
Proof.
  intros [analyses Hruns]%records_analyses. exists analyses. eexists.
  split_and!; [done|by apply find_related_datasets_run|apply related_entries_sublist|].
  intros r. apply sorted_desc_stable.
Qed.

(** C9: [analyze_dataset] and [find_related_datasets] leave the heap as
    they found it, whatever they return or raise: no record passed to them,
    and no dict or list inside it, is changed. *)
Theorem analysis_reads_only (h : heap) (dataset : val) (woo_topic : pystr)
    (datasets : list val) :
  (analyze_dataset dataset h).2 = h
  ∧ (find_related_datasets woo_topic datasets h).2 = h.
Proof.
  split; [apply read_only_analyze_dataset|apply read_only_find_related_datasets].
Qed.

End related.


(** ** The attribute resolvers *)

Import MCPServer.

Section resolver.

(** The keys the server's resolver tries, in order. *)
Definition resolver_keys (key : pystr) : list pystr :=
  [ustr "dct:" ++ key; ustr "dcat:" ++ key; ustr "foaf:" ++ key; key].

(** The value under the first of the keys that the dict has; [None] when
    it has none of them. *)
Fixpoint first_present (d : list (pystr * val)) (keys : list pystr) : val :=
  match keys with
  | [] => VNone
  | k :: keys' =>
      match items_get k d with
      | Some v => v
      | None => first_present d keys'
      end
  end.

Lemma py_in_dict (h : heap) (o : val) (d : list (pystr * val)) (k : pystr) :
  as_dict h o = Some d → py_in k o h = (inr (dict_has d k), h).
Proof.
  intros Hd. unfold py_in. rewrite bind_run. simpl.
  destruct o; try done; by rewrite Hd.
Qed.

(** One test of [get_attr]: [if k in obj: return obj[k]], else the rest. *)
Lemma get_attr_step (h : heap) (obj : val) (d : list (pystr * val)) (k : pystr)
    (rest : M val) (v : val) :
  as_dict h obj = Some d → rest h = (inr v, h) →
  (b ← py_in k obj; if b : bool then subscript obj k else rest) h
  = (inr (match items_get k d with Some x => x | None => v end), h).
Proof.
  intros Hd Hrest. rewrite bind_run, (py_in_dict _ _ d) by done. unfold dict_has.
  destruct (items_get k d) as [x|] eqn:Hk.
  - rewrite bool_decide_eq_true_2 by done. by rewrite (subscript_dict _ _ d), Hk.
  - by rewrite bool_decide_eq_false_2 by by intros [??].
Qed.

Lemma get_attr_dict (h : heap) (obj : val) (d : list (pystr * val)) (key : pystr) :
  as_dict h obj = Some d →
  get_attr obj key h = (inr (first_present d (resolver_keys key)), h).
Proof.
  intros Hd. unfold get_attr, resolver_keys, first_present.
  repeat (apply get_attr_step; [done|]). done.
Qed.

(** C8, as amended: on every record (a dict) and key, the server's
    [get_attr] returns the value under the first of [dct:key], [dcat:key],
    [foaf:key] and [key] that the record has, whatever that value is, and
    [None] when it has none; the connector's [_get_attr] tries [dct:key],
    [dcat:key] and [key] only, passes over a value that is false, and
    returns the value under [key], or [None].  Neither raises. *)
Theorem get_attr_spec (h : heap) (obj : val) (d : list (pystr * val)) (key : pystr) :
  as_dict h obj = Some d →
  get_attr obj key h = (inr (first_present d (resolver_keys key)), h)
  ∧ _get_attr obj key h = (inr (connector_attr h d key), h).
Proof. intros Hd. split; [by apply get_attr_dict|by apply _get_attr_dict]. Qed.

End resolver.


(** ** Dispatch *)

Section dispatch.
Context `{!Format, !Backend}.

(** The methods [handle_request] knows. *)
Definition methods : list pystr :=
  [ustr "initialize"; ustr "tools/list"; ustr "tools/call"; ustr "resources/list";
   ustr "resources/read"].

Lemma eq_str_ne (v : val) (s : pystr) : v ≠ VStr s → eq_str v s = false.
Proof. destruct v; try done. simpl. intros Hne. apply bool_decide_eq_false. congruence. Qed.

(** A handler that turns every exception into a response never raises. *)
Lemma try_except_ret {A} (m : M A) (f : exn → A) (h : heap) :
  ∃ a h', try_except m (λ e, mret (f e)) h = (inr a, h').
Proof. unfold try_except. destruct (m h) as [[e|a] h']; eauto. Qed.

Lemma try_except_inr {A} (m : M A) (handler : exn → M A) (h h' : heap) (a : A) :
  m h = (inr a, h') → try_except m handler h = (inr a, h').
Proof. unfold try_except. by intros ->. Qed.

Lemma try_except_inl {A} (m : M A) (handler : exn → M A) (h h' : heap) (e : exn) :
  m h = (inl e, h') → try_except m handler h = handler e h'.
Proof. unfold try_except. by intros ->. Qed.

(** A subscript with a key the value does not hold raises: [KeyError] on a
    dict, [TypeError] on what is no dict. *)
Lemma subscript_missing (h : heap) (o : val) (k : pystr) :
  (∀ d, as_dict h o = Some d → items_get k d = None) →
  ∃ e, subscript o k h = (inl e, h) ∧ (is_Some (as_dict h o) → e = KeyError k).
Proof.
  intros Hmiss. unfold subscript. rewrite bind_run. simpl.
  destruct (as_dict h o) as [d|] eqn:Hd.
  - rewrite (Hmiss d) by done. by exists (KeyError k).
  - destruct o; eexists; (split; [done|by intros [??]]).
Qed.

(** The run of [handle_request] on a request that is a dict. *)
Lemma handle_request_dict (h : heap) (request : val) (r : list (pystr * val)) :
  as_dict h request = Some r →
  let method := default VNone (items_get (ustr "method") r) in
  let params := default VEmptyDict (items_get (ustr "params") r) in
  let request_id := default VNone (items_get (ustr "id") r) in
  handle_request request h =
  try_except
    (if eq_str method (ustr "initialize") then mret (initialize request_id params)
     else if eq_str method (ustr "tools/list") then list_tools request_id
     else if eq_str method (ustr "tools/call") then call_tool request_id params
     else if eq_str method (ustr "resources/list") then mret (list_resources request_id)
     else if eq_str method (ustr "resources/read") then read_resource request_id params
     else
       h ← get_heap;
       mret (error_response request_id (-32601)
               (ustr "Method not found: " ++ py_format h method)))
    (λ e, mret (error_response request_id (-32603) (exn_str e))) h.
Proof.
  intros Hr. unfold handle_request.
  rewrite bind_run, (dict_get_dict _ _ r) by done.
  rewrite bind_run, (dict_get_dict _ _ r) by done.
  by rewrite bind_run, (dict_get_dict _ _ r) by done.
Qed.

Lemma call_tool_dict (h : heap) (request_id params : val) (p : list (pystr * val)) :
  as_dict h params = Some p →
  call_tool request_id params h =
  try_except
    (run_tool request_id (default VNone (items_get (ustr "name") p))
       (default VEmptyDict (items_get (ustr "arguments") p)))
    (λ e, mret (error_response request_id (-32603)
                  (ustr "Tool execution failed: " ++ exn_str e))) h.
Proof.
  intros Hp. unfold call_tool.
  rewrite bind_run, (dict_get_dict _ _ p) by done.
  by rewrite bind_run, (dict_get_dict _ _ p) by done.
Qed.

End dispatch.

(** Comparisons of a string with a literal, settled by evaluation. *)
Ltac eval_eq_str :=
  repeat match goal with
    | |- context [eq_str (VStr ?a) ?b] =>
        let v := eval vm_compute in (eq_str (VStr a) b) in
        change (eq_str (VStr a) b) with v; cbv iota
    end.

Section dispatch_errors.
Context `{!Format, !Backend}.

Lemma run_tool_unknown (h : heap) (request_id name arguments : val) :
  (∀ t, t ∈ tools → name ≠ VStr (tool_name t)) →
  run_tool request_id name arguments h
  = (inr (ErrorResponse request_id (-32602) (ustr "Unknown tool: " ++ py_format h name)), h).
Proof.
  intros Hname.
  assert (Forall (λ t, eq_str name (tool_name t) = false) tools) as Hall.
  { apply Forall_forall. intros t Ht. apply eq_str_ne. by apply Hname. }
  unfold run_tool. unfold tools in Hall.
  repeat (apply Forall_cons in Hall as [Hx Hall]; cbn [tool_name] in Hx;
          rewrite Hx; clear Hx).
  done.
Qed.

Lemma run_tool_missing (h : heap) (request_id arguments : val) (t : tool) (required : pystr) :
  t ∈ tools → required ∈ tool_required t →
  (∀ args, as_dict h arguments = Some args → items_get required args = None) →
  ∃ e, run_tool request_id (VStr (tool_name t)) arguments h = (inl e, h)
       ∧ (is_Some (as_dict h arguments) → e = KeyError required).
Proof.
  intros Ht Hreq Hmiss. unfold tools in Ht.
  repeat (apply elem_of_cons in Ht as [->|Ht]); [..|by apply elem_of_nil in Ht];
    simpl in Hreq;
    repeat (apply elem_of_cons in Hreq as [->|Hreq]); try (by apply elem_of_nil in Hreq);
    destruct (subscript_missing h arguments _ Hmiss) as (e & Hsub & He);
    exists e; (split; [|done]);
    unfold run_tool; cbn [tool_name]; eval_eq_str;
    by rewrite bind_run, Hsub.
Qed.

(** C1: on every request (a dict) [handle_request] returns a response and
    never raises.  A method other than the five it knows gives an error
    with code -32601.  With the method [tools/call] and parameters that are
    a dict, a name that is no tool of the table gives an error with code
    -32602, and a tool called without one of its required arguments gives
    an error with code -32603 whose message is "Tool execution failed: "
    followed by the text of the exception the handler's argument raised (a
    [KeyError] when the arguments are a dict). *)
Theorem handle_request_errors (h : heap) (request : val) (r : list (pystr * val)) :
  as_dict h request = Some r →
  let method := default VNone (items_get (ustr "method") r) in
  let params := default VEmptyDict (items_get (ustr "params") r) in
  let request_id := default VNone (items_get (ustr "id") r) in
  (∃ response h', handle_request request h = (inr response, h'))
  ∧ ((∀ m, m ∈ methods → method ≠ VStr m) →
     handle_request request h
     = (inr (ErrorResponse request_id (-32601)
               (ustr "Method not found: " ++ py_format h method)), h))
  ∧ (∀ p, method = VStr (ustr "tools/call") → as_dict h params = Some p →
       let name := default VNone (items_get (ustr "name") p) in
       let arguments := default VEmptyDict (items_get (ustr "arguments") p) in
       ((∀ t, t ∈ tools → name ≠ VStr (tool_name t)) →
        handle_request request h
        = (inr (ErrorResponse request_id (-32602)
                  (ustr "Unknown tool: " ++ py_format h name)), h))
       ∧ (∀ t required,
            t ∈ tools → name = VStr (tool_name t) → required ∈ tool_required t →
            (∀ args, as_dict h arguments = Some args → items_get required args = None) →
            ∃ e, handle_request request h
                 = (inr (ErrorResponse request_id (-32603)
                           (ustr "Tool execution failed: " ++ exn_str e)), h)
                 ∧ (is_Some (as_dict h arguments) → e = KeyError required))).
Proof.
  intros Hr method params request_id.
  rewrite (handle_request_dict _ _ r) by done. fold method params request_id.
  split_and!.
  - apply try_except_ret.
  - intros Hmethod. apply try_except_inr.
    assert (Forall (λ m, eq_str method m = false) methods) as Hall.
    { apply Forall_forall. intros m Hm. apply eq_str_ne. by apply Hmethod. }
    unfold methods in Hall.
    repeat (apply Forall_cons in Hall as [Hx Hall]; rewrite Hx; clear Hx). done.
  - intros p Hm Hp name arguments. rewrite Hm. eval_eq_str.
    split.
    + intros Hname. apply try_except_inr. rewrite (call_tool_dict _ _ _ p) by done.
      apply try_except_inr. by apply run_tool_unknown.
    + intros t required Ht Hname Hreq Hmiss.
      destruct (run_tool_missing h request_id arguments t required) as (e & Hrun & He);
        [done..|].
      exists e. split; [|done]. apply try_except_inr.
      rewrite (call_tool_dict _ _ _ p) by done. fold name arguments. rewrite Hname.
      by rewrite (try_except_inl _ _ _ _ _ Hrun).
Qed.

(** Parameters that are no dict: [params.get] raises outside the [try] of
    [call_tool], and [handle_request] answers with code -32603. *)
Lemma handle_request_params_no_dict (h : heap) (request : val) (r : list (pystr * val)) :
  as_dict h request = Some r →
  default VNone (items_get (ustr "method") r) = VStr (ustr "tools/call") →
  as_dict h (default VEmptyDict (items_get (ustr "params") r)) = None →
  ∃ message,
    handle_request request h
    = (inr (ErrorResponse (default VNone (items_get (ustr "id") r)) (-32603) message), h).
Proof.
  intros Hr Hm Hp. rewrite (handle_request_dict _ _ r) by done. cbv zeta.
  rewrite Hm. eval_eq_str.
  set (params := default VEmptyDict (items_get (ustr "params") r)) in *.
  assert (∃ e, call_tool (default VNone (items_get (ustr "id") r)) params h = (inl e, h))
    as [e He].
  { unfold call_tool, dict_get. rewrite !bind_run. simpl. rewrite Hp. eauto. }
  exists (exn_str e). by rewrite (try_except_inl _ _ _ _ _ He).
Qed.
End dispatch_errors.

(** ** The responses of the server *)

Section responses.
Context `{!Format, !Backend}.

Definition response_id (r : response) : val :=
  match r with
  | Response id _ | ErrorResponse id _ _ => id
  end.

Definition error_code (r : response) : option Z :=
  match r with
  | Response _ _ => None
  | ErrorResponse _ code _ => Some code
  end.

(** What a run may end in: an exception, or a response to [request_id]
    whose error code, when it has one, is among [codes]. *)
Definition answers (request_id : val) (codes : list Z) (r : (exn + response) * heap) : Prop :=
  match r.1 with
  | inl _ => True
  | inr resp =>
      response_id resp = request_id ∧ ∀ c, error_code resp = Some c → c ∈ codes
  end.

Lemma answers_bind {A} request_id codes (m : M A) (f : A → M response) (h : heap) :
  (∀ a h', answers request_id codes (f a h')) → answers request_id codes ((m ≫= f) h).
Proof.
  intros Hf. rewrite bind_run. destruct (m h) as [[e|a] h']; [done|apply Hf].
Qed.

Lemma answers_content request_id codes (text : pystr) (h : heap) :
  answers request_id codes (mret (M:=M) (content_response request_id text) h).
Proof. split; [done|]. by intros c [=]. Qed.

Lemma answers_run_tool request_id name arguments h :
  answers request_id [-32602]%Z (run_tool request_id name arguments h).
Proof.
  unfold run_tool.
  repeat case_match;
    repeat (apply answers_bind; intros ??);
    try apply answers_content.
  split; [done|]. intros c [= <-]. by left.
Qed.

Lemma eq_str_true (v : val) (s : pystr) : eq_str v s = true → v = VStr s.
Proof. destruct v; try done. simpl. by intros ->%bool_decide_eq_true. Qed.

(** The calls of the [if]/[elif] chain of [call_tool], by the name they
    stand under: the arguments read from [arguments] and the handler on
    them. *)
Definition tool_handlers (arguments : val) : list (pystr * M pystr) :=
  [ (ustr "search_datasets",
     query ← dict_get arguments (ustr "query") VNone;
     limit ← dict_get arguments (ustr "limit") (VInt 20);
     search_datasets query limit);
    (ustr "get_dataset",
     dataset_id ← subscript arguments (ustr "dataset_id");
     get_dataset dataset_id);
    (ustr "get_distributions",
     dataset_id ← subscript arguments (ustr "dataset_id");
     get_distributions dataset_id);
    (ustr "list_all_datasets", list_all_datasets);
    (ustr "analyze_woo_connection",
     dataset_id ← subscript arguments (ustr "dataset_id");
     analyze_woo_connection dataset_id);
    (ustr "find_woo_related_datasets",
     topic ← subscript arguments (ustr "topic");
     find_woo_related_datasets topic);
    (ustr "dataoverheid_search",
     query ← dict_get arguments (ustr "query") VNone;
     organization ← dict_get arguments (ustr "organization") VNone;
     tags ← dict_get arguments (ustr "tags") VNone;
     limit ← dict_get arguments (ustr "limit") (VInt 20);
     dataoverheid_search query organization tags limit);
    (ustr "dataoverheid_get_dataset",
     dataset_id ← subscript arguments (ustr "dataset_id");
     dataoverheid_get_dataset dataset_id);
    (ustr "dataoverheid_list_organizations",
     limit ← dict_get arguments (ustr "limit") (VInt 50);
     dataoverheid_list_organizations limit);
    (ustr "dataoverheid_get_organization",
     org_id ← subscript arguments (ustr "org_id");
     include_datasets ← dict_get arguments (ustr "include_datasets") (VBool false);
     dataoverheid_get_organization org_id include_datasets) ].

(** The call that stands under the name [name], if any. *)
Definition tool_handler (name arguments : val) : option (M pystr) :=
  snd <$> find (λ entry, eq_str name entry.1) (tool_handlers arguments).

(** What [call_tool] makes of the run of a handler: the response that
    carries the text it returned, or the error -32603 with the text of the
    exception it raised; the heap is the one the run left. *)
Definition tool_response (request_id : val) (r : (exn + pystr) * heap)
  : (exn + response) * heap :=
  match r with
  | (inr text, h') => (inr (Response request_id (ContentResult text)), h')
  | (inl e, h') =>
      (inr (ErrorResponse request_id (-32603)
              (ustr "Tool execution failed: " ++ exn_str e)), h')
  end.

(** Under the name of a tool of the catalogue the chain runs the call of
    that name and wraps the text it returns. *)
Lemma run_tool_known request_id t arguments h :
  t ∈ tools →
  ∃ run, tool_handler (VStr (tool_name t)) arguments = Some run
         ∧ run_tool request_id (VStr (tool_name t)) arguments h
           = (text ← run; mret (content_response request_id text)) h.
Proof.
  intros Ht. unfold tools in Ht.
  repeat (apply elem_of_cons in Ht as [->|Ht]); [..|by apply elem_of_nil in Ht];
    unfold run_tool, tool_handler, tool_handlers; cbn [tool_name find fst];
    eval_eq_str; cbn [fmap option_fmap option_map snd];
    (eexists; split; [reflexivity|]);
    cbv [mbind M_bind mret M_ret]; repeat case_match; congruence.
Qed.

Lemma tool_handler_unknown (name arguments : val) :
  (∀ t, t ∈ tools → name ≠ VStr (tool_name t)) → tool_handler name arguments = None.
Proof.
  intros Hname.
  assert (Forall (λ t, eq_str name (tool_name t) = false) tools) as Hall.
  { apply Forall_forall. intros t Ht. apply eq_str_ne. by apply Hname. }
  unfold tool_handler, tool_handlers. unfold tools in Hall. cbn [find fst].
  repeat (apply Forall_cons in Hall as [Hx Hall]; cbn [tool_name] in Hx;
          rewrite Hx; clear Hx).
  done.
Qed.

Lemma tool_name_dec (name : val) :
  {t | t ∈ tools ∧ name = VStr (tool_name t)} + {∀ t, t ∈ tools → name ≠ VStr (tool_name t)}.
Proof.
  destruct (list_find (λ t, eq_str name (tool_name t) = true) tools) as [[i t]|] eqn:Hfind.
  - left. exists t. apply list_find_Some in Hfind as (Hi & ?%eq_str_true & _).
    split; [by eapply list_elem_of_lookup_2|done].
  - right. intros t Ht ->. eapply list_find_None, Forall_forall in Hfind; [|done].
    apply Hfind. simpl. by apply bool_decide_eq_true.
Qed.

(** X1: on parameters that are a dict [call_tool] returns a response and
    never raises.  The response has the code -32602 exactly when the name
    is that of no tool of the catalogue that [list_tools] writes down: the
    chain of [call_tool] knows every tool of the catalogue, and no other.
    Under the name of a tool of the catalogue the chain has a call, the
    arguments of the tool read from [arguments] and its handler run on
    them; the response carries the very text that run returned, or, when
    the reading or the handler raised, it is the error -32603 whose
    message is "Tool execution failed: " followed by the text of that
    exception; the heap is the one that run left.  Under another name the
    chain has no call, and the response is the error -32602 with the
    message "Unknown tool: " and the name, the heap untouched. *)
Theorem call_tool_catalogue (h : heap) (request_id params : val) (p : list (pystr * val)) :
  as_dict h params = Some p →
  let name := default VNone (items_get (ustr "name") p) in
  let arguments := default VEmptyDict (items_get (ustr "arguments") p) in
  ∃ resp h',
    call_tool request_id params h = (inr resp, h')
    ∧ (error_code resp = Some (-32602)%Z ↔ ∀ t, t ∈ tools → name ≠ VStr (tool_name t))
    ∧ ((∃ t, t ∈ tools ∧ name = VStr (tool_name t)) →
       ∃ run, tool_handler name arguments = Some run
              ∧ (inr resp, h') = tool_response request_id (run h))
    ∧ ((∀ t, t ∈ tools → name ≠ VStr (tool_name t)) →
       tool_handler name arguments = None
       ∧ resp = ErrorResponse request_id (-32602) (ustr "Unknown tool: " ++ py_format h name)
       ∧ h' = h).
Proof.
  intros Hp name arguments. rewrite (call_tool_dict _ _ _ p) by done. fold name arguments.
  destruct (tool_name_dec name) as [(t & Ht & Hname)|Hunknown].
  - destruct (run_tool_known request_id t arguments h Ht) as (run & Hrun & Heq).
    rewrite Hname. unfold try_except. rewrite Heq, bind_run.
    destruct (run h) as [[e|text] h1] eqn:Hr.
    + eexists _, _. split; [done|]. split_and!.
      * split; [done|]. intros Hall. by destruct (Hall t Ht).
      * intros _. exists run. by rewrite Hr.
      * intros Hall. by destruct (Hall t Ht).
    + eexists _, _. split; [done|]. split_and!.
      * split; [done|]. intros Hall. by destruct (Hall t Ht).
      * intros _. exists run. by rewrite Hr.
      * intros Hall. by destruct (Hall t Ht).
  - rewrite (try_except_inr _ _ _ _ _ (run_tool_unknown h request_id name _ Hunknown)).
    eexists _, _. split; [done|]. split_and!.
    + done.
    + intros (t & Ht & Hname). by destruct (Hunknown t Ht).
    + intros _. split; [|done]. by apply tool_handler_unknown.
Qed.

Lemma answers_call_tool request_id params h :
  answers request_id [-32602; -32603]%Z (call_tool request_id params h).
Proof.
  unfold call_tool. repeat (apply answers_bind; intros ??).
  unfold try_except.
  pose proof (answers_run_tool request_id a a0 h'0) as Hrun.
  destruct (run_tool _ _ _ _) as [[e|resp] h1]; simpl in *.
  - split; [done|]. intros c [= <-]. by_compute.
  - destruct Hrun as [? Hc]. split; [done|]. intros c Hcode.
    apply Hc, list_elem_of_singleton in Hcode as ->. by_compute.
Qed.

Lemma answers_read_resource request_id params h :
  answers request_id [-32602]%Z (read_resource request_id params h).
Proof.
  unfold read_resource. apply answers_bind. intros uri h1.
  case_match; repeat (apply answers_bind; intros ??).
  - split; [done|]. by intros c [=].
  - split; [done|]. intros c [= <-]. by left.
Qed.

Lemma answers_mono request_id codes codes' (r : (exn + response) * heap) :
  codes ⊆ codes' → answers request_id codes r → answers request_id codes' r.
Proof.
  intros Hsub. unfold answers. destruct r.1 as [e|resp]; [done|].
  intros [Hid Hc]. split; [done|]. intros c Hcode. by apply Hsub, Hc.
Qed.

(** The run of [list_tools]: the [NameError] of its display, and nothing
    else. *)
Lemma list_tools_raises (request_id : val) (h : heap) :
  list_tools request_id h = (inl (NameError (ustr "false")), h).
Proof. done. Qed.

(** The response to a request (a dict) carries the [id] of the request. *)
Lemma handle_request_dict_id (h : heap) (request : val) (r : list (pystr * val)) :
  as_dict h request = Some r →
  ∃ resp h',
    handle_request request h = (inr resp, h')
    ∧ response_id resp = default VNone (items_get (ustr "id") r).
Proof.
  intros Hr. rewrite (handle_request_dict _ _ r) by done. cbv zeta.
  set (request_id := default VNone (items_get (ustr "id") r)).
  set (params := default VEmptyDict (items_get (ustr "params") r)).
  unfold try_except.
  match goal with |- context [match ?m h with _ => _ end] =>
    assert (answers request_id [-32601; -32602; -32603]%Z (m h)) as Hrun;
    [|destruct (m h) as [[e|resp] h']] end.
  { repeat case_match; try (split; [done|by intros c [=]]).
    - by rewrite list_tools_raises.
    - eapply answers_mono, answers_call_tool. intros c Hc. by right.
    - eapply answers_mono, answers_read_resource.
      intros c ->%list_elem_of_singleton. right. left.
    - split; [done|]. intros c [= <-]. left. }
  - by eexists _, _.
  - destruct Hrun as [Hid _]. by eexists _, _.
Qed.

(** X2: on every request (a dict) [handle_request] answers with the [id]
    of the request.  An error it returns has one of the codes -32601,
    -32602 and -32603, and the code -32601 exactly when the method is none
    of the five.  The methods [initialize] and [resources/list] never give
    an error and leave the heap as it was.  The method [tools/list] never
    gives the catalogue: the display of [list_tools] raises its
    [NameError] on every call, and the request is answered with the error
    -32603 and the message "name 'false' is not defined", the heap as it
    was. *)
Theorem handle_request_answers (h : heap) (request : val) (r : list (pystr * val)) :
  as_dict h request = Some r →
  let method := default VNone (items_get (ustr "method") r) in
  let request_id := default VNone (items_get (ustr "id") r) in
  ∃ resp h',
    handle_request request h = (inr resp, h')
    ∧ response_id resp = request_id
    ∧ (∀ c, error_code resp = Some c → c ∈ [-32601; -32602; -32603]%Z)
    ∧ (error_code resp = Some (-32601)%Z ↔ ∀ m, m ∈ methods → method ≠ VStr m)
    ∧ ((∃ m, m ∈ [ustr "initialize"; ustr "resources/list"] ∧ method = VStr m) →
       error_code resp = None ∧ h' = h)
    ∧ (method = VStr (ustr "tools/list") →
       resp = ErrorResponse request_id (-32603) (ustr "name 'false' is not defined")
       ∧ h' = h).
Proof.
  intros Hr method request_id.
  rewrite (handle_request_dict _ _ r) by done. fold method request_id.
  set (params := default VEmptyDict (items_get (ustr "params") r)).
  assert (∀ m, m ∈ methods → method = VStr m → ¬ ∀ m', m' ∈ methods → method ≠ VStr m')
    as Hknown by (intros m Hm Heq Hall; by destruct (Hall m Hm)).
  assert (∀ m m', method = VStr m → bool_decide (m = m') = false → method = VStr m' → False)
    as Hother.
  { intros m m' -> Hne [= ->]. by rewrite bool_decide_eq_false in Hne. }
  destruct (eq_str method (ustr "initialize")) eqn:H1.
  { apply eq_str_true in H1. eexists _, _. split; [done|]. split_and!; try done.
    - split; [done|]. intros Hall. by destruct (Hknown (ustr "initialize")); [by_compute|..].
    - intros Heq. exfalso. refine (Hother _ _ H1 _ Heq). by vm_compute. }
  destruct (eq_str method (ustr "tools/list")) eqn:H2.
  { apply eq_str_true in H2. rewrite (try_except_inl _ _ _ _ _ (list_tools_raises _ _)).
    eexists _, _. split; [done|]. split_and!; try done.
    - intros c [= <-]. by_compute.
    - split; [done|]. intros Hall. by destruct (Hknown (ustr "tools/list")); [by_compute|..].
    - intros (m & Hm & Heq). rewrite H2 in Heq. injection Heq as <-.
      exfalso. revert Hm. by_compute. }
  destruct (eq_str method (ustr "tools/call")) eqn:H3.
  { apply eq_str_true in H3.
    pose proof (answers_call_tool request_id params h) as Hcall. unfold try_except.
    destruct (call_tool _ _ h) as [[e|resp] h'].
    - eexists _, _. split; [done|]. split_and!; try done.
      + intros c [= <-]. by_compute.
      + split; [done|]. intros Hall.
        by destruct (Hknown (ustr "tools/call")); [by_compute|..].
      + intros (m & Hm & Heq). rewrite H3 in Heq. injection Heq as <-.
        exfalso. revert Hm. by_compute.
      + intros Heq. exfalso. refine (Hother _ _ H3 _ Heq). by vm_compute.
    - destruct Hcall as [Hid Hc]. eexists _, _. split; [done|]. split_and!; try done.
      + intros c Hcode. apply Hc in Hcode. revert Hcode. rewrite !elem_of_cons. tauto.
      + split.
        * intros Hcode. apply Hc in Hcode. exfalso. revert Hcode. by_compute.
        * intros Hall. by destruct (Hknown (ustr "tools/call")); [by_compute|..].
      + intros (m & Hm & Heq). rewrite H3 in Heq. injection Heq as <-.
        exfalso. revert Hm. by_compute.
      + intros Heq. exfalso. refine (Hother _ _ H3 _ Heq). by vm_compute. }
  destruct (eq_str method (ustr "resources/list")) eqn:H4.
  { apply eq_str_true in H4. eexists _, _. split; [done|]. split_and!; try done.
    - split; [done|]. intros Hall.
      by destruct (Hknown (ustr "resources/list")); [by_compute|..].
    - intros Heq. exfalso. refine (Hother _ _ H4 _ Heq). by vm_compute. }
  destruct (eq_str method (ustr "resources/read")) eqn:H5.
  { apply eq_str_true in H5.
    pose proof (answers_read_resource request_id params h) as Hread. unfold try_except.
    destruct (read_resource _ _ h) as [[e|resp] h'].
    - eexists _, _. split; [done|]. split_and!; try done.
      + intros c [= <-]. by_compute.
      + split; [done|]. intros Hall.
        by destruct (Hknown (ustr "resources/read")); [by_compute|..].
      + intros (m & Hm & Heq). rewrite H5 in Heq. injection Heq as <-.
        exfalso. revert Hm. by_compute.
      + intros Heq. exfalso. refine (Hother _ _ H5 _ Heq). by vm_compute.
    - destruct Hread as [Hid Hc]. eexists _, _. split; [done|]. split_and!; try done.
      + intros c Hcode. apply Hc in Hcode. revert Hcode. rewrite !elem_of_cons. tauto.
      + split.
        * intros Hcode. apply Hc in Hcode. exfalso. revert Hcode. by_compute.
        * intros Hall. by destruct (Hknown (ustr "resources/read")); [by_compute|..].
      + intros (m & Hm & Heq). rewrite H5 in Heq. injection Heq as <-.
        exfalso. revert Hm. by_compute.
      + intros Heq. exfalso. refine (Hother _ _ H5 _ Heq). by vm_compute. }
  eexists _, _. split; [done|]. split_and!; try done.
  - intros c [= <-]. by left.
  - split; [|done]. intros _ m Hm Heq. unfold methods in Hm.
    repeat (apply elem_of_cons in Hm as [->|Hm]); [..|by apply elem_of_nil in Hm];
      rewrite Heq in *; revert H1 H2 H3 H4 H5; by vm_compute.
  - intros (m & Hm & Heq). exfalso.
    repeat (apply elem_of_cons in Hm as [->|Hm]); [..|by apply elem_of_nil in Hm];
      rewrite Heq in *; revert H1 H2 H3 H4 H5; by vm_compute.
  - intros Heq. rewrite Heq in *. revert H1 H2 H3 H4 H5. by vm_compute.
Qed.


(** X16: parameters of the wrong type are an internal error.  A request
    with the method [tools/call] or [resources/read] whose [params] are
    present and no dict ([null], a list, a string) is answered with the
    code -32603 and the bare text of the [AttributeError] of [params.get]:
    the default of [request.get("params", {})] covers the missing key
    only, and the text has no "Tool execution failed: " before it. *)
Theorem handle_request_bad_params (h : heap) (request : val)
    (r : list (pystr * val)) :
  as_dict h request = Some r →
  let method := default VNone (items_get (ustr "method") r) in
  let params := default VEmptyDict (items_get (ustr "params") r) in
  let request_id := default VNone (items_get (ustr "id") r) in
  method = VStr (ustr "tools/call") ∨ method = VStr (ustr "resources/read") →
  as_dict h params = None →
  handle_request request h
  = (inr (ErrorResponse request_id (-32603)
            (ustr "'" ++ type_name h params ++ ustr "' object has no attribute 'get'")), h).
Proof.
  intros Hr method params request_id Hmethod Hparams.
  rewrite (handle_request_dict _ _ r) by done. fold method params request_id.
  set (e := AttributeError
              (ustr "'" ++ type_name h params ++ ustr "' object has no attribute 'get'")).
  assert (call_tool request_id params h = (inl e, h)) as Hcall.
  { unfold call_tool, dict_get. rewrite !bind_run. simpl. by rewrite Hparams. }
  assert (read_resource request_id params h = (inl e, h)) as Hread.
  { unfold read_resource, dict_get. rewrite !bind_run. simpl. by rewrite Hparams. }
  destruct Hmethod as [->| ->]; eval_eq_str.
  - by rewrite (try_except_inl _ _ _ _ _ Hcall).
  - by rewrite (try_except_inl _ _ _ _ _ Hread).
Qed.

End responses.

(** ** Edges of the analysis and of the ranking *)

Section edges.
Context `{!Unicode, !SetOrder, !Format}.

(** The analysis of a dataset without text. *)
Definition empty_analysis (dataset_id : val) : analysis :=
  {| dataset_id := dataset_id;
     title := VStr [];
     keywords := [];
     topics := [];
     woo_categories := [];
     woo_search_terms := [];
     woo_index_url := UTRECHT_WOO_URL;
     relevance_score := 0 |}.

(** No word in the two blanks that separate an empty title, an empty
    description and no keywords. *)
Lemma extract_keywords_blank : extract_keywords (Some (ustr "  ")) = [].
Proof.
  apply elem_of_nil_inv. intros w [Hrun _]%elem_of_extract_keywords.
  rewrite py_lower_ascii in Hrun by done.
  destruct Hrun as (a & b & Hs & [Hne Hw] & _).
  destruct w as [|c w]; [done|]. apply Forall_cons in Hw as [Hc _].
  assert (c ∈ ustr "  ") as Hin.
  { change (latin1_lower <$> ustr "  ") with (ustr "  ") in Hs.
    rewrite Hs, !elem_of_app. right. left. by left. }
  assert (c = 32%N) as ->.
  { unfold ustr in Hin. simpl in Hin.
    repeat (apply elem_of_cons in Hin as [->|Hin]); [done..|by apply elem_of_nil in Hin]. }
  by rewrite is_word_char_ascii in Hc.
Qed.

Lemma analysis_from_blank (dataset_id : val) :
  analysis_from dataset_id (VStr []) (ustr "  ") = empty_analysis dataset_id.
Proof.
  unfold analysis_from. rewrite extract_keywords_blank.
  assert (map_to_topics [] = []) as -> by apply py_set_nil.
  done.
Qed.

(** A dataset whose title, description and keywords are absent or empty. *)
Definition blank (h : heap) (a : list (pystr * val)) : Prop :=
  ∀ key, key ∈ [ustr "title"; ustr "description"; ustr "keyword"] →
         truthy h (connector_attr h a key) = false.

(** X3: a dataset (a dict) whose attributes are absent, or are a dict in
    which the title, the description and the keywords are absent or empty,
    has the empty analysis: no keywords, topics, categories or search
    terms, the empty title and the score 0.  [find_related_datasets] finds
    it for no query, the empty one included. *)
Theorem analyze_dataset_blank (h : heap) (dataset : val) (d a : list (pystr * val)) :
  as_dict h dataset = Some d →
  as_dict h (default VEmptyDict (items_get (ustr "attributes") d)) = Some a →
  blank h a →
  analyze_dataset dataset h
  = (inr (empty_analysis (default (VStr []) (items_get (ustr "id") d))), h)
  ∧ ∀ woo_topic, find_related_datasets woo_topic [dataset] h = (inr [], h).
Proof.
  intros Hd Ha Hblank.
  assert (analyze_dataset dataset h
          = (inr (empty_analysis (default (VStr []) (items_get (ustr "id") d))), h)) as Hrun.
  { rewrite (analyze_dataset_dict _ _ d a) by done. unfold attr_or.
    rewrite !Hblank by by_compute.
    unfold py_join. rewrite bind_run. simpl.
    by rewrite !py_format_str, analysis_from_blank. }
  split; [done|]. intros woo_topic.
  rewrite (find_related_datasets_run _ _ _ [empty_analysis _]) by (by repeat constructor).
  done.
Qed.

Definition no_get (h : heap) (v : val) : exn :=
  AttributeError (ustr "'" ++ type_name h v ++ ustr "' object has no attribute 'get'").

(** X4: the default of [dataset.get('attributes', {})] covers the
    missing key only.  On a dataset whose [attributes] are present and no
    dict ([null] in the JSON, say) [analyze_dataset] raises the
    [AttributeError] of the first [get] on them, and the heap is as it
    was. *)
Theorem analyze_dataset_raises (h : heap) (dataset : val) (d : list (pystr * val))
    (attrs : val) :
  as_dict h dataset = Some d →
  items_get (ustr "attributes") d = Some attrs →
  as_dict h attrs = None →
  analyze_dataset dataset h = (inl (no_get h attrs), h).
Proof.
  intros Hd Hattrs Hno. unfold analyze_dataset.
  rewrite bind_run, (dict_get_dict _ _ d), Hattrs by done. simpl.
  unfold _get_attr, dict_get. rewrite !bind_run. simpl. by rewrite Hno.
Qed.

(** X5: [find_related_datasets] gives no partial result.  Where the
    datasets before one can be analysed and that one cannot, the call
    raises the exception of its analysis, whatever the query and whatever
    follows in the list. *)
Theorem find_related_datasets_raises (h : heap) (woo_topic : pystr)
    (before after : list val) (dataset : val) (e : exn) :
  Forall (λ d, ∃ a, analyze_dataset d h = (inr a, h)) before →
  analyze_dataset dataset h = (inl e, h) →
  find_related_datasets woo_topic (before ++ dataset :: after) h = (inl e, h).
Proof.
  intros Hbefore Hbad. unfold find_related_datasets. rewrite bind_run.
  assert (∀ query acc, related_loop query (before ++ dataset :: after) acc h = (inl e, h))
    as ->; [|done].
  intros query. induction Hbefore as [|d before [a Hrun] _ IH]; intros acc.
  - cbn [app related_loop]. by rewrite bind_run, Hbad.
  - cbn [app related_loop]. rewrite bind_run, Hrun. repeat case_match; apply IH.
Qed.

(** *** A shorter query *)

Lemma substring_trans (a b c : pystr) : substring a b → substring b c → substring a c.
Proof.
  intros (x & y & ->) (x' & y' & ->). exists (x' ++ x), (y ++ y').
  by rewrite <- !(assoc_L (++)).
Qed.

(** A query that occurs in another finds what the other finds, with a
    relevance that is not smaller. *)
Lemma related_entry_monotone (q q' : pystr) (d : val) (a : analysis) (r' : related) :
  substring q q' →
  related_entry q' d a = Some r' →
  ∃ r, related_entry q d a = Some r
       ∧ rel_dataset r = rel_dataset r' ∧ rel_analysis r = rel_analysis r'
       ∧ (relevance r' ≤ relevance r)%Z.
Proof.
  intros Hq. unfold related_entry.
  assert (∀ l, Exists (substring q') l → Exists (substring q) l) as Hl.
  { intros l Hex. eapply Exists_impl; [done|]. intros x. by apply substring_trans. }
  destruct (decide (Exists (substring q') (topics a))) as [Ht|_].
  - intros [= <-]. rewrite decide_True by by apply Hl. eexists. by split_and!.
  - destruct (decide (Exists (substring q') (keywords a))) as [Hk|_]; [|done].
    intros [= <-]. destruct (decide (Exists (substring q) (topics a))).
    + eexists. split_and!; [done..|]. simpl. lia.
    + rewrite decide_True by by apply Hl. eexists. by split_and!.
Qed.

Lemma related_entries_monotone (q q' : pystr) (datasets : list val)
    (analyses : list analysis) :
  substring q q' →
  length (related_entries q' datasets analyses) ≤ length (related_entries q datasets analyses)
  ∧ ∀ r', r' ∈ related_entries q' datasets analyses →
          ∃ r, r ∈ related_entries q datasets analyses
               ∧ rel_dataset r = rel_dataset r' ∧ rel_analysis r = rel_analysis r'
               ∧ (relevance r' ≤ relevance r)%Z.
Proof.
  intros Hq. revert analyses.
  induction datasets as [|d datasets IH]; intros [|a analyses];
    try (split; [done|by intros ? ?%elem_of_nil]).
  rewrite !related_entries_cons. destruct (IH analyses) as [IHlen IHin].
  destruct (related_entry q' d a) as [r'|] eqn:Hr'.
  - destruct (related_entry_monotone q q' d a r' Hq) as (r & -> & Hr); [done|].
    split; [simpl; lia|]. intros x [->|Hx]%elem_of_cons.
    + exists r. split; [left|done].
    + destruct (IHin x Hx) as (y & ? & ?). exists y. split; [by right|done].
  - split.
    + destruct (related_entry q d a); simpl; lia.
    + intros x Hx. destruct (IHin x Hx) as (y & ? & ?). exists y.
      split; [|done]. destruct (related_entry q d a); [by right|done].
Qed.

(** X6: a query that occurs in another finds what the other finds.
    When the lower-cased query [q] occurs in the lower-cased query [q'],
    on every list of records the result for [q] is at least as long as
    the one for [q'], and every entry of the result for [q'] has an entry
    for the same dataset and analysis in the result for [q], with a
    relevance that is not smaller. *)
Theorem find_related_datasets_monotone (h : heap) (q q' : pystr) (datasets : list val) :
  Forall (record h) datasets →
  substring (py_lower q) (py_lower q') →
  ∃ out out',
    find_related_datasets q datasets h = (inr out, h)
    ∧ find_related_datasets q' datasets h = (inr out', h)
    ∧ length out' ≤ length out
    ∧ ∀ r', r' ∈ out' →
            ∃ r, r ∈ out
                 ∧ rel_dataset r = rel_dataset r' ∧ rel_analysis r = rel_analysis r'
                 ∧ (relevance r' ≤ relevance r)%Z.
Proof.
  intros Hrecords Hq.
  destruct (records_analyses h datasets Hrecords) as [analyses Hall].
  eexists _, _. rewrite !(find_related_datasets_run _ _ _ analyses) by done.
  split_and!; [done..| |].
  - rewrite !sorted_desc_perm. by apply related_entries_monotone.
  - intros r'. rewrite sorted_desc_perm. intros Hr'.
    destruct (related_entries_monotone _ _ datasets analyses Hq) as [_ Hin].
    destruct (Hin r' Hr') as (r & ? & ?). exists r. by rewrite sorted_desc_perm.
Qed.

End edges.

(** ** [split] and [join] *)

Section split_facts.

Lemma split_once_found (sep : N) (a b : pystr) :
  sep ∉ a → split_once sep (a ++ sep :: b) = [a; b].
Proof.
  induction a as [|c a IH]; intros Ha; simpl.
  - by rewrite N.eqb_refl.
  - apply not_elem_of_cons in Ha as [Hc Ha]. rewrite IH by done.
    by destruct (N.eqb_spec c sep).
Qed.

(** A string in which [sep] occurs is cut at the first occurrence. *)
Lemma elem_of_first (sep : N) (s : pystr) :
  sep ∈ s → ∃ a b, s = a ++ sep :: b ∧ sep ∉ a.
Proof.
  induction s as [|c s IH]; intros Hs; [by apply elem_of_nil in Hs|].
  destruct (decide (c = sep)) as [->|Hc].
  - exists [], s. split; [done|apply not_elem_of_nil].
  - apply elem_of_cons in Hs as [->|Hs]; [done|].
    destruct (IH Hs) as (a & b & -> & Ha). exists (c :: a), b.
    split; [done|]. apply not_elem_of_cons. split; [congruence|done].
Qed.

Lemma split_on_cons (sep : N) (s : pystr) : ∃ part parts, split_on sep s = part :: parts.
Proof.
  induction s as [|c s (part & parts & IH)]; simpl; [by eauto|].
  destruct (c =? sep)%N; [by eauto|]. rewrite IH. eauto.
Qed.

Lemma last_split_on_free (sep : N) (s : pystr) :
  sep ∉ s → split_on sep s = [s].
Proof.
  induction s as [|c s IH]; intros Hs; simpl; [done|].
  apply not_elem_of_cons in Hs as [Hc Hs]. rewrite IH by done.
  by destruct (N.eqb_spec c sep).
Qed.

(** A split falls into the splits of what is before and after a
    separator. *)
Lemma split_on_app (sep : N) (front s : pystr) :
  split_on sep (front ++ sep :: s) = split_on sep front ++ split_on sep s.
Proof.
  induction front as [|c front IH]; simpl.
  - by rewrite N.eqb_refl.
  - rewrite IH. destruct (c =? sep)%N; [done|].
    by destruct (split_on_cons sep front) as (part & parts & ->).
Qed.

(** The last part of a split is what follows the last separator. *)
Lemma last_split_on (sep : N) (front s : pystr) :
  sep ∉ s → last (split_on sep (front ++ sep :: s)) = Some s.
Proof.
  intros Hs. rewrite split_on_app, (last_split_on_free sep s Hs). apply last_snoc.
Qed.

(** Joining lines and splitting the text at the line feeds gives the
    lines back, when no line holds a separator. *)
Lemma split_on_join (sep : N) (lines : list pystr) :
  lines ≠ [] → Forall (λ line, sep ∉ line) lines →
  split_on sep (str_join [sep] lines) = lines.
Proof.
  intros Hne Hlines. induction Hlines as [|line lines Hline Hlines IH]; [done|].
  destruct lines as [|line' lines].
  - simpl. by apply last_split_on_free.
  - change (str_join [sep] (line :: line' :: lines))
      with (line ++ sep :: str_join [sep] (line' :: lines)).
    rewrite split_on_app, IH by done. by rewrite last_split_on_free.
Qed.

End split_facts.

(** ** The report *)

Import WooReport.

Section report_facts.
Context `{!Unicode, !SetOrder, !Format}.

(** A line without a line feed. *)
Definition one_line (s : pystr) : Prop := 10%N ∉ s.

#[local] Instance one_line_dec s : Decision (one_line s).
Proof. unfold one_line. apply _. Defined.

Lemma one_line_app (a b : pystr) : one_line a → one_line b → one_line (a ++ b).
Proof. unfold one_line. rewrite elem_of_app. tauto. Qed.

Lemma one_line_keyword (text k : pystr) :
  k ∈ extract_keywords (Some text) → one_line k.
Proof.
  intros [(a & b & _ & [_ Hw] & _) _]%elem_of_extract_keywords Hk.
  rewrite Forall_forall in Hw. apply Hw in Hk.
  by rewrite is_word_char_ascii in Hk.
Qed.

Lemma one_line_topic (keywords : list pystr) (t : pystr) :
  t ∈ map_to_topics keywords → one_line t.
Proof.
  intros Ht%map_to_topics_vocabulary.
  assert (Forall one_line topic_vocabulary) as Hvoc by by_compute.
  rewrite Forall_forall in Hvoc. by apply Hvoc.
Qed.

Lemma one_line_suggestion (text : pystr) (topics : list pystr) (s : suggestion) :
  s ∈ _suggest_woo_categories (extract_keywords (Some text)) topics →
  one_line (category s) ∧ one_line (name s) ∧ one_line (reason s).
Proof.
  rewrite suggest_woo_categories_eq, elem_of_app, list_elem_of_filter.
  assert (Forall (λ entry, one_line entry.1 ∧ one_line (category_name entry.1))
            category_keywords) as Htable by by_compute.
  rewrite Forall_forall in Htable.
  intros [Hs|[_ Hs]].
  - apply keyword_suggestions_first in Hs
      as (triggers & i & kw & Hc & -> & -> & Hkw & _).
    destruct (Htable _ Hc) as [? ?]. split_and!; [done..|].
    apply one_line_app; [by_compute|].
    eapply one_line_keyword, list_elem_of_lookup_2, Hkw.
  - unfold topic_suggestions in Hs. apply elem_of_app in Hs as [Hs|Hs];
      case_match; try (by apply elem_of_nil in Hs);
      apply list_elem_of_singleton in Hs as ->; split_and!; by_compute.
Qed.

Lemma one_line_search_term (text : pystr) (topics : list pystr) (term : pystr) :
  topics = map_to_topics (extract_keywords (Some text)) →
  term ∈ _generate_search_terms (extract_keywords (Some text)) topics → one_line term.
Proof.
  intros ->. unfold _generate_search_terms.
  rewrite dict_fromkeys_first, elem_of_first_occurrences, elem_of_app.
  intros [Hk%elem_of_take|Ht%elem_of_take].
  - destruct Hk as (i & Hk%list_elem_of_lookup_2 & _).
    rewrite sorted_desc_perm in Hk. by eapply one_line_keyword.
  - destruct Ht as (i & Ht%list_elem_of_lookup_2 & _). by eapply one_line_topic.
Qed.

(** The report of an analysis whose texts hold no line feed has no line
    feed within a line. *)
Lemma one_line_report_lines (h : heap) (a : analysis) :
  one_line (py_format h (title a)) → one_line (py_format h (dataset_id a)) →
  one_line (py_format h (VInt (relevance_score a))) →
  Forall one_line (topics a) →
  Forall (λ cat, one_line (category cat) ∧ one_line (name cat) ∧ one_line (reason cat))
    (woo_categories a) →
  Forall one_line (woo_search_terms a) →
  one_line (woo_index_url a) →
  Forall one_line (report_lines h a).
Proof.
  destruct a as [dataset_id title keywords topics cats terms url score].
  cbn [WooConnector.title WooConnector.dataset_id WooConnector.relevance_score
       WooConnector.topics WooConnector.woo_categories WooConnector.woo_search_terms
       WooConnector.woo_index_url].
  intros Htitle Hid Hscore Htopics Hcats Hterms Hurl. unfold report_lines.
  cbn [WooConnector.title WooConnector.dataset_id WooConnector.relevance_score
       WooConnector.topics WooConnector.woo_categories WooConnector.woo_search_terms
       WooConnector.woo_index_url].
  assert (one_line bullet) as Hbullet by by_compute.
  assert (Forall one_line ((λ topic, bullet ++ topic) <$> topics)) as Htopics'.
  { apply Forall_fmap. eapply Forall_impl; [done|]. intros t Ht. by apply one_line_app. }
  assert (Forall one_line
            (cat ← cats;
             [bullet ++ category cat ++ ustr " - " ++ name cat;
              ustr "    Reden: " ++ reason cat])) as Hcats'.
  { apply Forall_forall. intros line (cat & Hline & Hcat)%list_elem_of_bind.
    rewrite Forall_forall in Hcats. destruct (Hcats cat Hcat) as (? & ? & ?).
    apply elem_of_cons in Hline as [->|Hline%list_elem_of_singleton]; [|subst line].
    - apply one_line_app; [done|]. apply one_line_app; [done|].
      apply one_line_app; [by_compute|done].
    - apply one_line_app; [by_compute|done]. }
  assert (Forall one_line ((λ term, bullet ++ term) <$> terms)) as Hterms'.
  { apply Forall_fmap. eapply Forall_impl; [done|]. intros t Ht. by apply one_line_app. }
  repeat (apply Forall_app; split).
  - apply Forall_cons; split; [by_compute|].
    apply Forall_cons; split; [apply one_line_app; [by_compute|done]|].
    apply Forall_cons; split; [by_compute|].
    apply Forall_cons; split; [by_compute|].
    apply Forall_cons; split; [apply one_line_app; [by_compute|done]|].
    apply Forall_cons; split.
    { apply one_line_app; [by_compute|]. apply one_line_app; [done|by_compute]. }
    apply Forall_cons; split; [by_compute|].
    apply Forall_cons; split; [by_compute|]. constructor.
  - destruct topics; [|done]. apply Forall_cons; split; [by_compute|constructor].
  - apply Forall_cons; split; [by_compute|].
    apply Forall_cons; split; [by_compute|]. constructor.
  - destruct cats; [|done]. apply Forall_cons; split; [by_compute|constructor].
  - apply Forall_cons; split; [by_compute|].
    apply Forall_cons; split; [by_compute|]. constructor.
  - done.
  - apply Forall_cons; split; [by_compute|].
    apply Forall_cons; split; [by_compute|].
    apply Forall_cons; split; [apply one_line_app; [by_compute|done]|].
    repeat (apply Forall_cons; split; [by_compute|]). constructor.
Qed.

Lemma one_line_report (h : heap) (dataset_id title : val) (text : pystr) :
  let a := analysis_from dataset_id title text in
  one_line (py_format h title) → one_line (py_format h dataset_id) →
  one_line (py_format h (VInt (relevance_score a))) →
  Forall one_line (report_lines h a).
Proof.
  intros a Htitle Hid Hscore. apply one_line_report_lines; try done.
  - apply Forall_forall. intros t Ht. exact (one_line_topic _ t Ht).
  - apply Forall_forall. intros cat Hcat. exact (one_line_suggestion text _ cat Hcat).
  - apply Forall_forall. intros t Ht. exact (one_line_search_term text _ t eq_refl Ht).
  - by_compute.
Qed.

(** X7: on a record [generate_woo_report] returns, and leaves the heap
    as it was: the report is the lines of [report_lines] for the analysis
    of the record, joined by line feeds.  Where the formatted title,
    identifier and score hold no line feed, no line of the report does
    (topics, category names, reasons and search terms never do), and
    splitting the report at the line feeds gives the lines back. *)
Theorem generate_woo_report_lines (h : heap) (dataset : val) :
  record h dataset →
  ∃ a, analyze_dataset dataset h = (inr a, h)
       ∧ generate_woo_report dataset h = (inr (str_join nl (report_lines h a)), h)
       ∧ (one_line (py_format h (title a)) → one_line (py_format h (dataset_id a)) →
          one_line (py_format h (VInt (relevance_score a))) →
          split_on 10 (str_join nl (report_lines h a)) = report_lines h a).
Proof.
  intros (dataset_id & title & text & Hrun)%analyze_dataset_record.
  eexists. split; [done|]. split.
  - unfold generate_woo_report. by rewrite bind_run, Hrun.
  - intros Htitle Hid Hscore. apply split_on_join; [done|].
    by apply one_line_report.
Qed.

End report_facts.

(** ** The handlers of the tools *)

Section handler_facts.
Context `{!Unicode, !SetOrder, !Format, !Upstream, !Handlers.Modules}.

Definition get_attr_arity : exn :=
  TypeError (ustr "MCPServer.get_attr() takes 3 positional arguments but 4 were given").

Lemma py_iter_list (h : heap) (v : val) (xs : list val) :
  as_list h v = Some xs → py_iter v h = (inr xs, h).
Proof.
  intros Hv. unfold py_iter. rewrite bind_run. simpl.
  destruct v; try done; by rewrite Hv.
Qed.

(** The condition of the comprehension raises on every dataset. *)
Lemma matches_query_raises (h : heap) (query_lower : pystr) (ds : val) :
  ∃ e, Handlers.matches_query query_lower ds h = (inl e, h)
       ∧ (is_Some (as_dict h ds) → e = get_attr_arity).
Proof.
  unfold Handlers.matches_query. rewrite bind_run.
  unfold dict_get at 1. rewrite bind_run. simpl.
  destruct (as_dict h ds) as [d|]; simpl.
  - eexists. split; [done|done].
  - eexists. split; [done|]. by intros [??].
Qed.

Lemma search_datasets_raises (h h1 : heap) (query limit data : val)
    (d : list (pystr * val)) (ds : val) (rest : list val) :
  Handlers.fetch_api (ustr "/datasets") h = (inr data, h1) →
  as_dict h1 data = Some d →
  as_list h1 (default VEmptyList (items_get (ustr "data") d)) = Some (ds :: rest) →
  truthy h1 query = true →
  ∃ e, Handlers.search_datasets query limit h = (inl e, h1)
       ∧ (is_Some (as_dict h1 ds) → (∃ q, query = VStr q) → e = get_attr_arity).
Proof.
  intros Hfetch Hd Hlist Hquery. unfold Handlers.search_datasets.
  rewrite bind_run, Hfetch. rewrite bind_run, (dict_get_dict _ _ d) by done.
  rewrite bind_run. simpl. rewrite Hquery.
  rewrite bind_run. rewrite (bind_run (str_lower query)).
  destruct query as [| | |q| | |];
    try (unfold str_lower; rewrite bind_run; simpl; eexists; split; [done|];
         by intros _ [? [=]]).
  unfold str_lower at 1. rewrite bind_run. simpl.
  rewrite bind_run, (py_iter_list _ _ (ds :: rest)) by done.
  cbn [comprehension]. rewrite !bind_run.
  destruct (matches_query_raises h1 (py_lower q) ds) as (e & -> & He).
  exists e. split; [done|]. intros Hds _. by apply He.
Qed.

(** X8: [search_datasets] calls [get_attr] with a third argument, which
    the method does not take.  A [tools/call] of [search_datasets] whose
    query is a string that is not empty is therefore answered, as soon as
    the catalogue that was fetched starts with a dataset that is a dict,
    with the error -32603 and the text of that [TypeError]; the heap is the
    one the fetch left. *)
Theorem search_tool_query_fails (rest : Backend) (h h1 : heap) (request_id params data : val)
    (p args d : list (pystr * val)) (q : pystr) (ds : val) (others : list val) :
  as_dict h params = Some p →
  default VNone (items_get (ustr "name") p) = VStr (ustr "search_datasets") →
  as_dict h (default VEmptyDict (items_get (ustr "arguments") p)) = Some args →
  default VNone (items_get (ustr "query") args) = VStr q →
  q ≠ [] →
  Handlers.fetch_api (ustr "/datasets") h = (inr data, h1) →
  as_dict h1 data = Some d →
  as_list h1 (default VEmptyList (items_get (ustr "data") d)) = Some (ds :: others) →
  is_Some (as_dict h1 ds) →
  @call_tool _ (Server.backend rest) request_id params h
  = (inr (ErrorResponse request_id (-32603)
            (ustr "Tool execution failed: "
             ++ ustr "MCPServer.get_attr() takes 3 positional arguments but 4 were given")),
     h1).
Proof.
  intros Hp Hname Hargs Hquery Hq Hfetch Hd Hlist Hds.
  rewrite (call_tool_dict _ _ _ p) by done. rewrite Hname.
  set (limit := default (VInt 20) (items_get (ustr "limit") args)).
  destruct (search_datasets_raises h h1 (VStr q) limit data d ds others) as (e & Hrun & He);
    [done..| |].
  { simpl. by rewrite bool_decide_eq_false_2. }
  rewrite He in Hrun by eauto.
  rewrite (try_except_inl _ _ _ h1 get_attr_arity); [done|].
  unfold run_tool. eval_eq_str.
  rewrite bind_run, (dict_get_dict _ _ args), Hquery by done.
  rewrite bind_run, (dict_get_dict _ _ args) by done.
  rewrite bind_run. cbn [search_datasets Server.backend]. fold limit. by rewrite Hrun.
Qed.

(** *** The search without a query *)

(** The title the listings show for a dataset: the value of the first of
    the title keys its attributes have, and the identifier, or ["Geen
    titel"], when that value is false. *)
Definition shown_title (h : heap) (ds : val) : val :=
  let d := default [] (as_dict h ds) in
  let a := default [] (as_dict h (default VEmptyDict (items_get (ustr "attributes") d))) in
  let t := first_present a (resolver_keys (ustr "title")) in
  if truthy h t then t else default (VStr (ustr "Geen titel")) (items_get (ustr "id") d).


(** A value that is a string, or [None]. *)
Definition text_value (v : val) : Prop := v = VNone ∨ ∃ s, v = VStr s.

(** A dataset as the API gives it: a dict; its attributes, when it has
    them, a dict; the title and the description the resolver finds in them
    strings, when it finds them. *)
Definition plain (h : heap) (ds : val) : Prop :=
  ∃ d a, as_dict h ds = Some d
         ∧ as_dict h (default VEmptyDict (items_get (ustr "attributes") d)) = Some a
         ∧ text_value (first_present a (resolver_keys (ustr "title")))
         ∧ text_value (first_present a (resolver_keys (ustr "description"))).

Lemma as_dict_app (h h' : heap) (v : val) (d : list (pystr * val)) :
  as_dict h v = Some d → as_dict (h ++ h') v = Some d.
Proof.
  destruct v as [| | | |l| |]; try done. simpl.
  destruct (h !! l) as [o|] eqn:Hl; [|done]. by rewrite (lookup_app_l_Some _ _ _ _ Hl).
Qed.

Lemma plain_app (h h' : heap) (ds : val) : plain h ds → plain (h ++ h') ds.
Proof.
  intros (d & a & Hd & Ha & Ht & Hdesc). exists d, a.
  split_and!; [by apply as_dict_app|by apply as_dict_app|done|done].
Qed.

(** The description shown: the string found, when it is not empty. *)
Definition shown_description (h : heap) (ds : val) : pystr :=
  let d := default [] (as_dict h ds) in
  let a := default [] (as_dict h (default VEmptyDict (items_get (ustr "attributes") d))) in
  match first_present a (resolver_keys (ustr "description")) with
  | VStr (c :: s) => c :: s
  | _ => ustr "Geen beschrijving"
  end.

(** The lines of one entry of the listing of [search_datasets]. *)
Definition search_text (h : heap) (ds : val) : pystr :=
  let d := default [] (as_dict h ds) in
  let desc := shown_description h ds in
  Handlers.chart ++ ustr " " ++ py_format h (shown_title h ds) ++ nl
  ++ ustr "   ID: " ++ py_format h (default VNone (items_get (ustr "id") d)) ++ nl
  ++ ustr "   " ++ take 100 desc ++ (if 100 <? length desc then ustr "..." else [])
  ++ nl ++ nl.

Lemma py_slice_to_str (h : heap) (s : pystr) (n : Z) :
  py_slice_to (VStr s) (VInt n) h = (inr (VStr (slice_to (Some n) s)), h).
Proof. done. Qed.

Lemma py_len_str (h : heap) (s : pystr) :
  py_len (VStr s) h = (inr (Z.of_nat (length s)), h).
Proof. done. Qed.

Lemma py_len_list (h : heap) (v : val) (xs : list val) :
  as_list h v = Some xs → py_len v h = (inr (Z.of_nat (length xs)), h).
Proof.
  intros Hv. unfold py_len. rewrite bind_run. simpl.
  destruct v; try done; by rewrite Hv.
Qed.

Lemma search_entry_run (h : heap) (result : pystr) (ds : val) :
  plain h ds →
  Handlers.search_entry result ds h = (inr (result ++ search_text h ds), h).
Proof.
  intros (d & a & Hd & Ha & _ & Hdesc).
  unfold Handlers.search_entry, search_text, shown_description, shown_title.
  rewrite Hd. cbn [from_option id]. rewrite Ha. cbn [from_option id].
  rewrite bind_run, (dict_get_dict _ _ d) by done.
  rewrite bind_run, (get_attr_dict _ _ a) by done.
  rewrite bind_run, py_or_run.
  assert (dict_get ds (ustr "id") (VStr (ustr "Geen titel")) h
          = (inr (default (VStr (ustr "Geen titel")) (items_get (ustr "id") d)), h)) as ->
    by by apply dict_get_dict.
  set (t := first_present a (resolver_keys (ustr "title"))).
  assert ((if truthy h t then (inr t, h)
           else (inr (default (VStr (ustr "Geen titel")) (items_get (ustr "id") d)), h))
          = (inr (if truthy h t then t
                  else default (VStr (ustr "Geen titel")) (items_get (ustr "id") d)), h)) as ->
    by by destruct (truthy h t).
  rewrite bind_run, (get_attr_dict _ _ a) by done.
  set (desc := match first_present a (resolver_keys (ustr "description")) with
               | VStr (c :: s) => c :: s
               | _ => ustr "Geen beschrijving"
               end).
  assert (py_or (first_present a (resolver_keys (ustr "description")))
            (mret (VStr (ustr "Geen beschrijving"))) h = (inr (VStr desc), h)) as Hor.
  { rewrite py_or_ret. unfold desc.
    destruct Hdesc as [->|[[|c s'] ->]]; try done. }
  rewrite bind_run, Hor. rewrite bind_run. cbn [get_heap].
  rewrite bind_run, (dict_get_dict _ _ d) by done.
  rewrite bind_run. cbn [get_heap].
  rewrite bind_run, py_slice_to_str. rewrite bind_run. cbn [get_heap].
  rewrite bind_run, py_len_str.
  unfold mret, M_ret. f_equal. rewrite py_format_str.
  change (slice_to (Some 100%Z) desc) with (take 100 desc).
  assert ((100 <? Z.of_nat (length desc))%Z = (100 <? length desc)) as ->.
  { destruct (Nat.ltb_spec 100 (length desc)); [apply Z.ltb_lt|apply Z.ltb_ge]; lia. }
  by rewrite <- !(assoc_L (++)).
Qed.

Lemma for_each_search_entry (h : heap) (result : pystr) (items : list val) :
  Forall (plain h) items →
  for_each Handlers.search_entry items result h
  = (inr (result ++ concat (search_text h <$> items)), h).
Proof.
  intros Hitems. revert result.
  induction Hitems as [|item items Hitem _ IH]; intros result; simpl.
  - by rewrite app_nil_r.
  - rewrite bind_run, search_entry_run by done. rewrite IH. by rewrite <- (assoc_L (++)).
Qed.

Lemma Forall_slice_to {A} (P : A → Prop) (stop : option Z) (l : list A) :
  Forall P l → Forall P (slice_to stop l).
Proof. intros Hl. unfold slice_to. repeat case_match; by try apply Forall_take. Qed.

(** X9: without a query ([None], an empty string or another false
    value) and with a limit that is an integer, a Boolean or [None],
    [search_datasets] on a catalogue of plain datasets returns the head
    with the number of the datasets [datasets[:limit]] (a negative limit
    counts from the end, and [None], as in ["limit": null], is no limit)
    and one entry for each of them, in the order of the catalogue: the
    title, the identifier and the first 100 characters of the description,
    followed by "..." when it has more.  The slice is a new list at the
    end of the heap. *)
Theorem search_datasets_listing (h h1 : heap) (query limit data : val) (stop : option Z)
    (d : list (pystr * val)) (datasets : list val) :
  Handlers.fetch_api (ustr "/datasets") h = (inr data, h1) →
  as_dict h1 data = Some d →
  as_list h1 (default VEmptyList (items_get (ustr "data") d)) = Some datasets →
  Forall (plain h1) datasets →
  truthy h1 query = false →
  slice_index limit = inr stop →
  let shown := slice_to stop datasets in
  let h2 := h1 ++ [OList shown] in
  Handlers.search_datasets query limit h
  = (inr (ustr "Gevonden: " ++ py_format h2 (VInt (Z.of_nat (length shown)))
          ++ ustr " datasets" ++ nl ++ nl ++ concat (search_text h2 <$> shown)), h2).
Proof.
  intros Hfetch Hd Hlist Hplain Hquery Hstop shown h2. unfold Handlers.search_datasets.
  rewrite bind_run, Hfetch. rewrite bind_run, (dict_get_dict _ _ d) by done.
  rewrite bind_run. cbn [get_heap]. rewrite Hquery. rewrite bind_run.
  set (dsv := default VEmptyList (items_get (ustr "data") d)) in *.
  assert (py_slice_to dsv limit h1 = (inr (VRef (length h1)), h2)) as Hslice.
  { unfold py_slice_to. rewrite bind_run. cbn [get_heap].
    destruct dsv; try done; by rewrite Hlist, Hstop. }
  cbn [mret M_ret]. rewrite bind_run, Hslice.
  assert (as_list h2 (VRef (length h1)) = Some shown) as Hshown.
  { simpl. unfold h2. by rewrite list_lookup_middle. }
  rewrite bind_run, (py_len_list _ _ shown) by done.
  rewrite bind_run. cbn [get_heap].
  rewrite bind_run, (py_iter_list _ _ shown) by done.
  rewrite for_each_search_entry.
  - by rewrite <- !(assoc_L (++)).
  - apply Forall_slice_to. eapply Forall_impl; [done|]. intros ds. apply plain_app.
Qed.

(** *** The Woo tools *)

Definition unavailable : pystr := Handlers.warning ++ ustr " Woo connector niet beschikbaar".

(** The text in which the two handlers report an exception. *)
Definition failure (e : exn) : pystr := Handlers.cross ++ ustr " Fout: " ++ exn_str e.

Lemma record_dicts (h : heap) (dataset : val) :
  record h dataset →
  ∃ d a, as_dict h dataset = Some d
         ∧ as_dict h (default VEmptyDict (items_get (ustr "attributes") d)) = Some a.
Proof.
  intros (d & Hd & Hattrs). exists d.
  destruct (items_get (ustr "attributes") d) as [attrs|] eqn:Hget; simpl.
  - destruct (Hattrs attrs) as (a & ? & _); eauto.
  - by exists [].
Qed.

(** X10: [analyze_woo_connection] returns a text on every input and
    never raises, so that the tool is never answered with an error.
    Without the connector the text is the notice, and nothing is fetched.
    With it: a fetch that fails gives the sign of failure and the text of
    the exception; a response that is a dict gives the report of the
    dataset under [data], or of the response itself when it has no
    [data], and the sign of failure with the text of the exception when
    that dataset cannot be analysed. *)
Theorem analyze_woo_connection_spec (h : heap) (dataset_id : val) :
  (∃ text h', Handlers.analyze_woo_connection dataset_id h = (inr text, h'))
  ∧ (Handlers.woo_connector = false →
     Handlers.analyze_woo_connection dataset_id h = (inr unavailable, h))
  ∧ (Handlers.woo_connector = true →
     ∀ e h1,
       Handlers.fetch_api (ustr "/datasets/" ++ py_format h dataset_id) h = (inl e, h1) →
       Handlers.analyze_woo_connection dataset_id h = (inr (failure e), h1))
  ∧ (Handlers.woo_connector = true →
     ∀ data h1 d,
       Handlers.fetch_api (ustr "/datasets/" ++ py_format h dataset_id) h = (inr data, h1) →
       as_dict h1 data = Some d →
       let dataset := default data (items_get (ustr "data") d) in
       match analyze_dataset dataset h1 with
       | (inr a, _) =>
           Handlers.analyze_woo_connection dataset_id h
           = (inr (str_join nl (report_lines h1 a)), h1)
       | (inl e, _) =>
           Handlers.analyze_woo_connection dataset_id h = (inr (failure e), h1)
       end).
Proof.
  unfold Handlers.analyze_woo_connection.
  destruct Handlers.woo_connector; cbn [negb];
    [|split_and!; [by eexists _, _|done|done|done]].
  split_and!; [|done|intros _..].
  - apply try_except_ret.
  - intros e h1 Hfetch. rewrite (try_except_inl _ _ _ h1 e); [done|].
    rewrite bind_run. cbn [get_heap]. by rewrite bind_run, Hfetch.
  - intros data h1 d Hfetch Hd.
    set (dataset := default data (items_get (ustr "data") d)).
    pose proof (read_only_analyze_dataset dataset h1) as Hro.
    destruct (analyze_dataset dataset h1) as [[e|a] h2] eqn:Hrun; simpl in Hro; subst h2.
    + rewrite (try_except_inl _ _ _ h1 e); [done|].
      rewrite bind_run. cbn [get_heap]. rewrite bind_run, Hfetch.
      rewrite bind_run, (dict_get_dict _ _ d) by done.
      unfold generate_woo_report. fold dataset. by rewrite bind_run, Hrun.
    + apply try_except_inr. rewrite bind_run. cbn [get_heap]. rewrite bind_run, Hfetch.
      rewrite bind_run, (dict_get_dict _ _ d) by done.
      unfold generate_woo_report. fold dataset. by rewrite bind_run, Hrun.
Qed.

(** The lines of one entry of the listing of [find_woo_related_datasets]. *)
Definition item_text (h : heap) (item : related) : pystr :=
  let d := default [] (as_dict h (rel_dataset item)) in
  let analysis := rel_analysis item in
  Handlers.chart ++ ustr " " ++ py_format h (shown_title h (rel_dataset item)) ++ nl
  ++ ustr "   ID: " ++ py_format h (default VNone (items_get (ustr "id") d)) ++ nl
  ++ ustr "   Relevantie: " ++ py_format h (VInt (relevance item)) ++ ustr "/10" ++ nl
  ++ ustr "   Topics: " ++ str_join (ustr ", ") (take 3 (topics analysis)) ++ nl
  ++ match woo_categories analysis with
     | [] => []
     | _ =>
         ustr "   Woo categorie" ++ [195; 171]%N ++ ustr "n: "
         ++ str_join (ustr ", ") (name <$> take 2 (woo_categories analysis)) ++ nl
     end
  ++ nl.

Lemma related_item_run (h : heap) (result : pystr) (item : related) :
  record h (rel_dataset item) →
  Handlers.related_item result item h = (inr (result ++ item_text h item), h).
Proof.
  intros (d & a & Hd & Ha)%record_dicts. unfold Handlers.related_item, item_text, shown_title.
  rewrite Hd. cbn [from_option id]. rewrite Ha. cbn [from_option id].
  rewrite bind_run, (dict_get_dict _ _ d) by done.
  rewrite bind_run, (get_attr_dict _ _ a) by done.
  rewrite bind_run, py_or_run.
  assert (dict_get (rel_dataset item) (ustr "id") (VStr (ustr "Geen titel")) h
          = (inr (default (VStr (ustr "Geen titel")) (items_get (ustr "id") d)), h)) as ->
    by by apply dict_get_dict.
  set (t := first_present a (resolver_keys (ustr "title"))).
  assert ((if truthy h t then (inr t, h)
           else (inr (default (VStr (ustr "Geen titel")) (items_get (ustr "id") d)), h))
          = (inr (if truthy h t then t
                  else default (VStr (ustr "Geen titel")) (items_get (ustr "id") d)), h)) as ->
    by by destruct (truthy h t).
  rewrite bind_run. cbn [get_heap].
  rewrite bind_run, (dict_get_dict _ _ d) by done.
  rewrite bind_run. cbn [get_heap]. unfold mret, M_ret. f_equal. f_equal.
  destruct (woo_categories (rel_analysis item)); by rewrite <- ?(assoc_L (++)).
Qed.

Lemma for_each_related_item (h : heap) (result : pystr) (items : list related) :
  Forall (λ item, record h (rel_dataset item)) items →
  for_each Handlers.related_item items result h
  = (inr (result ++ concat (item_text h <$> items)), h).
Proof.
  intros Hitems. revert result.
  induction Hitems as [|item items Hitem _ IH]; intros result; simpl.
  - by rewrite app_nil_r.
  - rewrite bind_run, related_item_run by done. rewrite IH. by rewrite <- (assoc_L (++)).
Qed.

(** The listing of the related datasets: the head with the number of all
    of them, the entries of the first ten, and the number of the others
    when there are more. *)
Definition related_listing (h : heap) (topic : val) (related : list related) : pystr :=
  match related with
  | [] => ustr "Geen datasets gevonden gerelateerd aan '" ++ py_format h topic ++ ustr "'"
  | _ =>
      Handlers.link ++ ustr " Datasets gerelateerd aan '" ++ py_format h topic ++ ustr "':"
      ++ nl ++ nl ++ ustr "Gevonden: "
      ++ py_format h (VInt (Z.of_nat (length related))) ++ ustr " dataset(s)" ++ nl ++ nl
      ++ concat (item_text h <$> take 10 related)
      ++ (if 10 <? length related
          then ustr "... en nog " ++ py_format h (VInt (Z.of_nat (length related) - 10))
               ++ ustr " datasets meer" ++ nl
          else [])
  end.

(** X11: [find_woo_related_datasets] returns a text on every input and
    never raises.  Without the connector the text is the notice, and
    nothing is fetched; a fetch that fails gives the sign of failure and
    the text of the exception.  On a catalogue of records and a topic
    that is a string the text is made from the result of
    [find_related_datasets] on the catalogue: the sentence that nothing
    was found when it is empty; else the head with the number of all
    entries, the entries of the first ten in their order, and the number
    of the others when there are more than ten. *)
Theorem find_woo_related_datasets_spec (h : heap) (topic : val) :
  (∃ text h', Handlers.find_woo_related_datasets topic h = (inr text, h'))
  ∧ (Handlers.woo_connector = false →
     Handlers.find_woo_related_datasets topic h = (inr unavailable, h))
  ∧ (Handlers.woo_connector = true →
     ∀ e h1,
       Handlers.fetch_api (ustr "/datasets") h = (inl e, h1) →
       Handlers.find_woo_related_datasets topic h = (inr (failure e), h1))
  ∧ (Handlers.woo_connector = true →
     ∀ data h1 d datasets woo_topic,
       Handlers.fetch_api (ustr "/datasets") h = (inr data, h1) →
       as_dict h1 data = Some d →
       as_list h1 (default VEmptyList (items_get (ustr "data") d)) = Some datasets →
       Forall (record h1) datasets →
       topic = VStr woo_topic →
       ∃ related,
         find_related_datasets woo_topic datasets h1 = (inr related, h1)
         ∧ Handlers.find_woo_related_datasets topic h
           = (inr (related_listing h1 topic related), h1)).
Proof.
  unfold Handlers.find_woo_related_datasets.
  destruct Handlers.woo_connector; cbn [negb];
    [|split_and!; [by eexists _, _|done|done|done]].
  split_and!; [|done|intros _..].
  - apply try_except_ret.
  - intros e h1 Hfetch. rewrite (try_except_inl _ _ _ h1 e); [done|].
    by rewrite bind_run, Hfetch.
  - intros data h1 d datasets woo_topic Hfetch Hd Hlist Hrecords ->.
    destruct (records_analyses h1 datasets Hrecords) as [analyses Hall].
    pose proof (find_related_datasets_run h1 woo_topic datasets analyses Hall) as Hrun.
    eexists. split; [done|].
    set (related := sorted_desc relevance _) in *.
    assert (Forall (λ item, record h1 (rel_dataset item)) related) as Hrel.
    { apply Forall_forall. intros item Hitem.
      rewrite Forall_forall in Hrecords. apply Hrecords.
      unfold related in Hitem. rewrite sorted_desc_perm in Hitem.
      eapply elem_of_sublist; [|apply related_entries_sublist].
      by apply list_elem_of_fmap_2. }
    apply try_except_inr.
    rewrite bind_run, Hfetch. rewrite bind_run, (dict_get_dict _ _ d) by done.
    rewrite bind_run. unfold Handlers.call_find_related_datasets.
    rewrite bind_run, (py_iter_list _ _ datasets) by done. rewrite Hrun.
    rewrite bind_run. cbn [get_heap]. unfold related_listing.
    destruct related as [|item related'] eqn:Hrelated; [done|]. rewrite <- Hrelated in *.
    rewrite bind_run, for_each_related_item by by apply Forall_take.
    rewrite bind_run. cbn [get_heap]. unfold mret, M_ret. f_equal. f_equal.
    destruct (10 <? length related); rewrite <- !(assoc_L (++)); [done|].
    by rewrite !app_nil_r.
Qed.

(** The two handlers return on every input. *)
Lemma analyze_woo_connection_returns (h : heap) (dataset_id : val) :
  ∃ text h', Handlers.analyze_woo_connection dataset_id h = (inr text, h').
Proof.
  unfold Handlers.analyze_woo_connection.
  destruct Handlers.woo_connector; cbn [negb]; [apply try_except_ret|by eexists _, _].
Qed.

Lemma find_woo_related_datasets_returns (h : heap) (topic : val) :
  ∃ text h', Handlers.find_woo_related_datasets topic h = (inr text, h').
Proof.
  unfold Handlers.find_woo_related_datasets.
  destruct Handlers.woo_connector; cbn [negb]; [apply try_except_ret|by eexists _, _].
Qed.

(** X12: the two Woo tools are never answered with an error once their
    argument is given.  A [tools/call] of [analyze_woo_connection] with a
    [dataset_id], or of [find_woo_related_datasets] with a [topic], on the
    server with these handlers, gets a response that carries a text,
    whatever the value of the argument and whatever the fetch does: a
    failure is told in the text. *)
Theorem woo_tools_answer (rest : Backend) (h : heap) (request_id params : val)
    (p args : list (pystr * val)) (v : val) :
  as_dict h params = Some p →
  as_dict h (default VEmptyDict (items_get (ustr "arguments") p)) = Some args →
  (default VNone (items_get (ustr "name") p) = VStr (ustr "analyze_woo_connection")
   ∧ items_get (ustr "dataset_id") args = Some v
   ∨ default VNone (items_get (ustr "name") p) = VStr (ustr "find_woo_related_datasets")
     ∧ items_get (ustr "topic") args = Some v) →
  ∃ text h',
    @call_tool _ (Server.backend rest) request_id params h
    = (inr (Response request_id (ContentResult text)), h').
Proof.
  intros Hp Hargs Hcall. rewrite (call_tool_dict _ _ _ p) by done.
  destruct Hcall as [[-> Hv]|[-> Hv]].
  - destruct (analyze_woo_connection_returns h v) as (text & h' & Hrun).
    exists text, h'. apply try_except_inr. unfold run_tool. eval_eq_str.
    rewrite bind_run, (subscript_dict _ _ args), Hv by done.
    rewrite bind_run. cbn [analyze_woo_connection Server.backend]. by rewrite Hrun.
  - destruct (find_woo_related_datasets_returns h v) as (text & h' & Hrun).
    exists text, h'. apply try_except_inr. unfold run_tool. eval_eq_str.
    rewrite bind_run, (subscript_dict _ _ args), Hv by done.
    rewrite bind_run. cbn [find_woo_related_datasets Server.backend]. by rewrite Hrun.
Qed.

End handler_facts.

(** ** The proxy *)

Import Proxy.

Section proxy_facts.
Context `{!Unicode, !SetOrder, !Format, !Upstream}.

(** Splitting at the first [?] and joining the parts with a [?] gives the
    path back. *)
Lemma dataoverheid_url_drop (path : pystr) :
  dataoverheid_url path = inr (DATAOVERHEID_API_BASE ++ drop 13 path).
Proof.
  unfold dataoverheid_url. case_bool_decide as Hq; [|done].
  destruct (elem_of_first _ _ Hq) as (a & b & -> & Ha).
  by rewrite split_once_found.
Qed.

(** What the two proxies make of the outcome of the request upstream. *)
Definition api_reply (f : fetched) : reply :=
  match f with
  | Body data => Reply 200 (ustr "application/json") (Raw data)
  | HTTPError code reason => SendError code (ustr "API Error: " ++ reason)
  | URLError reason => SendError 502 (ustr "Cannot reach API: " ++ reason)
  | OtherError e => SendError 500 (ustr "Internal server error: " ++ exn_str e)
  end.

Definition dataoverheid_reply (f : fetched) : reply :=
  match f with
  | Body data => Reply 200 (ustr "application/json; charset=utf-8") (Raw data)
  | HTTPError code reason => SendError code (ustr "API Error: " ++ reason)
  | URLError reason => SendError 502 (ustr "Cannot reach data.overheid.nl: " ++ reason)
  | OtherError e => SendError 500 (ustr "Internal server error: " ++ exn_str e)
  end.

(** X13: the proxy reaches its two bases only, and passes the rest of
    the path on unchanged.  [/api/<rest>] is requested from the base of the
    Utrecht API followed by [/<rest>], and [/dataoverheid/<rest>] from the
    base of the CKAN API followed by [/<rest>], whatever question marks
    [rest] holds: the split at the first [?] and the join give the path
    back, and the unpacking of the two parts never fails.  The reply is
    the body with the status 200, or the error of the upstream request. *)
Theorem proxy_upstream_url (h : heap) (rest : pystr) :
  do_GET (ustr "/api/" ++ rest) h
  = (inr (api_reply (urlopen (UTRECHT_API_BASE ++ ustr "/" ++ rest))), h)
  ∧ do_GET (ustr "/dataoverheid/" ++ rest) h
    = (inr (dataoverheid_reply (urlopen (DATAOVERHEID_API_BASE ++ ustr "/" ++ rest))), h).
Proof.
  split.
  - done.
  - unfold do_GET.
    change (starts_with (ustr "/api/") (ustr "/dataoverheid/" ++ rest)) with false.
    change (starts_with (ustr "/dataoverheid/") (ustr "/dataoverheid/" ++ rest))
      with (starts_with [] rest).
    cbn [starts_with]. unfold proxy_dataoverheid_request.
    by rewrite dataoverheid_url_drop.
Qed.

(** The reply to the analysis of the dataset [dataset_id]. *)
Definition analysis_reply (dataset_id : pystr) : M reply :=
  try_except
    (text ← urlopen_read (UTRECHT_API_BASE ++ ustr "/datasets/" ++ dataset_id);
     data ← json_loads text;
     dataset ← dict_get data (ustr "data") data;
     analysis ← analyze_dataset dataset;
     mret (Reply 200 (ustr "application/json; charset=utf-8") (AnalysisJson analysis)))
    (λ e, mret (Reply 500 (ustr "application/json") (ErrorJson (exn_str e)))).

(** X14: the Woo analysis of the proxy is that of the dataset named by
    what follows the last [/] of the path, a query string included: on a
    path [<front>/<id>], where [<id>] holds no [/], the handler fetches and
    analyses the dataset [<id>], whatever [<front>] is.  It never raises,
    and the reply has the status 200 with the analysis or the status 500
    with the text of the exception. *)
Theorem handle_woo_analysis_segment (h : heap) (front dataset_id : pystr) :
  47%N ∉ dataset_id →
  handle_woo_analysis (front ++ ustr "/" ++ dataset_id) h = analysis_reply dataset_id h
  ∧ ∃ r h',
      analysis_reply dataset_id h = (inr r, h')
      ∧ ((∃ a, r = Reply 200 (ustr "application/json; charset=utf-8") (AnalysisJson a))
         ∨ (∃ error, r = Reply 500 (ustr "application/json") (ErrorJson error))).
Proof.
  intros Hid. split.
  - unfold handle_woo_analysis, analysis_reply.
    change (front ++ ustr "/" ++ dataset_id) with (front ++ 47%N :: dataset_id).
    by rewrite last_split_on.
  - unfold analysis_reply, try_except.
    match goal with |- context [match ?m h with _ => _ end] =>
      destruct (m h) as [[e|r] h'] eqn:Hrun end.
    { eexists _, _. split; [done|]. right. by eexists. }
    repeat (apply bind_inr in Hrun as (? & ? & _ & Hrun)).
    injection Hrun as <- <-. eexists _, _. split; [done|]. left. by eexists.
Qed.

End proxy_facts.

(** ** The loop of [main] *)

Import Transport.

Section transport_facts.
Context `{!Format, !Backend, !Json}.

Lemma handle_request_no_dict (h : heap) (request : val) :
  as_dict h request = None →
  handle_request request h = (inl (no_get h request), h).
Proof.
  intros Hno. unfold handle_request, dict_get. rewrite !bind_run. simpl. by rewrite Hno.
Qed.

(** What the loop writes for a line, [h] being the heap before the line
    is read. *)
Definition answer (h : heap) (line : pystr) (w : written) : Prop :=
  match loads line h with
  | (inr (inr request), h1) =>
      match as_dict h1 request with
      | Some r =>
          ∃ resp h2,
            handle_request request h1 = (inr resp, h2)
            ∧ response_id resp = default VNone (items_get (ustr "id") r)
            ∧ w = Stdout (dumps h2 resp ++ nl)
      | None => w = Stderr (ustr "Error: " ++ exn_str (no_get h1 request) ++ nl)
      end
  | (inr (inl message), _) => w = Stderr (ustr "JSON parse error: " ++ message ++ nl)
  | (inl e, _) => w = Stderr (ustr "Error: " ++ exn_str e ++ nl)
  end.

Lemma serve_line_answer (h : heap) (line : pystr) :
  ∃ w h', serve_line line h = (inr w, h') ∧ answer h line w.
Proof.
  unfold serve_line, answer, try_except. rewrite bind_run.
  destruct (loads line h) as [[e|[message|request]] h1]; [by eauto..|].
  rewrite bind_run. destruct (as_dict h1 request) as [r|] eqn:Hr.
  - destruct (handle_request_dict_id h1 request r Hr) as (resp & h2 & -> & Hid).
    rewrite bind_run. cbn [get_heap]. eexists _, _. split; [done|]. eauto.
  - rewrite handle_request_no_dict by done. eauto.
Qed.

(** X15: the loop of [main] never raises and writes, after the line of
    its start, one line for every line it reads (a line as [readline]
    returns it holds its line feed and is not empty), in their order.  For a
    line that holds a JSON object it is the response of [handle_request] on
    the standard output, with the [id] of the request; for a line that
    does not parse, that holds another JSON value or on which [json.loads]
    raises, it is a message on the standard error, and nothing goes to
    the standard output. *)
Theorem main_answers (h : heap) (lines : list pystr) :
  Forall (λ line, line ≠ []) lines →
  ∃ ws h',
    main lines h
    = (inr (Stderr (ustr "Utrecht Open Data MCP Server gestart" ++ nl) :: ws), h')
    ∧ Forall2 (λ line w, ∃ h1, answer h1 line w) lines ws.
Proof.
  intros Hlines. unfold main. rewrite bind_run.
  assert (∃ ws h', serve lines h = (inr ws, h')
                   ∧ Forall2 (λ line w, ∃ h1, answer h1 line w) lines ws)
    as (ws & h' & -> & Hws); [|by eauto].
  revert h. induction Hlines as [|line lines Hline _ IH]; intros h.
  - exists [], h. split; [done|constructor].
  - cbn [serve]. rewrite bool_decide_eq_false_2 by done.
    destruct (serve_line_answer h line) as (w & h1 & Hw & Hanswer).
    destruct (IH h1) as (ws & h2 & Hrest & Hws).
    exists (w :: ws), h2. rewrite bind_run, Hw, bind_run, Hrest.
    split; [done|]. constructor; eauto.
Qed.

End transport_facts.


(* ================================================================== *)
(** * Part III: models of the parameters, examples and counterexamples *)
(* ================================================================== *)

(** ** The Latin-1 tables and a plain format *)

Ltac case_N_tests :=
  repeat match goal with
    | |- context [(?a <=? ?b)%N] => destruct (N.leb_spec a b); simpl
    | |- context [(?a =? ?b)%N] => destruct (N.eqb_spec a b); simpl
    end.

Lemma latin1_lower_cases (c : N) :
  (latin1_lower c = c + 32 ∧ (65 ≤ c ≤ 90 ∨ 192 ≤ c ≤ 222 ∧ c ≠ 215)
   ∨ latin1_lower c = c ∧ ¬ (65 ≤ c ≤ 90 ∨ 192 ≤ c ≤ 222 ∧ c ≠ 215))%N.
Proof. unfold latin1_lower. case_N_tests; lia. Qed.

Lemma latin1_lower_idemp (c : N) : latin1_lower (latin1_lower c) = latin1_lower c.
Proof.
  destruct (latin1_lower_cases c) as [[H Hc]|[H _]]; [|by rewrite !H].
  rewrite H. destruct (latin1_lower_cases (c + 32)%N) as [[_ ?]|[-> _]]; [lia|done].
Qed.

Lemma fmap_latin1_lower_stable (s a w b : pystr) :
  latin1_lower <$> s = a ++ w ++ b → latin1_lower <$> w = w.
Proof.
  intros Hs.
  assert (latin1_lower <$> (latin1_lower <$> s) = latin1_lower <$> s) as Hi.
  { rewrite <- list_fmap_compose. apply list_fmap_ext. intros _ c _. apply latin1_lower_idemp. }
  rewrite Hs, !fmap_app in Hi.
  apply app_inj_1 in Hi as [_ Hi]; [|by rewrite length_fmap].
  apply app_inj_1 in Hi as [Hi _]; [done|by rewrite length_fmap].
Qed.

(** The tables cut down: lower case as in Latin-1 and none beyond it, the
    word characters of ASCII and no other.  They satisfy the laws. *)
#[local] Instance latin1_unicode : Unicode := {|
  py_lower := fmap latin1_lower;
  is_word_char := ascii_word;
  py_lower_latin1 := λ s _, eq_refl;
  py_lower_stable := fmap_latin1_lower_stable;
  is_word_char_ascii := λ c _, eq_refl
|}.

(** A format that prints scalars as Python does and a container as its
    type name. *)
#[local] Instance plain_format : Format := {|
  py_format h v :=
    match v with
    | VStr s => s
    | VNone => ustr "None"
    | VBool true => ustr "True"
    | VBool false => ustr "False"
    | VInt n => ustr (pretty n)
    | _ => type_name h v
    end;
  py_format_str := λ _ _, eq_refl
|}.


(** *** A dataset with eleven keywords *)

Definition eleven_title : pystr :=
  ustr "Alfa Bravo Charlie Delta Echo Foxtrot Golf Hotel India Juliet Kilo".

Definition eleven_heap : heap :=
  [ ODict [(ustr "id", VStr (ustr "spelling")); (ustr "attributes", VRef 1)];
    ODict [(ustr "title", VStr eleven_title)] ].

(** The text [analyze_dataset] extracts from: title, empty description and
    no keywords, a blank between them. *)
Definition eleven_text : pystr := eleven_title ++ ustr " " ++ ustr " ".

Definition eleven_words : list pystr :=
  ustr <$> ["alfa"; "bravo"; "charlie"; "delta"; "echo"; "foxtrot"; "golf"; "hotel";
            "india"; "juliet"; "kilo"]%string.

Section eleven.
Context `{!SetOrder}.

Lemma eleven_analysis :
  analyze_dataset (VRef 0) eleven_heap
  = (inr (analysis_from (VStr (ustr "spelling")) (VStr eleven_title) eleven_text), eleven_heap).
Proof.
  erewrite analyze_dataset_dict; [|done|done].
  assert (attr_or eleven_heap [(ustr "title", VStr eleven_title)] (ustr "keyword") VEmptyList
          = VEmptyList) as -> by by vm_compute.
  assert (attr_or eleven_heap [(ustr "title", VStr eleven_title)] (ustr "title") (VStr [])
          = VStr eleven_title) as -> by by vm_compute.
  assert (attr_or eleven_heap [(ustr "title", VStr eleven_title)] (ustr "description") (VStr [])
          = VStr []) as -> by by vm_compute.
  done.
Qed.

Lemma eleven_keywords : extract_keywords (Some eleven_text) = py_set eleven_words.
Proof.
  assert (∃ c t, eleven_text = c :: t) as (c & t & Heq) by (by eexists _, _).
  rewrite Heq. unfold extract_keywords. rewrite <- Heq. by f_equal.
Qed.

Lemma eleven_keywords_perm : extract_keywords (Some eleven_text) ≡ₚ eleven_words.
Proof.
  rewrite eleven_keywords. apply NoDup_Permutation.
  - apply py_set_NoDup.
  - by_compute.
  - apply py_set_elem_of.
Qed.

Lemma eleven_topics : map_to_topics (extract_keywords (Some eleven_text)) = [].
Proof.
  unfold map_to_topics.
  assert (∀ l : list pystr, l ⊆ eleven_words →
     (keyword ← l;
      '(key, topic_list) ← TOPIC_MAPPING;
      if str_contains key keyword || str_contains keyword key then topic_list else []) = [])
    as Hnone.
  { induction l as [|k l IH]; intros Hl; [done|]. rewrite bind_cons, IH.
    - rewrite app_nil_r.
      assert (k ∈ eleven_words) as Hk by (apply Hl; left).
      clear Hl IH. revert k Hk. apply Forall_forall. by_compute.
    - intros x Hx. apply Hl. by right. }
  rewrite Hnone; [apply py_set_nil|].
  intros k Hk. by rewrite <- eleven_keywords_perm.
Qed.

(** Whatever the order of the set, the keyword that comes eleventh is left
    out of the analysis, and a query for it finds nothing. *)
Lemma eleven_excluded :
  ∃ k, k ∈ extract_keywords (Some eleven_text)
       ∧ find_related_datasets k [VRef 0] eleven_heap = (inr [], eleven_heap).
Proof.
  pose proof eleven_keywords_perm as Hperm.
  pose proof (Permutation_length Hperm) as Hlen.
  change (length eleven_words) with 11 in Hlen.
  destruct (lookup_lt_is_Some_2 (extract_keywords (Some eleven_text)) 10) as [k Hk]; [lia|].
  assert (k ∈ extract_keywords (Some eleven_text)) as Hin by by eapply list_elem_of_lookup_2.
  exists k. split; [done|].
  rewrite (find_related_datasets_run _ _ _
             [analysis_from (VStr (ustr "spelling")) (VStr eleven_title) eleven_text])
    by (repeat constructor; apply eleven_analysis).
  rewrite related_entries_cons, (py_lower_keyword eleven_text k) by done.
  unfold related_entry, analysis_from. cbn [topics keywords]. rewrite eleven_topics.
  rewrite decide_False by by intros ?%Exists_nil.
  rewrite decide_False; [done|].
  intros (x & (i & Hx & Hi)%elem_of_take & Hsub)%Exists_exists.
  assert (k = x) as <-.
  { assert (Forall (λ x, Forall (λ y, substring x y → x = y) eleven_words) eleven_words)
      as Hwords by by_compute.
    rewrite Forall_forall in Hwords. setoid_rewrite Forall_forall in Hwords.
    apply Hwords; [by rewrite <- Hperm|rewrite <- Hperm; by eapply list_elem_of_lookup_2|done]. }
  assert (i = 10); [|lia].
  eapply NoDup_lookup; [|done..]. rewrite eleven_keywords. apply py_set_NoDup.
Qed.

End eleven.

(** The claim as stated has a dataset in the result as soon as the query
    occurs in one of its extracted keywords; the code looks at the 10
    keywords it kept. *)
Lemma find_related_misses_a_keyword :
  ¬ ∃ O : SetOrder, ∀ query,
      Exists (substring query) (extract_keywords (Some eleven_text)) →
      ∃ out, find_related_datasets query [VRef 0] eleven_heap = (inr out, eleven_heap)
             ∧ out ≠ [].
Proof.
  intros (O & Hclaim). destruct (@eleven_excluded O) as (k & Hk & Hrun).
  destruct (Hclaim k) as (out & Hout & Hne).
  - apply Exists_exists. exists k. split; [done|]. exists [], []. by rewrite app_nil_r.
  - rewrite Hrun in Hout. by injection Hout as <-.
Qed.


(** ** A set in the order of insertion *)

(** A set that is iterated in the order of (last) insertion. *)
#[local] Instance insertion_order : SetOrder := {|
  py_set := remove_dups;
  py_set_NoDup := NoDup_remove_dups;
  py_set_elem_of := elem_of_remove_dups
|}.


(** The dataset of the connector's own example, in a heap of its own. *)
Definition example_heap : heap :=
  [ ODict [(ustr "id", VStr (ustr "afvalbakken")); (ustr "attributes", VRef 1)];
    ODict [(ustr "dct:title", VStr (ustr "Afvalbakken"));
           (ustr "dct:description",
            VStr (ustr "Overzicht van bovengrondse afvalbakken in de gemeente Utrecht voor afvalbeleid"));
           (ustr "dcat:keyword", VRef 2)];
    OList [VStr (ustr "afval"); VStr (ustr "afvalbak"); VStr (ustr "openbare ruimte")] ].

Lemma example_record : record example_heap (VRef 0).
Proof.
  eexists. split; [done|]. intros attrs [= <-]. eexists. split; [done|].
  intros k v Hk Hv. right.
  exists [ustr "afval"; ustr "afvalbak"; ustr "openbare ruimte"].
  repeat (apply elem_of_cons in Hk as [->|Hk]); [..|by apply elem_of_nil in Hk];
    vm_compute in Hv; by simplify_eq.
Qed.

Lemma analyze_dataset_score_witness :
  record example_heap (VRef 0)
  ∧ ∃ a, analyze_dataset (VRef 0) example_heap = (inr a, example_heap)
         ∧ relevance_score a
           = (Z.of_nat (length (topics a)) + Z.of_nat (length (woo_categories a)))%Z
         ∧ (0 ≤ relevance_score a ≤ 49)%Z
         ∧ length (keywords a) ≤ 10.
Proof.
  split; [apply example_record|].
  apply (analyze_dataset_score example_heap (VRef 0) example_record).
Defined.

(** The claim as stated has the score without a fixed upper bound; the
    closed vocabulary gives it one. *)
Lemma relevance_score_has_upper_bound :
  ¬ (∀ bound : Z,
       ∃ (U : Unicode) (O : SetOrder) (F : Format) h dataset a h',
         analyze_dataset dataset h = (inr a, h') ∧ (bound < relevance_score a)%Z).
Proof.
  intros Hunbounded.
  destruct (Hunbounded 49%Z) as (U & O & F & h & dataset & a & h' & Hrun & Hlt).
  apply analyze_dataset_inr in Hrun as [_ (dataset_id & title & text & ->)].
  pose proof (analysis_from_score dataset_id title text) as (_ & ? & _). lia.
Qed.

(** The score does pass the 10 of the report's "x/10": here it is 18. *)
Definition busy_heap : heap :=
  [ ODict [(ustr "id", VStr (ustr "verkeer")); (ustr "attributes", VRef 1)];
    ODict [(ustr "title",
            VStr (ustr "Verkeer, parkeren en afval: subsidie, beleid en onderzoek"))] ].

Example relevance_score_above_ten :
  ∃ a, analyze_dataset (VRef 0) busy_heap = (inr a, busy_heap)
       ∧ relevance_score a = 18%Z.
Proof. eexists. split; [by vm_compute|]. done. Qed.

Lemma example_records : Forall (record example_heap) [VRef 0].
Proof. repeat constructor. apply example_record. Qed.

Lemma find_related_datasets_spec_witness :
  Forall (record example_heap) [VRef 0]
  ∧ ∃ analyses out,
      Forall2 (λ d a, analyze_dataset d example_heap = (inr a, example_heap))
        [VRef 0] analyses
      ∧ find_related_datasets (ustr "Milieu") [VRef 0] example_heap
        = (inr out, example_heap)
      ∧ out ≡ₚ related_entries (py_lower (ustr "Milieu")) [VRef 0] analyses
      ∧ StronglySorted relevance_ge out.
Proof.
  split; [apply example_records|].
  apply (find_related_datasets_spec example_heap (ustr "Milieu") [VRef 0] example_records).
Defined.

(** Four datasets, two of them of equal relevance to "milieu": the first
    and the third score 4, the second scores 9, the fourth has nothing on
    the topic. *)
Definition tie_heap : heap :=
  [ ODict [(ustr "id", VStr (ustr "bakken")); (ustr "attributes", VRef 1)];
    ODict [(ustr "dct:title", VStr (ustr "Afvalbakken"))];
    ODict [(ustr "id", VStr (ustr "verkeer")); (ustr "attributes", VRef 3)];
    ODict [(ustr "dct:title", VStr (ustr "Verkeer, parkeren en afval"))];
    ODict [(ustr "id", VStr (ustr "containers")); (ustr "attributes", VRef 5)];
    ODict [(ustr "dct:title", VStr (ustr "Afvalcontainers"))];
    ODict [(ustr "id", VStr (ustr "bomen")); (ustr "attributes", VRef 7)];
    ODict [(ustr "dct:title", VStr (ustr "Bomen"))] ].

Definition tie_datasets : list val := [VRef 0; VRef 2; VRef 4; VRef 6].

Lemma tie_records : Forall (record tie_heap) tie_datasets.
Proof.
  repeat constructor;
    (eexists; split; [done|]; intros attrs [= <-]; eexists; split; [done|];
     intros k v Hk Hv; exfalso;
     repeat (apply elem_of_cons in Hk as [->|Hk]); [..|by apply elem_of_nil in Hk];
     by vm_compute in Hv).
Qed.

(** The ranking of the four: the second comes first, and the two of equal
    relevance follow in the order of the input. *)
Lemma tie_ranking :
  ∃ out,
    find_related_datasets (ustr "milieu") tie_datasets tie_heap = (inr out, tie_heap)
    ∧ rel_dataset <$> out = [VRef 2; VRef 0; VRef 4]
    ∧ relevance <$> out = [9; 4; 4]%Z
    ∧ rel_dataset <$> filter (λ x, relevance x = 4%Z) out = [VRef 0; VRef 4].
Proof. eexists. split; [by vm_compute|]. split_and!; by vm_compute. Qed.

Lemma find_related_datasets_stable_witness :
  Forall (record tie_heap) tie_datasets
  ∧ ∃ analyses out,
      Forall2 (λ d a, analyze_dataset d tie_heap = (inr a, tie_heap)) tie_datasets analyses
      ∧ find_related_datasets (ustr "milieu") tie_datasets tie_heap = (inr out, tie_heap)
      ∧ rel_dataset <$> related_entries (py_lower (ustr "milieu")) tie_datasets analyses
        `sublist_of` tie_datasets
      ∧ (∀ r, filter (λ x, relevance x = r) out
              = filter (λ x, relevance x = r)
                  (related_entries (py_lower (ustr "milieu")) tie_datasets analyses))
      ∧ rel_dataset <$> out = [VRef 2; VRef 0; VRef 4]
      ∧ relevance <$> out = [9; 4; 4]%Z
      ∧ rel_dataset <$> filter (λ x, relevance x = 4%Z)
                          (related_entries (py_lower (ustr "milieu")) tie_datasets analyses)
        = [VRef 0; VRef 4].
Proof.
  split; [apply tie_records|].
  destruct (find_related_datasets_stable tie_heap (ustr "milieu") tie_datasets tie_records)
    as (analyses & out & Hanalyses & Hrun & Hsub & Hties).
  destruct tie_ranking as (out' & Hrun' & Hdatasets & Hrelevance & Htied).
  rewrite Hrun in Hrun'. injection Hrun' as <-.
  exists analyses, out. split_and!; try assumption.
  rewrite <- (Hties 4%Z). exact Htied.
Defined.


(** Attributes with an empty title under [dct:] and a name under [foaf:]. *)
Definition resolver_items : list (pystr * val) :=
  [(ustr "dct:title", VStr []); (ustr "title", VStr (ustr "Afval"));
   (ustr "foaf:name", VStr (ustr "Utrecht"))].

Definition resolver_heap : heap := [ODict resolver_items].

Lemma get_attr_spec_witness :
  as_dict resolver_heap (VRef 0) = Some resolver_items
  ∧ get_attr (VRef 0) (ustr "title") resolver_heap
    = (inr (first_present resolver_items (resolver_keys (ustr "title"))), resolver_heap)
  ∧ _get_attr (VRef 0) (ustr "title") resolver_heap
    = (inr (connector_attr resolver_heap resolver_items (ustr "title")), resolver_heap).
Proof.
  split; [done|].
  apply (get_attr_spec resolver_heap (VRef 0) resolver_items (ustr "title") eq_refl).
Defined.

(** The claim as stated, read of the connector's [_get_attr]: it passes
    over the empty title that is present, and it does not try [foaf:]. *)
Lemma connector_get_attr_differs :
  first_present resolver_items (resolver_keys (ustr "title")) = VStr []
  ∧ _get_attr (VRef 0) (ustr "title") resolver_heap
    = (inr (VStr (ustr "Afval")), resolver_heap)
  ∧ first_present resolver_items (resolver_keys (ustr "name")) = VStr (ustr "Utrecht")
  ∧ _get_attr (VRef 0) (ustr "name") resolver_heap = (inr VNone, resolver_heap).
Proof. split_and!; by vm_compute. Qed.

(** A backend whose handlers return an empty text. *)
Definition silent_backend : Backend := {|
  search_datasets _ _ := mret [];
  get_dataset _ := mret [];
  get_distributions _ := mret [];
  list_all_datasets := mret [];
  analyze_woo_connection _ := mret [];
  find_woo_related_datasets _ := mret [];
  dataoverheid_search _ _ _ _ := mret [];
  dataoverheid_get_dataset _ := mret [];
  dataoverheid_list_organizations _ := mret [];
  dataoverheid_get_organization _ _ := mret [];
  fetch_api _ := mret VNone;
  json_dumps _ := mret []
|}.
#[local] Existing Instance silent_backend.

(** The request of the specification's scenario: [get_dataset] called with
    no arguments. *)
Definition scenario_request : list (pystr * val) :=
  [(ustr "jsonrpc", VStr (ustr "2.0")); (ustr "id", VInt 1);
   (ustr "method", VStr (ustr "tools/call")); (ustr "params", VRef 1)].

Definition scenario_heap : heap :=
  [ ODict scenario_request;
    ODict [(ustr "name", VStr (ustr "get_dataset")); (ustr "arguments", VRef 2)];
    ODict [] ].

Lemma handle_request_errors_witness :
  as_dict scenario_heap (VRef 0) = Some scenario_request
  ∧ ∃ e, handle_request (VRef 0) scenario_heap
         = (inr (ErrorResponse (VInt 1) (-32603)
                   (ustr "Tool execution failed: " ++ exn_str e)), scenario_heap)
         ∧ (is_Some (as_dict scenario_heap (VRef 2)) → e = KeyError (ustr "dataset_id")).
Proof.
  split; [done|].
  destruct (handle_request_errors scenario_heap (VRef 0) scenario_request eq_refl)
    as (_ & _ & Hcall).
  destruct (Hcall [(ustr "name", VStr (ustr "get_dataset")); (ustr "arguments", VRef 2)]
              eq_refl eq_refl) as [_ Hmissing].
  apply (Hmissing (Tool (ustr "get_dataset") [ustr "dataset_id"] [ustr "dataset_id"])
           (ustr "dataset_id")); [right; left|done|left|].
  by intros args [= <-].
Defined.

Example scenario_response :
  handle_request (VRef 0) scenario_heap
  = (inr (ErrorResponse (VInt 1) (-32603) (ustr "Tool execution failed: 'dataset_id'")),
     scenario_heap).
Proof. by vm_compute. Qed.


(** ** The handlers, the proxy and the loop at work *)

(** A backend whose [get_dataset] answers with the id it was given; the
    other handlers return an empty text. *)
Definition echo_backend : Backend := {|
  search_datasets _ _ := mret [];
  get_dataset dataset_id := h ← get_heap; mret (ustr "dataset " ++ py_format h dataset_id);
  get_distributions _ := mret [];
  list_all_datasets := mret [];
  analyze_woo_connection _ := mret [];
  find_woo_related_datasets _ := mret [];
  dataoverheid_search _ _ _ _ := mret [];
  dataoverheid_get_dataset _ := mret [];
  dataoverheid_list_organizations _ := mret [];
  dataoverheid_get_organization _ _ := mret [];
  fetch_api _ := mret VNone;
  json_dumps _ := mret []
|}.

(** A call of [get_dataset] with its argument. *)
Definition echo_params : list (pystr * val) :=
  [(ustr "name", VStr (ustr "get_dataset")); (ustr "arguments", VRef 1)].

Definition echo_heap : heap :=
  [ ODict echo_params; ODict [(ustr "dataset_id", VStr (ustr "afvalbakken"))] ].

Lemma echo_call :
  @call_tool _ echo_backend (VInt 1) (VRef 0) echo_heap
  = (inr (Response (VInt 1) (ContentResult (ustr "dataset afvalbakken"))), echo_heap).
Proof. by vm_compute. Qed.

Lemma call_tool_catalogue_witness :
  as_dict echo_heap (VRef 0) = Some echo_params
  ∧ ∃ resp h',
      @call_tool _ echo_backend (VInt 1) (VRef 0) echo_heap = (inr resp, h')
      ∧ (error_code resp = Some (-32602)%Z
         ↔ ∀ t, t ∈ tools → VStr (ustr "get_dataset") ≠ VStr (tool_name t))
      ∧ (∃ run, @tool_handler echo_backend (VStr (ustr "get_dataset")) (VRef 1) = Some run
                ∧ (inr resp, h') = tool_response (VInt 1) (run echo_heap))
      ∧ resp = Response (VInt 1) (ContentResult (ustr "dataset afvalbakken"))
      ∧ h' = echo_heap.
Proof.
  split; [reflexivity|].
  destruct (@call_tool_catalogue _ echo_backend echo_heap (VInt 1) (VRef 0) echo_params eq_refl)
    as (resp & h' & Hcall & Hcode & Hknown & _).
  exists resp, h'. split; [exact Hcall|]. split; [exact Hcode|]. split.
  - apply Hknown. exists (Tool (ustr "get_dataset") [ustr "dataset_id"] [ustr "dataset_id"]).
    split; [right; left|reflexivity].
  - rewrite echo_call in Hcall. injection Hcall as <- <-. split; reflexivity.
Defined.

(** A request for the list of the tools. *)
Definition tools_list_request : list (pystr * val) :=
  [(ustr "jsonrpc", VStr (ustr "2.0")); (ustr "id", VInt 2);
   (ustr "method", VStr (ustr "tools/list"))].

Lemma handle_request_answers_witness :
  as_dict [ODict tools_list_request] (VRef 0) = Some tools_list_request
  ∧ ∃ resp h',
      handle_request (VRef 0) [ODict tools_list_request] = (inr resp, h')
      ∧ response_id resp = VInt 2
      ∧ (∀ c, error_code resp = Some c → c ∈ [-32601; -32602; -32603]%Z)
      ∧ (error_code resp = Some (-32601)%Z
         ↔ ∀ m, m ∈ methods → VStr (ustr "tools/list") ≠ VStr m)
      ∧ ((∃ m, m ∈ [ustr "initialize"; ustr "resources/list"]
               ∧ VStr (ustr "tools/list") = VStr m) →
         error_code resp = None ∧ h' = [ODict tools_list_request])
      ∧ resp = ErrorResponse (VInt 2) (-32603) (ustr "name 'false' is not defined")
      ∧ h' = [ODict tools_list_request].
Proof.
  split; [reflexivity|].
  destruct (handle_request_answers [ODict tools_list_request] (VRef 0) tools_list_request
              eq_refl) as (resp & h' & Hrun & Hid & Hcodes & Hmethod & Hquiet & Htools).
  exists resp, h'. split_and!; [exact Hrun|exact Hid|exact Hcodes|exact Hmethod|exact Hquiet|..];
    by destruct (Htools eq_refl).
Defined.

(** The list of the tools is not given. *)
Example tools_list_response :
  handle_request (VRef 0) [ODict tools_list_request]
  = (inr (ErrorResponse (VInt 2) (-32603) (ustr "name 'false' is not defined")),
     [ODict tools_list_request]).
Proof. by vm_compute. Qed.

(** A request to read a resource whose parameters are [null]. *)
Definition null_params : list (pystr * val) :=
  [(ustr "id", VInt 9); (ustr "method", VStr (ustr "resources/read"));
   (ustr "params", VNone)].

Lemma handle_request_bad_params_witness :
  handle_request (VRef 0) [ODict null_params]
  = (inr (ErrorResponse (VInt 9) (-32603)
            (ustr "'" ++ type_name [ODict null_params] VNone
             ++ ustr "' object has no attribute 'get'")), [ODict null_params]).
Proof.
  apply (handle_request_bad_params [ODict null_params] (VRef 0) null_params eq_refl
           (or_intror eq_refl) eq_refl).
Defined.

(** A dataset with an identifier and nothing else. *)
Definition bare_heap : heap := [ODict [(ustr "id", VStr (ustr "leeg"))]].

Lemma bare_blank : blank bare_heap [].
Proof. intros key _. reflexivity. Qed.

Lemma analyze_dataset_blank_witness :
  blank bare_heap []
  ∧ analyze_dataset (VRef 0) bare_heap
    = (inr (empty_analysis (VStr (ustr "leeg"))), bare_heap)
  ∧ ∀ woo_topic, find_related_datasets woo_topic [VRef 0] bare_heap = (inr [], bare_heap).
Proof.
  split; [apply bare_blank|].
  apply (analyze_dataset_blank bare_heap (VRef 0) [(ustr "id", VStr (ustr "leeg"))] []
           eq_refl eq_refl bare_blank).
Defined.

(** A dataset whose attributes are [null]. *)
Definition null_heap : heap := [ODict [(ustr "id", VStr (ustr "x")); (ustr "attributes", VNone)]].

Lemma analyze_dataset_raises_witness :
  analyze_dataset (VRef 0) null_heap = (inl (no_get null_heap VNone), null_heap).
Proof.
  apply (analyze_dataset_raises null_heap (VRef 0)
           [(ustr "id", VStr (ustr "x")); (ustr "attributes", VNone)] VNone
           eq_refl eq_refl eq_refl).
Defined.

Lemma example_analysed :
  Forall (λ d, ∃ a, analyze_dataset d example_heap = (inr a, example_heap)) [VRef 0].
Proof.
  repeat constructor.
  destruct (analyze_dataset_record example_heap (VRef 0) example_record)
    as (i & t & text & Hrun).
  eauto.
Qed.

Lemma find_related_datasets_raises_witness :
  find_related_datasets (ustr "afval") ([VRef 0] ++ VInt 7 :: [VRef 0]) example_heap
  = (inl (no_get example_heap (VInt 7)), example_heap).
Proof.
  apply (find_related_datasets_raises example_heap (ustr "afval") [VRef 0] [VRef 0] (VInt 7)
           (no_get example_heap (VInt 7)) example_analysed eq_refl).
Defined.

Lemma shorter_query : substring (py_lower []) (py_lower (ustr "Milieu")).
Proof. by exists [], (ustr "milieu"). Qed.

Lemma find_related_datasets_monotone_witness :
  ∃ out out',
    find_related_datasets [] [VRef 0] example_heap = (inr out, example_heap)
    ∧ find_related_datasets (ustr "Milieu") [VRef 0] example_heap = (inr out', example_heap)
    ∧ length out' ≤ length out
    ∧ ∀ r', r' ∈ out' →
            ∃ r, r ∈ out
                 ∧ rel_dataset r = rel_dataset r' ∧ rel_analysis r = rel_analysis r'
                 ∧ (relevance r' ≤ relevance r)%Z.
Proof.
  apply (find_related_datasets_monotone example_heap [] (ustr "Milieu") [VRef 0]
           example_records shorter_query).
Defined.

Lemma generate_woo_report_lines_witness :
  ∃ a, analyze_dataset (VRef 0) example_heap = (inr a, example_heap)
       ∧ generate_woo_report (VRef 0) example_heap
         = (inr (str_join nl (report_lines example_heap a)), example_heap)
       ∧ (one_line (py_format example_heap (title a)) →
          one_line (py_format example_heap (dataset_id a)) →
          one_line (py_format example_heap (VInt (relevance_score a))) →
          split_on 10 (str_join nl (report_lines example_heap a))
          = report_lines example_heap a).
Proof. apply (generate_woo_report_lines example_heap (VRef 0) example_record). Defined.

(** The report of the connector's own example reads back line by line. *)
Example report_read_back :
  ∃ a report,
    analyze_dataset (VRef 0) example_heap = (inr a, example_heap)
    ∧ generate_woo_report (VRef 0) example_heap = (inr report, example_heap)
    ∧ split_on 10 report = report_lines example_heap a
    ∧ length (report_lines example_heap a) = 40.
Proof. eexists _, _. split_and!; [by vm_compute..|]. by vm_compute. Qed.

(** An upstream that answers every request, and a decoder that finds the
    decoded response at the address 0 of the heap. *)
#[local] Instance fixed_upstream : Upstream := {|
  urlopen _ := Body [];
  json_loads _ := mret (VRef 0)
|}.

#[local] Instance both_modules : Handlers.Modules := {|
  Handlers.woo_connector := true;
  Handlers.dataoverheid := true
|}.

(** The response to [/datasets] with one dataset, and a call of
    [search_datasets] with the query ["afval"]. *)
Definition catalogue_heap : heap :=
  [ ODict [(ustr "data", VRef 1)];
    OList [VRef 2];
    ODict [(ustr "id", VStr (ustr "afvalbakken")); (ustr "attributes", VRef 3)];
    ODict [(ustr "dct:title", VStr (ustr "Afvalbakken"));
           (ustr "dct:description", VStr (ustr "Overzicht van afvalbakken"))];
    ODict [(ustr "name", VStr (ustr "search_datasets")); (ustr "arguments", VRef 5)];
    ODict [(ustr "query", VStr (ustr "afval"))] ].

Lemma search_tool_query_fails_witness :
  @call_tool _ (Server.backend silent_backend) (VInt 7) (VRef 4) catalogue_heap
  = (inr (ErrorResponse (VInt 7) (-32603)
            (ustr "Tool execution failed: "
             ++ ustr "MCPServer.get_attr() takes 3 positional arguments but 4 were given")),
     catalogue_heap).
Proof.
  apply (search_tool_query_fails silent_backend catalogue_heap catalogue_heap (VInt 7) (VRef 4)
           (VRef 0)
           [(ustr "name", VStr (ustr "search_datasets")); (ustr "arguments", VRef 5)]
           [(ustr "query", VStr (ustr "afval"))]
           [(ustr "data", VRef 1)] (ustr "afval") (VRef 2) []);
    try reflexivity.
  - discriminate.
  - eexists. reflexivity.
Defined.

Lemma catalogue_plain : Forall (plain catalogue_heap) [VRef 2].
Proof.
  repeat constructor. eexists _, _. split_and!; [reflexivity..| |]; right; by eexists.
Qed.

Lemma catalogue_fetch :
  Handlers.fetch_api (ustr "/datasets") catalogue_heap = (inr (VRef 0), catalogue_heap).
Proof. reflexivity. Qed.

Lemma search_datasets_listing_witness :
  let shown := slice_to (Some 5%Z) [VRef 2] in
  let h2 := catalogue_heap ++ [OList shown] in
  Handlers.search_datasets VNone (VInt 5) catalogue_heap
  = (inr (ustr "Gevonden: " ++ py_format h2 (VInt (Z.of_nat (length shown)))
          ++ ustr " datasets" ++ nl ++ nl ++ concat (search_text h2 <$> shown)), h2).
Proof.
  apply (search_datasets_listing catalogue_heap catalogue_heap VNone (VInt 5) (VRef 0)
           (Some 5%Z) [(ustr "data", VRef 1)] [VRef 2] catalogue_fetch eq_refl eq_refl
           catalogue_plain eq_refl eq_refl).
Defined.

(** A call of [find_woo_related_datasets] with its topic. *)
Definition woo_call_heap : heap :=
  [ ODict [(ustr "name", VStr (ustr "find_woo_related_datasets")); (ustr "arguments", VRef 1)];
    ODict [(ustr "topic", VStr (ustr "afval"))] ].

Lemma woo_tools_answer_witness :
  ∃ text h',
    @call_tool _ (Server.backend silent_backend) (VInt 3) (VRef 0) woo_call_heap
    = (inr (Response (VInt 3) (ContentResult text)), h').
Proof.
  apply (woo_tools_answer silent_backend woo_call_heap (VInt 3) (VRef 0)
           [(ustr "name", VStr (ustr "find_woo_related_datasets")); (ustr "arguments", VRef 1)]
           [(ustr "topic", VStr (ustr "afval"))] (VStr (ustr "afval")) eq_refl eq_refl).
  right. split; reflexivity.
Defined.

Lemma no_slash : 47%N ∉ ustr "afvalbakken".
Proof. by_compute. Qed.

Lemma handle_woo_analysis_segment_witness :
  handle_woo_analysis (ustr "/woo/analyze" ++ ustr "/" ++ ustr "afvalbakken") catalogue_heap
  = analysis_reply (ustr "afvalbakken") catalogue_heap
  ∧ ∃ r h',
      analysis_reply (ustr "afvalbakken") catalogue_heap = (inr r, h')
      ∧ ((∃ a, r = Reply 200 (ustr "application/json; charset=utf-8") (AnalysisJson a))
         ∨ (∃ error, r = Reply 500 (ustr "application/json") (ErrorJson error))).
Proof.
  apply (handle_woo_analysis_segment catalogue_heap (ustr "/woo/analyze") (ustr "afvalbakken")
           no_slash).
Defined.

(** A decoder of lines that finds the request at the address 0. *)
#[local] Instance fixed_json : Json := {|
  loads _ := mret (inr (VRef 0));
  dumps _ _ := []
|}.

Lemma one_line_read : Forall (λ line : pystr, line ≠ []) [ustr "{}" ++ nl].
Proof. by repeat constructor. Qed.

Lemma main_answers_witness :
  ∃ ws h',
    main [ustr "{}" ++ nl] scenario_heap
    = (inr (Stderr (ustr "Utrecht Open Data MCP Server gestart" ++ nl) :: ws), h')
    ∧ Forall2 (λ line w, ∃ h1, answer h1 line w) [ustr "{}" ++ nl] ws.
Proof. apply (main_answers scenario_heap [ustr "{}" ++ nl] one_line_read). Defined.
